(** * The GitLab push webhook of [server/webhook.go]

    A shallow embedding of the handler that [registerWebhookRoutes]
    installs on [POST /gitlab/:id], and the properties of the
    VCS-push-triggered pipeline builder that are checked against it.

    The handler is sequential Go code that talks to services (repository,
    database, policy, issue and activity stores, the GitLab API) and to
    library functions.  Their code is not part of the handler: they are
    taken as functions of their arguments, collected in the records [Deps]
    and [Server], so that a call with the same arguments gives the same
    answer during one request.  The writes of the handler (log lines,
    issue creation calls, activity creation calls) are collected, in
    program order, in a trace.  The [defer resp.Body.Close()] of line 172
    releases a connection and is left out. *)

From Stdlib Require Import ZArith Ascii DecimalString Sorted.
From stdpp Require Import gmap strings list fin_maps.

Local Open Scope Z_scope.
Local Open Scope string_scope.
Local Open Scope list_scope.

(** ** Errors and results *)

(** Error codes of package [common]; the handler tests for [NotFound]. *)
Inductive Code := Internal | Invalid | NotFound | Conflict.

(** A Go [error]: what [common.ErrorCode] and [Error()] return for it. *)
Record error := mkError { errorCode : Code; errorString : string }.

(** [fmt.Errorf]: [common.ErrorCode] is [Internal] for an error that is not
    a [common.Error]. *)
Definition Errorf (msg : string) : error :=
  {| errorCode := Internal; errorString := msg |}.

(** A Go pair [(value, err)]. *)
Inductive result (A : Type) : Type :=
| Ok (a : A)
| Err (err : error).
Arguments Ok {A} a.
Arguments Err {A} err.

(** ** The structs the handler reads and builds *)

Module Environment.
Record t := mk { ID : Z; Name : string }.
End Environment.

Module Instance.
Record t := mk { EnvironmentId : Z; Environment : Environment.t }.
End Instance.

Module Database.
Record t := mk { ID : Z; InstanceId : Z; Instance : Instance.t }.
End Database.

Module VCS.
Record t := mk { Type_ : string; InstanceURL : string }.
End VCS.

Module Repository.
Record t := mk {
  Name : string;
  ProjectId : Z;
  VCS : VCS.t;
  ExternalId : string;
  WebhookSecretToken : string;
  AccessToken : string;
  BaseDirectory : string;
  FilePathTemplate : string;
  SchemaPathTemplate : string;
}.
End Repository.

Module Commit.
Record t := mk {
  ID : string;
  Title : string;
  Message : string;
  Timestamp : string;
  URL : string;
  AuthorName : string;          (* commit.Author.Name *)
  AddedList : list string;
}.
End Commit.

Module Project.
Record t := mk { ID : Z; WebURL : string; FullPath : string }.
End Project.

Module WebhookPushEvent.
Record t := mk {
  ObjectKind : string;
  Ref : string;
  AuthorName : string;
  Project : Project.t;
  CommitList : list Commit.t;
}.
End WebhookPushEvent.

Module VCSFileCommit.
Record t := mk {
  ID : string;
  Title : string;
  Message : string;
  CreatedTs : Z;
  URL : string;
  AuthorName : string;
  Added : string;
}.
End VCSFileCommit.

Module VCSPushEvent.
Record t := mk {
  VCSType : string;
  BaseDirectory : string;
  Ref : string;
  RepositoryID : string;
  RepositoryURL : string;
  RepositoryFullPath : string;
  AuthorName : string;
  FileCommit : VCSFileCommit.t;
}.
End VCSPushEvent.

(** [api.ActivityProjectRepositoryPushPayload]; a field left out of a Go
    composite literal holds its zero value. *)
Module PushPayload.
Record t := mk {
  VCSPushEvent : VCSPushEvent.t;
  IssueId : Z;
  IssueName : string;
}.
End PushPayload.

(** What [db.ParseMigrationInfo] extracts from a file path. *)
Module MigrationInfo.
Record t := mk {
  Version : string;
  Database : string;
  Environment : string;
  Type_ : string;
  Description : string;
}.
End MigrationInfo.

Inductive TaskStatus :=
| TaskPending | TaskPendingApproval | TaskRunning | TaskDone | TaskFailed | TaskCanceled.

Inductive TaskType := TaskGeneral | TaskDatabaseCreate | TaskDatabaseSchemaUpdate.

Inductive IssueType :=
| IssueGeneral | IssueDatabaseCreate | IssueDatabaseGrant
| IssueDatabaseSchemaUpdate | IssueDataSourceRequest.

Inductive ActivityType := ActivityIssueCreate | ActivityProjectRepositoryPush.

Inductive ActivityLevel := ACTIVITY_INFO | ACTIVITY_WARN | ACTIVITY_ERROR.

Module TaskCreate.
Record t := mk {
  InstanceId : Z;
  DatabaseId : Z;
  Name : string;
  Status : TaskStatus;
  Type_ : TaskType;
  Statement : string;
  VCSPushEvent : VCSPushEvent.t;
  MigrationType : string;
}.
End TaskCreate.

Module StageCreate.
Record t := mk {
  EnvironmentId : Z;
  TaskList : list TaskCreate.t;
  Name : string;
}.
End StageCreate.

Module PipelineCreate.
Record t := mk { StageList : list StageCreate.t; Name : string }.
End PipelineCreate.

Module IssueCreate.
Record t := mk {
  ProjectId : Z;
  Pipeline : PipelineCreate.t;
  Name : string;
  Type_ : IssueType;
  Description : string;
  AssigneeId : Z;
}.
End IssueCreate.

(** The fields of a created [api.Issue] that the handler reads. *)
Module Issue.
Record t := mk { ID : Z; Name : string }.
End Issue.

Module ActivityCreate.
Record t := mk {
  CreatorId : Z;
  ContainerId : Z;
  Type_ : ActivityType;
  Level : ActivityLevel;
  Comment : string;
  Payload : string;
}.
End ActivityCreate.

(** [api.PipelineApprovalPolicy]; [PipelineApprovalValue] is a Go string
    type. *)
Module PipelineApprovalPolicy.
Record t := mk { Value : string }.
End PipelineApprovalPolicy.

(** The response of [gitlab.GET]: what [io.ReadAll] gives for its body. *)
Module Response.
Record t := mk { Body : result string }.
End Response.

(** The parts of the HTTP request the handler reads. *)
Module Request.
Record t := mk {
  Body : result string;        (* io.ReadAll(c.Request().Body) *)
  GitlabToken : string;        (* Header.Get("X-Gitlab-Token") *)
  id : string;                 (* c.Param("id") *)
}.
End Request.

(** ** What the handler returns *)

Definition StatusOK : Z := 200.
Definition StatusBadRequest : Z := 400.
Definition StatusNotFound : Z := 404.
Definition StatusInternalServerError : Z := 500.

Inductive HTTPResult :=
| HTTPError (code : Z) (message : string)   (* return echo.NewHTTPError(code, message) *)
| HTTPString (code : Z) (body : string)     (* return c.String(code, body) *)
| Panicked.                                 (* a run-time panic left the handler *)

(** ** The trace of writes *)

Inductive LogLevel := Debug | Warn.

Inductive Event :=
| EvLog (level : LogLevel) (msg : string)
| EvCreateIssue (issueCreate : IssueCreate.t) (creator : Z) (res : result Issue.t)
| EvCreateActivity (activityCreate : ActivityCreate.t) (res : result unit).

Definition Trace := list Event.

(** ** Control flow of a loop body

    A statement either falls through with a value, executes [continue] of
    the loop over the added files, executes [return] of the handler, or
    panics; in each case it has written a trace. *)

Inductive Flow (A : Type) : Type :=
| Go (a : A)
| Continue
| Return (r : HTTPResult)
| Panic.
Arguments Go {A} a.
Arguments Continue {A}.
Arguments Return {A} r.
Arguments Panic {A}.

Definition M (A : Type) : Type := (Trace * Flow A)%type.

Definition ret {A} (a : A) : M A := ([], Go a).

Definition bind {A B} (m : M A) (k : A → M B) : M B :=
  match m with
  | (tr, Go a) => let '(tr', f) := k a in (tr ++ tr', f)
  | (tr, Continue) => (tr, Continue)
  | (tr, Return r) => (tr, Return r)
  | (tr, Panic) => (tr, Panic)
  end.

Notation "x <- m ;; k" := (bind m (fun x => k))
  (at level 100, m at next level, right associativity).
Notation "m >> k" := (bind m (fun _ => k))
  (at level 100, right associativity).

Definition emit (tr : Trace) : M unit := (tr, Go tt).
Definition continue {A} : M A := ([], Continue).
Definition return_ {A} (r : HTTPResult) : M A := ([], Return r).
Definition panic {A} : M A := ([], Panic).

(** [for _, x := range l { st = body(st, x) }] *)
Fixpoint forRange {A S} (l : list A) (body : S → A → M S) (st : S) : M S :=
  match l with
  | [] => ret st
  | x :: l' => st' <- body st x ;; forRange l' body st'
  end.

(** A [continue] ends the current iteration; the loop variables keep the
    values [st] they had when the iteration started, when the body assigns
    to them only on the path that falls through. *)
Definition iteration {S} (st : S) (m : M S) : M S :=
  match m with
  | (tr, Continue) => (tr, Go st)
  | _ => m
  end.

(** ** Strings *)

(** [strconv.Itoa], and the verbs [%d] and [%v] at an [int]. *)
Definition Itoa (n : Z) : string := NilZero.string_of_int (Z.to_int n).

Definition newline : string := String (ascii_of_nat 10) EmptyString.

(** [strings.Join] *)
Definition Join (l : list string) (sep : string) : string := String.concat sep l.

(** [strings.HasPrefix] *)
Definition HasPrefix (s pre : string) : bool := String.prefix pre s.

(** [strings.ReplaceAll] for a non-empty [old]: the occurrences are taken
    from the left and do not overlap.  [skip] counts the bytes of an
    occurrence that are still to be dropped. *)
Fixpoint replaceFrom (skip : nat) (s old new : string) : string :=
  match s with
  | EmptyString => EmptyString
  | String c s' =>
      match skip with
      | S n => replaceFrom n s' old new
      | O =>
          if String.prefix old s
          then new +:+ replaceFrom (Nat.pred (String.length old)) s' old new
          else String c (replaceFrom O s' old new)
      end
  end.

Definition ReplaceAll (s old new : string) : string := replaceFrom O s old new.

(** ** What the handler calls *)

(** Library functions and the functions and constants of the packages
    [api], [common], [gitlab] and [db], which are not among the sources. *)
Record Deps := {
  (** [json.Unmarshal(b, pushEvent)] *)
  jsonUnmarshal : string → result WebhookPushEvent.t;
  (** [json.Marshal] at [api.ActivityProjectRepositoryPushPayload] *)
  jsonMarshal : PushPayload.t → result string;
  (** [time.Parse(time.RFC3339, _)], as the Unix time of the result *)
  timeParse : string → result Z;
  (** [regexp.Compile]: a compiled expression is given by its [MatchString] *)
  regexpCompile : string → result (string → bool);
  (** [strings.EqualFold] *)
  EqualFold : string → string → bool;
  (** the verb [%q] at a string ([strconv.Quote]) *)
  Quote : string → string;
  (** [filepath.Join] of two elements *)
  filepathJoin : string → string → string;
  (** [url.QueryEscape] *)
  QueryEscape : string → string;
  (** [db.ParseMigrationInfo(filePath, filePathTemplate)] *)
  ParseMigrationInfo : string → string → result MigrationInfo.t;
  (** [gitlab.GET(instanceURL, path, token)] *)
  gitlabGET : string → string → string → result Response.t;
  (** [api.SYSTEM_BOT_ID] *)
  SYSTEM_BOT_ID : Z;
  (** [api.PipelineApprovalValueManualNever] *)
  PipelineApprovalValueManualNever : string;
}.

(** The services of [*Server] the handler uses. *)
Record Server := {
  (** [s.RepositoryService.FindRepository] by [WebhookEndpointId] *)
  FindRepository : string → result Repository.t;
  (** [s.ComposeRepositoryRelationship]: the repository with its
      relationships filled in *)
  ComposeRepositoryRelationship : Repository.t → result Repository.t;
  (** [s.ComposeDatabaseListByFind] by [ProjectId] and [Name] *)
  ComposeDatabaseListByFind : Z → string → result (list Database.t);
  (** [s.PolicyService.GetPipelineApprovalPolicy] by environment id *)
  GetPipelineApprovalPolicy : Z → result PipelineApprovalPolicy.t;
  (** [s.CreateIssue(ctx, issueCreate, creatorId)] *)
  CreateIssue : IssueCreate.t → Z → result Issue.t;
  (** [s.ActivityManager.CreateActivity]; the created activity is dropped *)
  CreateActivity : ActivityCreate.t → result unit;
}.

(** [gitlab.WebhookPush]; the handler's own message reads "want push". *)
Definition WebhookPush : string := "push".

(** [time.Time{}.Unix()]: the Unix time of the zero [time.Time], which
    [time.Parse] returns with an error. *)
Definition zeroTimeUnix : Z := -62135596800.

(** The loop variables of the database loop at lines 216-239. *)
Definition EnvMaps : Type := (gmap Z (list Database.t) * gmap Z string)%type.

(** ** The handler *)

Section Webhook.

Context (d : Deps) (s : Server).

(** Lines 86-93: the expression that recognises the generated schema file. *)
Definition placeholderList : list string := ["ENV_NAME"; "DB_NAME"].

Definition schemafilePathRegex (schemaPathTemplate : string) : string :=
  fold_left
    (fun regex placeholder =>
       ReplaceAll regex ("{{" +:+ placeholder +:+ "}}")
                  ("(?P<" +:+ placeholder +:+ ">[a-zA-Z0-9+-=/_#?!$. ]+)"))
    placeholderList schemaPathTemplate.

(** Lines 106-123. *)
Definition makeVCSPushEvent (repository : Repository.t)
    (pushEvent : WebhookPushEvent.t) (commit : Commit.t) (added : string)
    (createdTime : Z) : VCSPushEvent.t :=
  {| VCSPushEvent.VCSType := VCS.Type_ (Repository.VCS repository);
     VCSPushEvent.BaseDirectory := Repository.BaseDirectory repository;
     VCSPushEvent.Ref := WebhookPushEvent.Ref pushEvent;
     VCSPushEvent.RepositoryID :=
       Itoa (Project.ID (WebhookPushEvent.Project pushEvent));
     VCSPushEvent.RepositoryURL :=
       Project.WebURL (WebhookPushEvent.Project pushEvent);
     VCSPushEvent.RepositoryFullPath :=
       Project.FullPath (WebhookPushEvent.Project pushEvent);
     VCSPushEvent.AuthorName := WebhookPushEvent.AuthorName pushEvent;
     VCSPushEvent.FileCommit :=
       {| VCSFileCommit.ID := Commit.ID commit;
          VCSFileCommit.Title := Commit.Title commit;
          VCSFileCommit.Message := Commit.Message commit;
          VCSFileCommit.CreatedTs := createdTime;
          VCSFileCommit.URL := Commit.URL commit;
          VCSFileCommit.AuthorName := Commit.AuthorName commit;
          VCSFileCommit.Added := added |} |}.

(** The activity of lines 136-143. *)
Definition ignoredFileActivity (repository : Repository.t) (added : string)
    (err : error) (bytes : string) : ActivityCreate.t :=
  {| ActivityCreate.CreatorId := SYSTEM_BOT_ID d;
     ActivityCreate.ContainerId := Repository.ProjectId repository;
     ActivityCreate.Type_ := ActivityProjectRepositoryPush;
     ActivityCreate.Level := ACTIVITY_WARN;
     ActivityCreate.Comment :=
       "Ignored committed file " +:+ Quote d added +:+ ", "
         +:+ errorString err +:+ ".";
     ActivityCreate.Payload := bytes |}.

(** Lines 126-148: create a WARNING project activity if the committed
    file is ignored.  The closure returns nothing: whatever happens in
    it, the caller goes on. *)
Definition createIgnoredFileActivity (repository : Repository.t)
    (vcsPushEvent : VCSPushEvent.t) (added : string) (err : error) : M unit :=
  emit [EvLog Warn "Ignored committed file"] >>
  match jsonMarshal d {| PushPayload.VCSPushEvent := vcsPushEvent;
                         PushPayload.IssueId := 0;
                         PushPayload.IssueName := "" |} with
  | Err marshalErr =>
      emit [EvLog Warn "Failed to construct project activity payload to record ignored repository committed file"]
  | Ok bytes =>
      let activityCreate := ignoredFileActivity repository added err bytes in
      match CreateActivity s activityCreate with
      | Err err' =>
          emit [EvCreateActivity activityCreate (Err err');
                EvLog Warn "Failed to create project activity to record ignored repository committed file"]
      | Ok a => emit [EvCreateActivity activityCreate (Ok a)]
      end
  end.

(** Lines 216-239: the body of the loop over [filterdDatabaseList].  The
    [continue] of line 235 stands in this loop, so it ends the iteration
    for this database, not the processing of the file. *)
Definition groupDatabase (repository : Repository.t)
    (vcsPushEvent : VCSPushEvent.t) (added : string)
    (maps : EnvMaps) (database : Database.t) : M EnvMaps :=
  let '(databaseListByEnv, pipelineApprovalByEnv) := maps in
  let environmentId := Instance.EnvironmentId (Database.Instance database) in
  let databaseListByEnv :=
    match databaseListByEnv !! environmentId with
    | Some list => <[environmentId := list ++ [database]]> databaseListByEnv
    | None => <[environmentId := [] ++ [database]]> databaseListByEnv
    end in
  match pipelineApprovalByEnv !! environmentId with
  | Some _ => ret (databaseListByEnv, pipelineApprovalByEnv)
  | None =>
      match GetPipelineApprovalPolicy s environmentId with
      | Err _ =>
          createIgnoredFileActivity repository vcsPushEvent added
            (Errorf ("failed to find pipeline approval policy for environment "
                       +:+ Itoa environmentId)) >>
          ret (databaseListByEnv, pipelineApprovalByEnv)
      | Ok p =>
          ret (databaseListByEnv,
               <[environmentId := PipelineApprovalPolicy.Value p]>
                 pipelineApprovalByEnv)
      end
  end.

(** Lines 241-251: the loop over [databaseListByEnv].  Go leaves the
    order of a map range open; only the order of the log lines depends on
    it, and they are taken here in the order of [map_to_list]. *)
Definition warnAmbiguous (mi : MigrationInfo.t)
    (multipleDatabaseForSameEnv : bool) (entry : Z * list Database.t) : M bool :=
  let '(environemntId, databaseList) := entry in
  if (1 <? length databaseList)%nat
  then emit [EvLog Warn
               ("Ignored committed file, multiple ambiguous databases named "
                  +:+ Quote d (MigrationInfo.Database mi)
                  +:+ " for environment " +:+ Itoa environemntId +:+ ".")] >>
       ret true
  else ret multipleDatabaseForSameEnv.

Definition checkAmbiguous (mi : MigrationInfo.t)
    (databaseListByEnv : gmap Z (list Database.t)) : M bool :=
  forRange (map_to_list databaseListByEnv) (warnAmbiguous mi) false.

(** Lines 260-281: the stage of one database. A Go map read at a key that
    is not in the map gives the zero value of the element type. *)
Definition makeStage (vcsPushEvent : VCSPushEvent.t) (mi : MigrationInfo.t)
    (b : string) (pipelineApprovalByEnv : gmap Z string)
    (database : Database.t) : StageCreate.t :=
  let databaseID := Database.ID database in
  let taskStatus :=
    if String.eqb
         (default ""
            (pipelineApprovalByEnv !!
               Environment.ID (Instance.Environment (Database.Instance database))))
         (PipelineApprovalValueManualNever d)
    then TaskPending else TaskPendingApproval in
  let task :=
    {| TaskCreate.InstanceId := Database.InstanceId database;
       TaskCreate.DatabaseId := databaseID;
       TaskCreate.Name := MigrationInfo.Description mi;
       TaskCreate.Status := taskStatus;
       TaskCreate.Type_ := TaskDatabaseSchemaUpdate;
       TaskCreate.Statement := b;
       TaskCreate.VCSPushEvent := vcsPushEvent;
       TaskCreate.MigrationType := MigrationInfo.Type_ mi |} in
  {| StageCreate.EnvironmentId :=
       Instance.EnvironmentId (Database.Instance database);
     StageCreate.TaskList := [task];
     StageCreate.Name :=
       Environment.Name (Instance.Environment (Database.Instance database)) |}.

(** Lines 259-293: compose the new issue. *)
Definition makeIssueCreate (repository : Repository.t) (commit : Commit.t)
    (vcsPushEvent : VCSPushEvent.t) (mi : MigrationInfo.t) (b : string)
    (pipelineApprovalByEnv : gmap Z string)
    (filterdDatabaseList : list Database.t) : IssueCreate.t :=
  let stageList :=
    List.map (makeStage vcsPushEvent mi b pipelineApprovalByEnv)
             filterdDatabaseList in
  let pipeline :=
    {| PipelineCreate.StageList := stageList;
       PipelineCreate.Name := "Pipeline - " +:+ Commit.Title commit |} in
  {| IssueCreate.ProjectId := Repository.ProjectId repository;
     IssueCreate.Pipeline := pipeline;
     IssueCreate.Name := Commit.Title commit;
     IssueCreate.Type_ := IssueDatabaseSchemaUpdate;
     IssueCreate.Description := Commit.Message commit;
     IssueCreate.AssigneeId := SYSTEM_BOT_ID d |}.

(** The activity of lines 315-322. *)
Definition createdIssueActivity (repository : Repository.t)
    (issue : Issue.t) (bytes : string) : ActivityCreate.t :=
  {| ActivityCreate.CreatorId := SYSTEM_BOT_ID d;
     ActivityCreate.ContainerId := Repository.ProjectId repository;
     ActivityCreate.Type_ := ActivityProjectRepositoryPush;
     ActivityCreate.Level := ACTIVITY_INFO;
     ActivityCreate.Comment :=
       "Created issue " +:+ Quote d (Issue.Name issue) +:+ ".";
     ActivityCreate.Payload := bytes |}.

(** Line 302. *)
Definition createdMessage (issue : Issue.t) (added : string) : string :=
  "Created issue " +:+ Quote d (Issue.Name issue) +:+ " on adding " +:+ added.

(** Lines 174-214: find the matching database list, and filter it
    further by environment name if the file names one. *)
Definition findDatabaseList (repository : Repository.t)
    (vcsPushEvent : VCSPushEvent.t) (added : string)
    (mi : MigrationInfo.t) : M (list Database.t) :=
  databaseList <-
    match ComposeDatabaseListByFind s (Repository.ProjectId repository)
                                    (MigrationInfo.Database mi) with
    | Err _ =>
        createIgnoredFileActivity repository vcsPushEvent added
          (Errorf ("failed to find database matching database "
                     +:+ Quote d (MigrationInfo.Database mi)
                     +:+ " referenced by the committed file")) >>
        continue
    | Ok databaseList =>
        if (length databaseList =? 0)%nat
        then
          createIgnoredFileActivity repository vcsPushEvent added
            (Errorf ("project ID " +:+ Itoa (Repository.ProjectId repository)
                       +:+ " does not own database "
                       +:+ Quote d (MigrationInfo.Database mi)
                       +:+ " referenced by the committed file")) >>
          continue
        else ret databaseList
    end ;;
  if negb (String.eqb (MigrationInfo.Environment mi) "")
  then
    let filterdDatabaseList :=
      List.filter
        (fun database =>
           EqualFold d
             (Environment.Name (Instance.Environment (Database.Instance database)))
             (MigrationInfo.Environment mi))
        databaseList in
    if (length filterdDatabaseList =? 0)%nat
    then
      createIgnoredFileActivity repository vcsPushEvent added
        (Errorf ("project does not contain committed file database "
                   +:+ Quote d (MigrationInfo.Database mi)
                   +:+ " for environment "
                   +:+ Quote d (MigrationInfo.Environment mi))) >>
      continue
    else ret filterdDatabaseList
  else ret databaseList.

(** Lines 295-327: create the issue, and a project activity after
    successfully creating it. *)
Definition createIssueAndActivity (repository : Repository.t)
    (vcsPushEvent : VCSPushEvent.t) (added : string)
    (issueCreate : IssueCreate.t)
    (createdMessageList : list string) : M (list string) :=
  match CreateIssue s issueCreate (SYSTEM_BOT_ID d) with
  | Err err =>
      emit [EvCreateIssue issueCreate (SYSTEM_BOT_ID d) (Err err);
            EvLog Warn "Failed to create update schema task for added repository file"] >>
      continue
  | Ok issue =>
      emit [EvCreateIssue issueCreate (SYSTEM_BOT_ID d) (Ok issue)] >>
      let createdMessageList :=
        createdMessageList ++ [createdMessage issue added] in
      match jsonMarshal d {| PushPayload.VCSPushEvent := vcsPushEvent;
                             PushPayload.IssueId := Issue.ID issue;
                             PushPayload.IssueName := Issue.Name issue |} with
      | Err err =>
          return_ (HTTPError StatusInternalServerError
                             "Failed to construct activity payload")
      | Ok bytes =>
          let activityCreate := createdIssueActivity repository issue bytes in
          match CreateActivity s activityCreate with
          | Err err =>
              emit [EvCreateActivity activityCreate (Err err)] >>
              return_ (HTTPError StatusInternalServerError
                         ("Failed to create project activity after creating issue from repository push event: "
                            +:+ Itoa (Issue.ID issue)))
          | Ok a =>
              emit [EvCreateActivity activityCreate (Ok a)] >>
              ret createdMessageList
          end
      end
  end.

(** Lines 150-327: the added file is parsed as a migration file, its
    content is fetched, its databases are resolved and the issue is
    created. *)
Definition processMigrationFile (repository : Repository.t)
    (commit : Commit.t) (vcsPushEvent : VCSPushEvent.t) (added : string)
    (createdMessageList : list string) : M (list string) :=
  mi <-
    match ParseMigrationInfo d added
            (filepathJoin d (Repository.BaseDirectory repository)
                            (Repository.FilePathTemplate repository)) with
    | Err err =>
        createIgnoredFileActivity repository vcsPushEvent added err >> continue
    | Ok mi => ret mi
    end ;;
  (* Retrieve sql by reading the file content *)
  resp <-
    match gitlabGET d (VCS.InstanceURL (Repository.VCS repository))
            ("projects/" +:+ Repository.ExternalId repository
               +:+ "/repository/files/" +:+ QueryEscape d added
               +:+ "/raw?ref=" +:+ Commit.ID commit)
            (Repository.AccessToken repository) with
    | Err err =>
        createIgnoredFileActivity repository vcsPushEvent added
          (Errorf ("failed to read file: " +:+ errorString err)) >>
        continue
    | Ok resp => ret resp
    end ;;
  b <-
    match Response.Body resp with
    | Err err =>
        createIgnoredFileActivity repository vcsPushEvent added
          (Errorf ("failed to read file response: " +:+ errorString err)) >>
        continue
    | Ok b => ret b
    end ;;
  filterdDatabaseList <- findDatabaseList repository vcsPushEvent added mi ;;
  maps <-
    forRange filterdDatabaseList
             (groupDatabase repository vcsPushEvent added) (∅, ∅) ;;
  multipleDatabaseForSameEnv <- checkAmbiguous mi (fst maps) ;;
  (if multipleDatabaseForSameEnv : bool then continue else ret tt) >>
  createIssueAndActivity repository vcsPushEvent added
    (makeIssueCreate repository commit vcsPushEvent mi b (snd maps)
                     filterdDatabaseList)
    createdMessageList.

(** Lines 74-327: the body of the loop over [commit.AddedList]. *)
Definition processFile (repository : Repository.t)
    (pushEvent : WebhookPushEvent.t) (commit : Commit.t) (added : string)
    (createdMessageList : list string) : M (list string) :=
  (if negb (HasPrefix added (Repository.BaseDirectory repository))
   then emit [EvLog Debug "Ignored committed file, not under base directory."] >>
        continue
   else ret tt) >>
  createdTime <-
    match timeParse d (Commit.Timestamp commit) with
    | Err _ =>
        emit [EvLog Warn "Ignored committed file, failed to parse commit timestamp."] >>
        ret zeroTimeUnix
    | Ok createdTime => ret createdTime
    end ;;
  (* Ignored the schema file we auto generated to the repository. *)
  (if negb (String.eqb (Repository.SchemaPathTemplate repository) "")
   then
     match regexpCompile d
             (schemafilePathRegex (Repository.SchemaPathTemplate repository)) with
     | Err _ =>
         (* myRegex is nil: MatchString dereferences it *)
         emit [EvLog Warn "Invalid schema path template."] >> panic
     | Ok myRegex => if myRegex added then continue else ret tt
     end
   else ret tt) >>
  processMigrationFile repository commit
    (makeVCSPushEvent repository pushEvent commit added createdTime)
    added createdMessageList.

(** Lines 71-329: the two loops. *)
Definition processCommit (repository : Repository.t)
    (pushEvent : WebhookPushEvent.t)
    (createdMessageList : list string) (commit : Commit.t) : M (list string) :=
  forRange (Commit.AddedList commit)
    (fun createdMessageList added =>
       iteration createdMessageList
         (processFile repository pushEvent commit added createdMessageList))
    createdMessageList.

Definition processPushEvent (repository : Repository.t)
    (pushEvent : WebhookPushEvent.t) : M (list string) :=
  forRange (WebhookPushEvent.CommitList pushEvent)
           (processCommit repository pushEvent) [].

(** Lines 32-69: the checks before the loops; they write nothing. *)
Definition validate (c : Request.t)
  : HTTPResult + (WebhookPushEvent.t * Repository.t) :=
  match Request.Body c with
  | Err _ => inl (HTTPError StatusBadRequest "Failed to read webhook request")
  | Ok b =>
  match jsonUnmarshal d b with
  | Err _ => inl (HTTPError StatusBadRequest "Malformatted push event")
  | Ok pushEvent =>
  if negb (String.eqb (WebhookPushEvent.ObjectKind pushEvent) WebhookPush)
  then inl (HTTPError StatusBadRequest
              ("Invalid webhook event type, got "
                 +:+ WebhookPushEvent.ObjectKind pushEvent +:+ ", want push"))
  else
  let webhookEndpointId := Request.id c in
  match FindRepository s webhookEndpointId with
  | Err err =>
      match errorCode err with
      | NotFound =>
          inl (HTTPError StatusNotFound
                 ("Endpoint not found: " +:+ webhookEndpointId))
      | _ =>
          inl (HTTPError StatusInternalServerError
                 ("Failed to respond webhook event for endpoint: "
                    +:+ webhookEndpointId))
      end
  | Ok found =>
  match ComposeRepositoryRelationship s found with
  | Err _ =>
      inl (HTTPError StatusInternalServerError
             ("Failed to fetch repository relationship: "
                +:+ Repository.Name found))
  | Ok repository =>
  if negb (String.eqb (Request.GitlabToken c)
                      (Repository.WebhookSecretToken repository))
  then inl (HTTPError StatusBadRequest "Secret token mismatch")
  else
  if negb (String.eqb (Itoa (Project.ID (WebhookPushEvent.Project pushEvent)))
                      (Repository.ExternalId repository))
  then inl (HTTPError StatusBadRequest
              ("Project mismatch, got "
                 +:+ Itoa (Project.ID (WebhookPushEvent.Project pushEvent))
                 +:+ ", want " +:+ Repository.ExternalId repository))
  else inr (pushEvent, repository)
  end end end end.

(** The handler of [POST /gitlab/:id]: the trace it writes and what it
    returns.  No [continue] leaves [processPushEvent]: each one is caught by
    [iteration], see [forRange_fileStep_not_Continue]. *)
Definition registerWebhookRoutes (c : Request.t) : Trace * HTTPResult :=
  match validate c with
  | inl httpError => ([], httpError)
  | inr (pushEvent, repository) =>
      match processPushEvent repository pushEvent with
      | (tr, Go createdMessageList) =>
          (tr, HTTPString StatusOK (Join createdMessageList newline))
      | (tr, Return r) => (tr, r)
      | (tr, Panic) => (tr, Panicked)
      | (tr, Continue) => (tr, Panicked)
      end
  end.

End Webhook.

(** ** What is observed of a run *)

(** The issue creation requests submitted, in order. *)
Definition issueRequests (tr : Trace) : list IssueCreate.t :=
  omap (fun e => match e with EvCreateIssue ic _ _ => Some ic | _ => None end) tr.

(** The issues created: the requests that [CreateIssue] answered without
    error. *)
Definition createdIssues (tr : Trace) : list Issue.t :=
  omap (fun e => match e with EvCreateIssue _ _ (Ok issue) => Some issue | _ => None end) tr.

(** The activity creation calls made, in order. *)
Definition activityCalls (tr : Trace) : list ActivityCreate.t :=
  omap (fun e => match e with EvCreateActivity ac _ => Some ac | _ => None end) tr.

(** The activities recorded: the calls that [CreateActivity] answered
    without error. *)
Definition recordedActivities (tr : Trace) : list ActivityCreate.t :=
  omap (fun e => match e with EvCreateActivity ac (Ok _) => Some ac | _ => None end) tr.

(** The log lines written. *)
Definition logLines (tr : Trace) : list (LogLevel * string) :=
  omap (fun e => match e with EvLog level msg => Some (level, msg) | _ => None end) tr.

(** The trace without the log lines and without the calls that create a
    WARN activity: the issue creation calls and the other activity calls. *)
Definition isIgnoreEvent (e : Event) : bool :=
  match e with
  | EvLog _ _ => true
  | EvCreateActivity ac _ =>
      match ActivityCreate.Level ac with ACTIVITY_WARN => true | _ => false end
  | EvCreateIssue _ _ _ => false
  end.

Definition withoutIgnores (tr : Trace) : Trace :=
  List.filter (fun e => negb (isIgnoreEvent e)) tr.

(** Traces that hold log lines and WARN activity calls only. *)
Definition ignoreOnly (tr : Trace) : Prop :=
  Forall (fun e => isIgnoreEvent e = true) tr.

(** Traces that hold log lines only. *)
Definition logsOnly (tr : Trace) : Prop :=
  Forall (fun e => match e with EvLog _ _ => True | _ => False end) tr.

(** The added files of a push event in processing order: commits in
    payload order, added files in payload order within each commit. *)
Definition addedFiles (pushEvent : WebhookPushEvent.t) : list (Commit.t * string) :=
  flat_map (fun commit => List.map (pair commit) (Commit.AddedList commit))
           (WebhookPushEvent.CommitList pushEvent).

Section Classification.

Context (d : Deps) (s : Server).

(** One iteration of the loop over the added files. *)
Definition fileStep (repository : Repository.t) (pushEvent : WebhookPushEvent.t)
    (createdMessageList : list string) (file : Commit.t * string) : M (list string) :=
  iteration createdMessageList
    (processFile d s repository pushEvent (fst file) (snd file) createdMessageList).

(** The creation time put in the push-event detail of a commit. *)
Definition createdTimeOf (commit : Commit.t) : Z :=
  match timeParse d (Commit.Timestamp commit) with
  | Ok createdTime => createdTime
  | Err _ => zeroTimeUnix
  end.

Definition timestampLog (commit : Commit.t) : Trace :=
  match timeParse d (Commit.Timestamp commit) with
  | Ok _ => []
  | Err _ => [EvLog Warn "Ignored committed file, failed to parse commit timestamp."]
  end.

(** The push-event detail of an added file. *)
Definition fileVCSPushEvent (repository : Repository.t)
    (pushEvent : WebhookPushEvent.t) (commit : Commit.t) (added : string)
  : VCSPushEvent.t :=
  makeVCSPushEvent repository pushEvent commit added (createdTimeOf commit).

(** Whether the file matches the configured schema path template; [None]
    when the template does not compile to a regular expression. *)
Definition matchesSchemaPath (repository : Repository.t) (added : string)
  : option bool :=
  if String.eqb (Repository.SchemaPathTemplate repository) "" then Some false
  else match regexpCompile d
               (schemafilePathRegex (Repository.SchemaPathTemplate repository)) with
       | Ok myRegex => Some (myRegex added)
       | Err _ => None
       end.

(** The migration file path template the file is parsed against. *)
Definition migrationPathTemplate (repository : Repository.t) : string :=
  filepathJoin d (Repository.BaseDirectory repository)
                 (Repository.FilePathTemplate repository).

(** The raw content of the file at the commit, fetched from GitLab. *)
Definition fetchFile (repository : Repository.t) (commit : Commit.t)
    (added : string) : result string :=
  match gitlabGET d (VCS.InstanceURL (Repository.VCS repository))
          ("projects/" +:+ Repository.ExternalId repository
             +:+ "/repository/files/" +:+ QueryEscape d added
             +:+ "/raw?ref=" +:+ Commit.ID commit)
          (Repository.AccessToken repository) with
  | Ok resp => Response.Body resp
  | Err err => Err err
  end.

(** The candidate databases of a migration: the databases of the project
    with the name of the migration, filtered by the environment name when
    the migration has one. *)
Definition filterByEnvironment (mi : MigrationInfo.t)
    (databaseList : list Database.t) : list Database.t :=
  if String.eqb (MigrationInfo.Environment mi) "" then databaseList
  else List.filter
         (fun database =>
            EqualFold d
              (Environment.Name (Instance.Environment (Database.Instance database)))
              (MigrationInfo.Environment mi))
         databaseList.

(** An added file is a migration with candidates [dbs] when it is under
    the base directory, is not the generated schema file, parses to [mi],
    its content [b] can be fetched, and [dbs], not empty, is the candidate
    database set of [mi]. *)
Definition candidateDatabases (repository : Repository.t) (commit : Commit.t)
    (added : string) : option (MigrationInfo.t * string * list Database.t) :=
  if negb (HasPrefix added (Repository.BaseDirectory repository)) then None else
  match matchesSchemaPath repository added with
  | Some false =>
      match ParseMigrationInfo d added (migrationPathTemplate repository) with
      | Ok mi =>
          match fetchFile repository commit added with
          | Ok b =>
              match ComposeDatabaseListByFind s (Repository.ProjectId repository)
                                              (MigrationInfo.Database mi) with
              | Ok databaseList =>
                  match filterByEnvironment mi databaseList with
                  | [] => None
                  | dbs => Some (mi, b, dbs)
                  end
              | Err _ => None
              end
          | Err _ => None
          end
      | Err _ => None
      end
  | _ => None
  end.

(** The environment bucket of [database] in [dbs]: the databases of [dbs]
    with the same environment id. *)
Definition envOf (database : Database.t) : Z :=
  Instance.EnvironmentId (Database.Instance database).

Definition bucket (environmentId : Z) (dbs : list Database.t) : list Database.t :=
  List.filter (fun database => Z.eqb (envOf database) environmentId) dbs.

(** Some environment bucket of [dbs] contains more than one database. *)
Definition ambiguous (dbs : list Database.t) : bool :=
  existsb (fun database => (1 <? length (bucket (envOf database) dbs))%nat) dbs.

(** The approval policy values found for the environments of [dbs]. *)
Definition policyValue (environmentId : Z) : option string :=
  match GetPipelineApprovalPolicy s environmentId with
  | Ok p => Some (PipelineApprovalPolicy.Value p)
  | Err _ => None
  end.

Definition policyMap (dbs : list Database.t) : gmap Z string :=
  list_to_map
    (omap (fun database => pair (envOf database) <$> policyValue (envOf database)) dbs).

(** What the policy lookups of a file write: a WARN activity is emitted
    for each candidate database whose environment has no policy. *)
Definition policyTrace (repository : Repository.t) (vcsPushEvent : VCSPushEvent.t)
    (added : string) (dbs : list Database.t) : Trace :=
  flat_map
    (fun database =>
       match GetPipelineApprovalPolicy s (envOf database) with
       | Ok _ => []
       | Err _ =>
           fst (createIgnoredFileActivity d s repository vcsPushEvent added
                  (Errorf ("failed to find pipeline approval policy for environment "
                             +:+ Itoa (envOf database))))
       end)
    dbs.

(** The maps of the database loop after one more database, when every
    environment without a policy is absent from the approval map. *)
Definition groupPure (maps : EnvMaps) (database : Database.t) : EnvMaps :=
  (match fst maps !! envOf database with
   | Some list => <[envOf database := list ++ [database]]> (fst maps)
   | None => <[envOf database := [database]]> (fst maps)
   end,
   match snd maps !! envOf database with
   | Some _ => snd maps
   | None =>
       match policyValue (envOf database) with
       | Some v => <[envOf database := v]> (snd maps)
       | None => snd maps
       end
   end).

Definition policyClosed (approval : gmap Z string) : Prop :=
  ∀ e, policyValue e = None → approval !! e = None.

(** The log lines of the ambiguity check of a candidate set. *)
Definition ambiguityLog (mi : MigrationInfo.t) (dbs : list Database.t) : Trace :=
  fst (checkAmbiguous d mi (fst (fold_left groupPure dbs (∅, ∅)))).

(** The file makes the handler panic: it is under the base directory and
    the schema path template does not compile. *)
Definition crashes (repository : Repository.t) (added : string) : bool :=
  HasPrefix added (Repository.BaseDirectory repository)
  && match matchesSchemaPath repository added with None => true | Some _ => false end.

(** The issue creation request of a resolved file. *)
Definition issueCreateOf (repository : Repository.t)
    (pushEvent : WebhookPushEvent.t) (commit : Commit.t) (added : string)
    (mi : MigrationInfo.t) (b : string) (dbs : list Database.t) : IssueCreate.t :=
  makeIssueCreate d repository commit
    (fileVCSPushEvent repository pushEvent commit added) mi b (policyMap dbs) dbs.

(** The request submitted for an added file: there is one when the file
    resolves to a candidate set that is not empty and not ambiguous. *)
Definition requestOf (repository : Repository.t) (pushEvent : WebhookPushEvent.t)
    (file : Commit.t * string) : option IssueCreate.t :=
  match candidateDatabases repository (fst file) (snd file) with
  | Some (mi, b, dbs) =>
      if ambiguous dbs then None
      else Some (issueCreateOf repository pushEvent (fst file) (snd file) mi b dbs)
  | None => None
  end.

(** The issue created for an added file. *)
Definition issueOf (repository : Repository.t) (pushEvent : WebhookPushEvent.t)
    (file : Commit.t * string) : option Issue.t :=
  match requestOf repository pushEvent file with
  | Some issueCreate =>
      match CreateIssue s issueCreate (SYSTEM_BOT_ID d) with
      | Ok issue => Some issue
      | Err _ => None
      end
  | None => None
  end.

(** The line of the response for an added file. *)
Definition lineOf (repository : Repository.t) (pushEvent : WebhookPushEvent.t)
    (file : Commit.t * string) : option string :=
  (fun issue => createdMessage d issue (snd file)) <$> issueOf repository pushEvent file.

(** Recording the success of a created issue works: the payload can be
    marshalled and the INFO activity is created. *)
Definition successRecorded (repository : Repository.t)
    (vcsPushEvent : VCSPushEvent.t) (issue : Issue.t) : bool :=
  match jsonMarshal d {| PushPayload.VCSPushEvent := vcsPushEvent;
                         PushPayload.IssueId := Issue.ID issue;
                         PushPayload.IssueName := Issue.Name issue |} with
  | Ok bytes =>
      match CreateActivity s (createdIssueActivity d repository issue bytes) with
      | Ok _ => true
      | Err _ => false
      end
  | Err _ => false
  end.

End Classification.

(** ** The notions the properties are stated with *)

Section Notions.

Context (d : Deps) (s : Server).

(** A request fails the request-level validation: the payload is
    malformed, the event kind is not "push", the secret token does not
    match, or the provider project id does not match.  The last two are
    checked against the repository of the endpoint. *)
Inductive rejected (c : Request.t) : Prop :=
| MalformedPayload b err :
    Request.Body c = Ok b →
    jsonUnmarshal d b = Err err →
    rejected c
| WrongEventKind b pushEvent :
    Request.Body c = Ok b →
    jsonUnmarshal d b = Ok pushEvent →
    WebhookPushEvent.ObjectKind pushEvent ≠ WebhookPush →
    rejected c
| SecretMismatch b pushEvent found repository :
    Request.Body c = Ok b →
    jsonUnmarshal d b = Ok pushEvent →
    WebhookPushEvent.ObjectKind pushEvent = WebhookPush →
    FindRepository s (Request.id c) = Ok found →
    ComposeRepositoryRelationship s found = Ok repository →
    Request.GitlabToken c ≠ Repository.WebhookSecretToken repository →
    rejected c
| ProjectMismatch b pushEvent found repository :
    Request.Body c = Ok b →
    jsonUnmarshal d b = Ok pushEvent →
    WebhookPushEvent.ObjectKind pushEvent = WebhookPush →
    FindRepository s (Request.id c) = Ok found →
    ComposeRepositoryRelationship s found = Ok repository →
    Request.GitlabToken c = Repository.WebhookSecretToken repository →
    Itoa (Project.ID (WebhookPushEvent.Project pushEvent))
      ≠ Repository.ExternalId repository →
    rejected c.

(** The classes of added file paths, by the ordered rules of the
    classifier. *)
Inductive PathClass :=
| OutsideBaseDirectory
| InvalidSchemaTemplate
| GeneratedSchemaFile
| NotAMigration (err : error)
| MigrationFile (mi : MigrationInfo.t).

Definition classifyPath (repository : Repository.t) (added : string) : PathClass :=
  if negb (HasPrefix added (Repository.BaseDirectory repository))
  then OutsideBaseDirectory
  else match matchesSchemaPath d repository added with
       | None => InvalidSchemaTemplate
       | Some true => GeneratedSchemaFile
       | Some false =>
           match ParseMigrationInfo d added (migrationPathTemplate d repository) with
           | Err err => NotAMigration err
           | Ok mi => MigrationFile mi
           end
       end.

(** The payload of the activity of an ignored file, and of a created
    issue. *)
Definition ignoredPayload (vcsPushEvent : VCSPushEvent.t) : PushPayload.t :=
  {| PushPayload.VCSPushEvent := vcsPushEvent;
     PushPayload.IssueId := 0;
     PushPayload.IssueName := "" |}.

Definition createdPayload (vcsPushEvent : VCSPushEvent.t) (issue : Issue.t)
  : PushPayload.t :=
  {| PushPayload.VCSPushEvent := vcsPushEvent;
     PushPayload.IssueId := Issue.ID issue;
     PushPayload.IssueName := Issue.Name issue |}.

(** The environment recorded in a database is the environment of its
    instance, as [ComposeDatabaseListByFind] fills it in. *)
Definition composed (database : Database.t) : Prop :=
  Environment.ID (Instance.Environment (Database.Instance database))
  = Instance.EnvironmentId (Database.Instance database).

(** The same installation with another [json.Marshal]. *)
Definition withMarshal (marshal : PushPayload.t → result string) : Deps :=
  {| jsonUnmarshal := jsonUnmarshal d;
     jsonMarshal := marshal;
     timeParse := timeParse d;
     regexpCompile := regexpCompile d;
     EqualFold := EqualFold d;
     Quote := Quote d;
     filepathJoin := filepathJoin d;
     QueryEscape := QueryEscape d;
     ParseMigrationInfo := ParseMigrationInfo d;
     gitlabGET := gitlabGET d;
     SYSTEM_BOT_ID := SYSTEM_BOT_ID d;
     PipelineApprovalValueManualNever := PipelineApprovalValueManualNever d |}.

(** The same server with another activity store. *)
Definition withActivities (activities : ActivityCreate.t → result unit) : Server :=
  {| FindRepository := FindRepository s;
     ComposeRepositoryRelationship := ComposeRepositoryRelationship s;
     ComposeDatabaseListByFind := ComposeDatabaseListByFind s;
     GetPipelineApprovalPolicy := GetPipelineApprovalPolicy s;
     CreateIssue := CreateIssue s;
     CreateActivity := activities |}.

(** Two installations, one with [json.Marshal] and activity store
    [marshal'] and [activities'], marshal the payload of a created issue
    alike, and their activity stores treat the INFO activities alike. *)
Definition sameSuccessRecording (marshal' : PushPayload.t → result string)
    (activities' : ActivityCreate.t → result unit) : Prop :=
  (∀ ev issueCreate creator issue,
      CreateIssue s issueCreate creator = Ok issue →
      marshal' (createdPayload ev issue) = jsonMarshal d (createdPayload ev issue))
  ∧ (∀ ac, ActivityCreate.Level ac = ACTIVITY_INFO →
           activities' ac = CreateActivity s ac).

End Notions.

(** The file cuts the processing of the push event short: it makes the
    handler panic, or its issue is created and the success of the creation
    cannot be recorded. *)
Definition abortsAt (d : Deps) (s : Server) (repository : Repository.t)
    (pushEvent : WebhookPushEvent.t) (file : Commit.t * string) : bool :=
  match candidateDatabases d s repository (fst file) (snd file) with
  | None => crashes d repository (snd file)
  | Some _ =>
      match issueOf d s repository pushEvent file with
      | Some issue =>
          negb (successRecorded d s repository
                  (fileVCSPushEvent d repository pushEvent (fst file) (snd file)) issue)
      | None => false
      end
  end.

(** ** Three properties as the specification states them

    The code does not have them; see the last section. *)

(** C1 as stated: for a push event that passes the request-level
    validation, one issue is created per added file that resolves to a
    candidate set that is not empty and not ambiguous, and the handler
    answers 200 with the lines of the created issues. *)
Definition oneIssuePerResolvedFile (d : Deps) (s : Server) (c : Request.t) : Prop :=
  ∀ pushEvent repository,
    validate d s c = inr (pushEvent, repository) →
    let run := registerWebhookRoutes d s c in
    length (createdIssues (fst run))
    = length (omap (requestOf d s repository pushEvent) (addedFiles pushEvent))
    ∧ snd run
      = HTTPString 200
          (Join (omap (lineOf d s repository pushEvent) (addedFiles pushEvent)) newline).

(** C2 as stated: a file with an ambiguous candidate set is skipped
    without an issue and without a recorded activity of any level. *)
Definition ambiguousFileSilent (d : Deps) (s : Server) (repository : Repository.t)
    (pushEvent : WebhookPushEvent.t) (commit : Commit.t) (added : string) : Prop :=
  ∀ mi b dbs createdMessageList,
    candidateDatabases d s repository commit added = Some (mi, b, dbs) →
    ambiguous dbs = true →
    let step := fileStep d s repository pushEvent createdMessageList (commit, added) in
    snd step = Go createdMessageList
    ∧ issueRequests (fst step) = []
    ∧ recordedActivities (fst step) = [].

(** C9 as stated: a failed issue creation is logged, produces a WARN
    activity, creates no issue, and the loop goes on with the next file. *)
Definition issueFailureRecorded (d : Deps) (s : Server) (repository : Repository.t)
    (pushEvent : WebhookPushEvent.t) (commit : Commit.t) (added : string) : Prop :=
  ∀ mi b dbs err createdMessageList,
    candidateDatabases d s repository commit added = Some (mi, b, dbs) →
    ambiguous dbs = false →
    CreateIssue s (issueCreateOf d s repository pushEvent commit added mi b dbs)
                (SYSTEM_BOT_ID d) = Err err →
    let step := fileStep d s repository pushEvent createdMessageList (commit, added) in
    snd step = Go createdMessageList
    ∧ createdIssues (fst step) = []
    ∧ ∃ ac, ac ∈ activityCalls (fst step)
            ∧ ActivityCreate.Level ac = ACTIVITY_WARN.

(** ** A concrete installation

    A repository with base directory [db/], the databases [orders] (in
    [prod]) and [users] (in [dev] and in [prod]), and push events on it.
    The theorems below are instantiated on it. *)

Module Scenario.

Definition dquote : string := String (ascii_of_nat 34) EmptyString.

(** [%q] at a string of printable ASCII characters without quote and
    backslash. *)
Definition quotePlain (str : string) : string := dquote +:+ str +:+ dquote.

Definition lower (c : ascii) : ascii :=
  let n := nat_of_ascii c in
  if ((65 <=? n) && (n <=? 90))%nat then ascii_of_nat (n + 32) else c.

Fixpoint lowerString (str : string) : string :=
  match str with
  | EmptyString => EmptyString
  | String c str' => String (lower c) (lowerString str')
  end.

(** [strings.EqualFold] at ASCII strings. *)
Definition equalFoldASCII (a b : string) : bool :=
  String.eqb (lowerString a) (lowerString b).

Definition ordersFile : string := "db/prod/orders__v3.sql".
Definition usersFile : string := "db/users__v1.sql".
Definition schemaFile : string := "db/prod/.orders__LATEST.sql".
Definition strayFile : string := "db/notes.txt".
Definition outsideFile : string := "README.md".

Definition parseTable (filePath template : string) : result MigrationInfo.t :=
  if String.eqb filePath ordersFile then
    Ok {| MigrationInfo.Version := "3"; MigrationInfo.Database := "orders";
          MigrationInfo.Environment := "prod"; MigrationInfo.Type_ := "MIGRATE";
          MigrationInfo.Description := "Create orders" |}
  else if String.eqb filePath usersFile then
    Ok {| MigrationInfo.Version := "1"; MigrationInfo.Database := "users";
          MigrationInfo.Environment := ""; MigrationInfo.Type_ := "MIGRATE";
          MigrationInfo.Description := "Create users" |}
  else Err (Errorf ("file path " +:+ filePath +:+ " does not match the template " +:+ template)).

Definition commit1 : Commit.t :=
  {| Commit.ID := "c0ffee"; Commit.Title := "Add orders";
     Commit.Message := "Add the orders table"; Commit.Timestamp := "2021-07-01T10:00:00Z";
     Commit.URL := "https://gitlab.example.com/shop/-/commit/c0ffee";
     Commit.AuthorName := "alice";
     Commit.AddedList := [ordersFile] |}.

Definition commit2 : Commit.t :=
  {| Commit.ID := "decade"; Commit.Title := "Add users";
     Commit.Message := "Add the users table"; Commit.Timestamp := "2021-07-02T10:00:00Z";
     Commit.URL := "https://gitlab.example.com/shop/-/commit/decade";
     Commit.AuthorName := "bob";
     Commit.AddedList := [outsideFile; usersFile] |}.

Definition pushOf (kind : string) (projectID : Z) (commits : list Commit.t)
  : WebhookPushEvent.t :=
  {| WebhookPushEvent.ObjectKind := kind; WebhookPushEvent.Ref := "refs/heads/main";
     WebhookPushEvent.AuthorName := "alice";
     WebhookPushEvent.Project :=
       {| Project.ID := projectID; Project.WebURL := "https://gitlab.example.com/shop";
          Project.FullPath := "shop" |};
     WebhookPushEvent.CommitList := commits |}.

(** The request bodies the installation understands. *)
Definition unmarshalTable (b : string) : result WebhookPushEvent.t :=
  if String.eqb b "orders" then Ok (pushOf "push" 7 [commit1])
  else if String.eqb b "users" then Ok (pushOf "push" 7 [commit2])
  else if String.eqb b "both" then Ok (pushOf "push" 7 [commit1; commit2])
  else if String.eqb b "tag" then Ok (pushOf "tag_push" 7 [commit1])
  else if String.eqb b "other project" then Ok (pushOf "push" 8 [commit1])
  else Err (Errorf "unexpected end of JSON input").

(** The library functions; [marshal] and [compile] are given by the case. *)
Definition deps (marshal : PushPayload.t → result string)
    (compile : string → result (string → bool)) : Deps :=
  {| jsonUnmarshal := unmarshalTable;
     jsonMarshal := marshal;
     timeParse := fun _ => Ok 1625133600;
     regexpCompile := compile;
     EqualFold := equalFoldASCII;
     Quote := quotePlain;
     filepathJoin := fun a b => a +:+ b;
     QueryEscape := fun str => str;
     ParseMigrationInfo := parseTable;
     gitlabGET := fun _ _ _ => Ok {| Response.Body := Ok "CREATE TABLE t (id INT);" |};
     SYSTEM_BOT_ID := 1;
     PipelineApprovalValueManualNever := "MANUAL_APPROVAL_NEVER" |}.

Definition marshalOk (p : PushPayload.t) : result string := Ok "{}".
Definition marshalFails (p : PushPayload.t) : result string :=
  Err (Errorf "json: unsupported value").
Definition compileNone (re : string) : result (string → bool) :=
  Ok (fun _ => false).
(** [regexp.Compile] at the schema path expression of [schemaRepository]
    below: on the files of this installation the compiled expression takes
    the generated schema file only.  No other expression is compiled with
    it; it is given a matcher that takes no file. *)
Definition compileSchema (re : string) : result (string → bool) :=
  if String.eqb re
       "db/(?P<ENV_NAME>[a-zA-Z0-9+-=/_#?!$. ]+)/.(?P<DB_NAME>[a-zA-Z0-9+-=/_#?!$. ]+)__LATEST.sql"
  then Ok (fun file => String.eqb file schemaFile)
  else Ok (fun _ => false).
Definition compileFails (re : string) : result (string → bool) :=
  Err (Errorf "error parsing regexp").

Definition plainDeps : Deps := deps marshalOk compileNone.

Definition repositoryOf (schemaPathTemplate : string) : Repository.t :=
  {| Repository.Name := "shop"; Repository.ProjectId := 101;
     Repository.VCS := {| VCS.Type_ := "GITLAB_SELF_HOST";
                          VCS.InstanceURL := "https://gitlab.example.com" |};
     Repository.ExternalId := "7"; Repository.WebhookSecretToken := "s3cret";
     Repository.AccessToken := "token";
     Repository.BaseDirectory := "db/";
     Repository.FilePathTemplate := "{{ENV_NAME}}/{{DB_NAME}}__v{{VERSION}}.sql";
     Repository.SchemaPathTemplate := schemaPathTemplate |}.

Definition repository : Repository.t := repositoryOf "".

Definition databaseIn (id environmentId : Z) (environmentName : string) : Database.t :=
  {| Database.ID := id; Database.InstanceId := 10 + environmentId;
     Database.Instance :=
       {| Instance.EnvironmentId := environmentId;
          Instance.Environment := {| Environment.ID := environmentId;
                                     Environment.Name := environmentName |} |} |}.

(** [orders] exists once in [prod]; [users] once in [dev] and once in [prod]. *)
Definition databases (projectId : Z) (name : string) : result (list Database.t) :=
  if String.eqb name "orders" then Ok [databaseIn 1 2 "Prod"]
  else if String.eqb name "users" then Ok [databaseIn 2 1 "Dev"; databaseIn 3 2 "Prod"]
  else Ok [].

(** A second [orders] database in [prod]. *)
Definition databasesTwice (projectId : Z) (name : string) : result (list Database.t) :=
  if String.eqb name "orders" then Ok [databaseIn 1 2 "Prod"; databaseIn 4 2 "Prod"]
  else databases projectId name.

(** [dev] runs without approval, [prod] asks for it. *)
Definition policies (environmentId : Z) : result PipelineApprovalPolicy.t :=
  if Z.eqb environmentId 1
  then Ok {| PipelineApprovalPolicy.Value := "MANUAL_APPROVAL_NEVER" |}
  else Ok {| PipelineApprovalPolicy.Value := "MANUAL_APPROVAL_ALWAYS" |}.

Definition policiesDown (environmentId : Z) : result PipelineApprovalPolicy.t :=
  Err (Errorf "policy store unavailable").

Definition issueStore (issueCreate : IssueCreate.t) (creator : Z) : result Issue.t :=
  Ok {| Issue.ID := 500; Issue.Name := IssueCreate.Name issueCreate |}.

Definition issueStoreDown (issueCreate : IssueCreate.t) (creator : Z) : result Issue.t :=
  Err (Errorf "issue store unavailable").

Definition activityStore (activityCreate : ActivityCreate.t) : result unit := Ok tt.


(** An activity store that takes the INFO activities only. *)
Definition activityStoreInfoOnly (activityCreate : ActivityCreate.t) : result unit :=
  match ActivityCreate.Level activityCreate with
  | ACTIVITY_INFO => Ok tt
  | _ => Err (Errorf "activity store unavailable")
  end.

Definition server (repo : Repository.t)
    (dbs : Z → string → result (list Database.t))
    (policy : Z → result PipelineApprovalPolicy.t)
    (issues : IssueCreate.t → Z → result Issue.t)
    (activities : ActivityCreate.t → result unit) : Server :=
  {| FindRepository := fun endpoint =>
       if String.eqb endpoint "ep1" then Ok repo
       else Err {| errorCode := NotFound; errorString := "repository not found" |};
     ComposeRepositoryRelationship := fun r => Ok r;
     ComposeDatabaseListByFind := dbs;
     GetPipelineApprovalPolicy := policy;
     CreateIssue := issues;
     CreateActivity := activities |}.

Definition plainServer : Server :=
  server repository databases policies issueStore activityStore.

Definition request (body token : string) : Request.t :=
  {| Request.Body := Ok body; Request.GitlabToken := token; Request.id := "ep1" |}.

(** The values of the installation that the instances below name. *)
Definition ordersMigration : MigrationInfo.t :=
  {| MigrationInfo.Version := "3"; MigrationInfo.Database := "orders";
     MigrationInfo.Environment := "prod"; MigrationInfo.Type_ := "MIGRATE";
     MigrationInfo.Description := "Create orders" |}.

Definition usersMigration : MigrationInfo.t :=
  {| MigrationInfo.Version := "1"; MigrationInfo.Database := "users";
     MigrationInfo.Environment := ""; MigrationInfo.Type_ := "MIGRATE";
     MigrationInfo.Description := "Create users" |}.

Definition fileContent : string := "CREATE TABLE t (id INT);".

Definition pushOrders : WebhookPushEvent.t := pushOf "push" 7 [commit1].
Definition pushBoth : WebhookPushEvent.t := pushOf "push" 7 [commit1; commit2].

Definition ordersIssue : Issue.t := {| Issue.ID := 500; Issue.Name := "Add orders" |}.
Definition usersIssue : Issue.t := {| Issue.ID := 500; Issue.Name := "Add users" |}.

(** The repository with a schema path template, and a commit that adds
    the generated schema file and a file that is no migration. *)
Definition schemaRepository : Repository.t :=
  repositoryOf "db/{{ENV_NAME}}/.{{DB_NAME}}__LATEST.sql".

Definition commit3 : Commit.t :=
  {| Commit.ID := "facade"; Commit.Title := "Notes";
     Commit.Message := "Add notes"; Commit.Timestamp := "2021-07-03T10:00:00Z";
     Commit.URL := "https://gitlab.example.com/shop/-/commit/facade";
     Commit.AuthorName := "carol";
     Commit.AddedList := [schemaFile; strayFile] |}.

Definition strayError : error :=
  Errorf ("file path " +:+ strayFile +:+ " does not match the template "
            +:+ "db/{{ENV_NAME}}/{{DB_NAME}}__v{{VERSION}}.sql").

(** A [json.Marshal] that fails on the payload of an ignored file. *)
Definition marshalCreatedOnly (p : PushPayload.t) : result string :=
  if Z.eqb (PushPayload.IssueId p) 0 then Err (Errorf "json: unsupported value")
  else Ok "{}".

(** The servers of the cases below. *)
Definition serverIssuesDown : Server :=
  server repository databases policies issueStoreDown activityStore.
Definition serverPoliciesDown : Server :=
  server repository databases policiesDown issueStore activityStore.
Definition serverAmbiguous : Server :=
  server repository databasesTwice policies issueStore activityStore.
Definition serverAmbiguousPoliciesDown : Server :=
  server repository databasesTwice policiesDown issueStore activityStore.

End Scenario.


(** ** Further notions of the handler *)

(** [strings.Contains]: [substr] occurs in [str]. *)
Fixpoint Contains (str substr : string) : bool :=
  String.prefix substr str
  || match str with
     | EmptyString => false
     | String _ str' => Contains str' substr
     end.

(** The capture group that line 92 puts in the place of a placeholder. *)
Definition placeholderGroup (placeholder : string) : string :=
  "(?P<" +:+ placeholder +:+ ">[a-zA-Z0-9+-=/_#?!$. ]+)".

(** The activities recorded with level INFO. *)
Definition infoActivities (tr : Trace) : list ActivityCreate.t :=
  List.filter
    (fun ac => match ActivityCreate.Level ac with ACTIVITY_INFO => true | _ => false end)
    (recordedActivities tr).

Section FurtherNotions.

Context (d : Deps) (s : Server).

(** Why a file that parses as the migration [mi] is ignored before its
    databases are grouped: the error handed to [createIgnoredFileActivity]
    at lines 163, 169, 181, 184 and 209; [None] when the file has candidate
    databases. *)
Definition resolutionError (repository : Repository.t) (commit : Commit.t)
    (added : string) (mi : MigrationInfo.t) : option error :=
  match gitlabGET d (VCS.InstanceURL (Repository.VCS repository))
          ("projects/" +:+ Repository.ExternalId repository
             +:+ "/repository/files/" +:+ QueryEscape d added
             +:+ "/raw?ref=" +:+ Commit.ID commit)
          (Repository.AccessToken repository) with
  | Err err => Some (Errorf ("failed to read file: " +:+ errorString err))
  | Ok resp =>
      match Response.Body resp with
      | Err err => Some (Errorf ("failed to read file response: " +:+ errorString err))
      | Ok _ =>
          match ComposeDatabaseListByFind s (Repository.ProjectId repository)
                                          (MigrationInfo.Database mi) with
          | Err _ =>
              Some (Errorf ("failed to find database matching database "
                              +:+ Quote d (MigrationInfo.Database mi)
                              +:+ " referenced by the committed file"))
          | Ok [] =>
              Some (Errorf ("project ID " +:+ Itoa (Repository.ProjectId repository)
                              +:+ " does not own database "
                              +:+ Quote d (MigrationInfo.Database mi)
                              +:+ " referenced by the committed file"))
          | Ok databaseList =>
              match filterByEnvironment d mi databaseList with
              | [] =>
                  Some (Errorf ("project does not contain committed file database "
                                  +:+ Quote d (MigrationInfo.Database mi)
                                  +:+ " for environment "
                                  +:+ Quote d (MigrationInfo.Environment mi)))
              | _ => None
              end
          end
      end
  end.

(** An activity of the handler: created by the system bot in the project
    of the repository, of type repository push, with level INFO or WARN. *)
Definition activityWellFormed (repository : Repository.t)
    (ac : ActivityCreate.t) : Prop :=
  ActivityCreate.CreatorId ac = SYSTEM_BOT_ID d
  ∧ ActivityCreate.ContainerId ac = Repository.ProjectId repository
  ∧ ActivityCreate.Type_ ac = ActivityProjectRepositoryPush
  ∧ (ActivityCreate.Level ac = ACTIVITY_INFO
     ∨ ActivityCreate.Level ac = ACTIVITY_WARN).

(** A stage of the handler: one task, a schema update that is pending or
    pending approval. *)
Definition stageWellFormed (stage : StageCreate.t) : Prop :=
  ∃ task,
    StageCreate.TaskList stage = [task]
    ∧ TaskCreate.Type_ task = TaskDatabaseSchemaUpdate
    ∧ (TaskCreate.Status task = TaskPending
       ∨ TaskCreate.Status task = TaskPendingApproval).

(** An issue creation request of the handler: a schema update issue of
    the project of the repository, assigned to the system bot, with at
    least one stage and no two stages in the same environment. *)
Definition requestWellFormed (repository : Repository.t)
    (issueCreate : IssueCreate.t) : Prop :=
  IssueCreate.ProjectId issueCreate = Repository.ProjectId repository
  ∧ IssueCreate.Type_ issueCreate = IssueDatabaseSchemaUpdate
  ∧ IssueCreate.AssigneeId issueCreate = SYSTEM_BOT_ID d
  ∧ PipelineCreate.StageList (IssueCreate.Pipeline issueCreate) ≠ []
  ∧ Forall stageWellFormed (PipelineCreate.StageList (IssueCreate.Pipeline issueCreate))
  ∧ NoDup (List.map StageCreate.EnvironmentId
             (PipelineCreate.StageList (IssueCreate.Pipeline issueCreate))).

(** What every write of the handler on a repository looks like. *)
Definition eventWellFormed (repository : Repository.t) (e : Event) : Prop :=
  match e with
  | EvLog _ _ => True
  | EvCreateIssue issueCreate creator _ =>
      creator = SYSTEM_BOT_ID d ∧ requestWellFormed repository issueCreate
  | EvCreateActivity ac _ => activityWellFormed repository ac
  end.

(** The INFO activity [ac] is the one of the created issue [issue]. *)
Definition recordsIssue (repository : Repository.t) (ac : ActivityCreate.t)
    (issue : Issue.t) : Prop :=
  ∃ bytes, ac = createdIssueActivity d repository issue bytes.

End FurtherNotions.

(** A computation on the message list started behind [l]: the list it
    falls through with stands behind [l]. *)
Definition after (l : list string) (m : M (list string)) : M (list string) :=
  (fst m, match snd m with Go l' => Go (l ++ l') | fl => fl end).

(** ** The issue status transitions of [frontend/src/types/issue.ts] *)

(** A JavaScript [Map] built from entries with different keys, as the list
    of its entries in insertion order; [mapGet] is [Map.prototype.get],
    which gives [undefined] for a key that has no entry. *)
Definition mapGet {K V : Type} `{EqDecision K} (m : list (K * V)) (k : K) : option V :=
  snd <$> List.find (fun entry => bool_decide (fst entry = k)) m.

Module IssueTransitions.

Inductive IssueStatus := OPEN | DONE | CANCELED.

Inductive IssueStatusTransitionType := RESOLVE | CANCEL | REOPEN.

#[global] Instance IssueStatus_eq_dec : EqDecision IssueStatus.
Proof. solve_decision. Defined.

#[global] Instance IssueStatusTransitionType_eq_dec :
  EqDecision IssueStatusTransitionType.
Proof. solve_decision. Defined.

Record IssueStatusTransition := {
  type : IssueStatusTransitionType;
  to : IssueStatus;
  buttonName : string;
  buttonClass : string;
}.

Definition ISSUE_STATUS_TRANSITION_LIST
  : list (IssueStatusTransitionType * IssueStatusTransition) :=
  [ (RESOLVE, {| type := RESOLVE; to := DONE;
                 buttonName := "Resolve"; buttonClass := "btn-success" |});
    (CANCEL, {| type := CANCEL; to := CANCELED;
                buttonName := "Cancel issue"; buttonClass := "btn-normal" |});
    (REOPEN, {| type := REOPEN; to := OPEN;
                buttonName := "Reopen"; buttonClass := "btn-normal" |}) ].

(** The first transition in the list is the primary action and the rests
    are the normal action. *)
Definition CREATOR_APPLICABLE_ACTION_LIST
  : list (IssueStatus * list IssueStatusTransitionType) :=
  [ (OPEN, [CANCEL]); (DONE, [REOPEN]); (CANCELED, [REOPEN]) ].

Definition ASSIGNEE_APPLICABLE_ACTION_LIST
  : list (IssueStatus * list IssueStatusTransitionType) :=
  [ (OPEN, [RESOLVE; CANCEL]); (DONE, [REOPEN]); (CANCELED, [REOPEN]) ].

(** The actions a list offers at a status; none when the status has no
    entry. *)
Definition applicable (actions : list (IssueStatus * list IssueStatusTransitionType))
    (status : IssueStatus) : list IssueStatusTransitionType :=
  default [] (mapGet actions status).

(** An issue goes from [status] to [status'] by an action that [actions]
    offers at [status]: [status'] is the [to] of the transition of the
    action. *)
Inductive step (actions : list (IssueStatus * list IssueStatusTransitionType))
  : IssueStatus → IssueStatus → Prop :=
| step_action status action transition :
    action ∈ applicable actions status →
    mapGet ISSUE_STATUS_TRANSITION_LIST action = Some transition →
    step actions status (to transition).

End IssueTransitions.

(** ** The task check bar of [frontend/src/components/TaskCheckBar.vue] *)

(** [Array.prototype.sort(compareFn)]: ECMAScript leaves the algorithm
    open and asks for a stable sort; for a comparator that orders the
    elements consistently the result is the stable sorted arrangement,
    which this insertion sort gives. *)
Fixpoint insertSorted {A : Type} (compareFn : A → A → Z) (a : A) (l : list A) : list A :=
  match l with
  | [] => [a]
  | b :: l' =>
      if (compareFn a b <=? 0)%Z then a :: l else b :: insertSorted compareFn a l'
  end.

Definition arraySort {A : Type} (compareFn : A → A → Z) (l : list A) : list A :=
  foldr (insertSorted compareFn) [] l.

Module TaskCheckBar.

Inductive TaskCheckStatus := SUCCESS | WARN | ERROR.

Module TaskCheckResult.
Record t := mk { status : TaskCheckStatus }.
End TaskCheckResult.

Module TaskCheckRunResult.
Record t := mk { resultList : list TaskCheckResult.t }.
End TaskCheckRunResult.

Module TaskCheckRun.
Record t := mk {
    type : string;
    status : string;
    createdTs : Z;
    result : TaskCheckRunResult.t;
  }.
End TaskCheckRun.

Module Task.
Record t := mk {
    name : string;
    type : string;
    status : string;
    taskCheckRunList : list TaskCheckRun.t;
  }.
End Task.

Module BBTabFilterItem.
Record t := mk { title : string; alert : bool }.
End BBTabFilterItem.

Module LocalState.
Record t := mk {
    showModal : bool;
    selectedTaskCheckRun : option TaskCheckRun.t;
    selectedTabIndex : nat;
  }.
End LocalState.

(** The state [setup] starts with. *)
Definition initialState : LocalState.t :=
  {| LocalState.showModal := false;
     LocalState.selectedTaskCheckRun := None;
     LocalState.selectedTabIndex := 0 |}.

(** [cloneDeep] copies the list, so that the sort leaves the list of the
    task as it is; the copy has the same elements. *)
Definition tabTaskCheckRunList (task : Task.t) (state : LocalState.t)
  : list TaskCheckRun.t :=
  match LocalState.selectedTaskCheckRun state with
  | None => []
  | Some selected =>
      let list :=
        List.filter
          (fun check => String.eqb (TaskCheckRun.type check) (TaskCheckRun.type selected))
          (Task.taskCheckRunList task) in
      arraySort (fun a b => TaskCheckRun.createdTs b - TaskCheckRun.createdTs a) list
  end.

(** [humanizeTs] comes from [utils], which is not among the sources. *)
Definition tabItemList (humanizeTs : Z → string) (task : Task.t)
    (state : LocalState.t) : list BBTabFilterItem.t :=
  imap
    (fun index item =>
       {| BBTabFilterItem.title :=
            if Nat.eqb index 0 then "Latest"
            else humanizeTs (TaskCheckRun.createdTs item);
          BBTabFilterItem.alert := false |})
    (tabTaskCheckRunList task state).

(** The loop of [taskCheckStatus] from the value [value] on. *)
Fixpoint taskCheckStatusFrom (value : TaskCheckStatus)
    (resultList : list TaskCheckResult.t) : TaskCheckStatus :=
  match resultList with
  | [] => value
  | result :: rest =>
      match TaskCheckResult.status result with
      | ERROR => ERROR
      | WARN => taskCheckStatusFrom WARN rest
      | SUCCESS => taskCheckStatusFrom value rest
      end
  end.

(** Returns the most severe status *)
Definition taskCheckStatus (taskCheckRun : TaskCheckRun.t) : TaskCheckStatus :=
  taskCheckStatusFrom SUCCESS
    (TaskCheckRunResult.resultList (TaskCheckRun.result taskCheckRun)).

Definition viewCheckRunDetail (state : LocalState.t) (taskCheckRun : TaskCheckRun.t)
  : LocalState.t :=
  {| LocalState.showModal := true;
     LocalState.selectedTaskCheckRun := Some taskCheckRun;
     LocalState.selectedTabIndex := LocalState.selectedTabIndex state |}.

Definition dimissModal (state : LocalState.t) : LocalState.t :=
  {| LocalState.showModal := false;
     LocalState.selectedTaskCheckRun := None;
     LocalState.selectedTabIndex := LocalState.selectedTabIndex state |}.

(** The handler of [select-index] of the tab filter: an index outside
    the array reads as [undefined]. *)
Definition selectIndex (task : Task.t) (state : LocalState.t) (index : nat)
  : LocalState.t :=
  {| LocalState.showModal := LocalState.showModal state;
     LocalState.selectedTaskCheckRun := tabTaskCheckRunList task state !! index;
     LocalState.selectedTabIndex := index |}.

(** What the user does with the bar: click a badge of a check run, close
    the modal, click a tab of the tab filter. *)
Inductive Action :=
| ViewCheckRun (taskCheckRun : TaskCheckRun.t)
| Dismiss
| SelectTab (index : nat).

Definition act (task : Task.t) (state : LocalState.t) (a : Action) : LocalState.t :=
  match a with
  | ViewCheckRun taskCheckRun => viewCheckRunDetail state taskCheckRun
  | Dismiss => dimissModal state
  | SelectTab index => selectIndex task state index
  end.

(** The states the bar reaches: the tab filter shows one tab per item of
    [tabItemList], so that it emits the index of one of them. *)
Inductive reachable (task : Task.t) : LocalState.t → Prop :=
| reachable_initial : reachable task initialState
| reachable_view state taskCheckRun :
    reachable task state →
    reachable task (viewCheckRunDetail state taskCheckRun)
| reachable_dismiss state :
    reachable task state → reachable task (dimissModal state)
| reachable_select state index :
    reachable task state →
    (index < length (tabTaskCheckRunList task state))%nat →
    reachable task (selectIndex task state index).

(** [a] is not older than [b]. *)
Definition newerFirst (a b : TaskCheckRun.t) : Prop :=
  TaskCheckRun.createdTs b <= TaskCheckRun.createdTs a.

(** The order of severity of the check statuses. *)
Definition severity (status : TaskCheckStatus) : nat :=
  match status with SUCCESS => 0 | WARN => 1 | ERROR => 2 end.

End TaskCheckBar.

(** ** The grants of [frontend/src/components/InstanceUserTable.vue] *)

(** [instanceUser.grant.replaceAll("\n", "\n\n")]: with a string as
    pattern, [String.prototype.replaceAll] replaces the occurrences from
    the left, as [strings.ReplaceAll] does. *)
Definition grantText (grant : string) : string :=
  ReplaceAll grant newline (newline +:+ newline).

(** The number of newline characters of a string. *)
Fixpoint countNewlines (str : string) : nat :=
  match str with
  | EmptyString => 0
  | String c str' =>
      (if Ascii.eqb c (ascii_of_nat 10) then 1 else 0) + countNewlines str'
  end.

(** ** The schema path expression as the specification describes it *)

(** The matcher of the generated schema file is built by substituting
    the named placeholders of the schema path template, [{{ENV_NAME}}]
    and [{{DB_NAME}}], with capture groups over the permissive character
    class.  Here the template is read once from the left: where a
    placeholder starts, its group is written and the placeholder is
    skipped; every other character is kept.  [skip] counts the characters
    of a placeholder that are still to be skipped. *)
Fixpoint substitutePlaceholders (skip : nat) (template : string) : string :=
  match template with
  | EmptyString => EmptyString
  | String c rest =>
      match skip with
      | S n => substitutePlaceholders n rest
      | O =>
          if String.prefix "{{ENV_NAME}}" template
          then placeholderGroup "ENV_NAME" +:+ substitutePlaceholders 11 rest
          else if String.prefix "{{DB_NAME}}" template
          then placeholderGroup "DB_NAME" +:+ substitutePlaceholders 10 rest
          else String c (substitutePlaceholders 0 rest)
      end
  end.

Definition schemaPathExpression (schemaPathTemplate : string) : string :=
  substitutePlaceholders 0 schemaPathTemplate.

Section SpecifiedClassifier.

Context (d : Deps).

(** Whether the file matches the schema path template, by the expression
    of the specification; [None] when the expression is no regular
    expression. *)
Definition matchesSchemaArtifact (repository : Repository.t) (added : string)
  : option bool :=
  if String.eqb (Repository.SchemaPathTemplate repository) "" then Some false
  else match regexpCompile d
               (schemaPathExpression (Repository.SchemaPathTemplate repository)) with
       | Ok myRegex => Some (myRegex added)
       | Err _ => None
       end.

(** The class of an added file by the ordered rules of the
    specification: the base directory, then the schema path template,
    then the migration file path template. *)
Definition pathClass (repository : Repository.t) (added : string) : PathClass :=
  if negb (HasPrefix added (Repository.BaseDirectory repository))
  then OutsideBaseDirectory
  else match matchesSchemaArtifact repository added with
       | None => InvalidSchemaTemplate
       | Some true => GeneratedSchemaFile
       | Some false =>
           match ParseMigrationInfo d added (migrationPathTemplate d repository) with
           | Err err => NotAMigration err
           | Ok mi => MigrationFile mi
           end
       end.

End SpecifiedClassifier.

(** ** Further cases of the concrete installation *)

Module Cases.
Import Scenario.

(** The installation with a [time.Parse] that takes no timestamp. *)
Definition depsTimeDown : Deps :=
  {| jsonUnmarshal := jsonUnmarshal plainDeps;
     jsonMarshal := jsonMarshal plainDeps;
     timeParse := fun _ => Err (Errorf "parsing time: cannot parse as 2006-01-02T15:04:05Z07:00");
     regexpCompile := regexpCompile plainDeps;
     EqualFold := EqualFold plainDeps;
     Quote := Quote plainDeps;
     filepathJoin := filepathJoin plainDeps;
     QueryEscape := QueryEscape plainDeps;
     ParseMigrationInfo := ParseMigrationInfo plainDeps;
     gitlabGET := gitlabGET plainDeps;
     SYSTEM_BOT_ID := SYSTEM_BOT_ID plainDeps;
     PipelineApprovalValueManualNever := PipelineApprovalValueManualNever plainDeps |}.

(** The repository with its migrations under [migrations/]: the files of
    the push events of the installation are outside. *)
Definition repositoryElsewhere : Repository.t :=
  {| Repository.Name := "shop"; Repository.ProjectId := 101;
     Repository.VCS := {| VCS.Type_ := "GITLAB_SELF_HOST";
                          VCS.InstanceURL := "https://gitlab.example.com" |};
     Repository.ExternalId := "7"; Repository.WebhookSecretToken := "s3cret";
     Repository.AccessToken := "token";
     Repository.BaseDirectory := "migrations/";
     Repository.FilePathTemplate := "{{ENV_NAME}}/{{DB_NAME}}__v{{VERSION}}.sql";
     Repository.SchemaPathTemplate := "" |}.

Definition serverElsewhere : Server :=
  server repositoryElsewhere databases policies issueStore activityStore.

(** A project without databases. *)
Definition databasesNone (projectId : Z) (name : string) : result (list Database.t) :=
  Ok [].

Definition serverNoDatabase : Server :=
  server repository databasesNone policies issueStore activityStore.

Definition noDatabaseError : error :=
  Errorf ("project ID 101 does not own database " +:+ quotePlain "orders"
            +:+ " referenced by the committed file").

(** The repository with a schema path template. *)
Definition serverSchema : Server :=
  server schemaRepository databases policies issueStore activityStore.

(** A task with two runs of the syntax check and one of the connection
    check, and the bar after a click on the older syntax check. *)
Definition checkRun (type : string) (createdTs : Z)
    (statuses : list TaskCheckBar.TaskCheckStatus) : TaskCheckBar.TaskCheckRun.t :=
  {| TaskCheckBar.TaskCheckRun.type := type;
     TaskCheckBar.TaskCheckRun.status := "DONE";
     TaskCheckBar.TaskCheckRun.createdTs := createdTs;
     TaskCheckBar.TaskCheckRun.result :=
       {| TaskCheckBar.TaskCheckRunResult.resultList :=
            List.map TaskCheckBar.TaskCheckResult.mk statuses |} |}.

Definition syntaxCheck1 : TaskCheckBar.TaskCheckRun.t :=
  checkRun "syntax" 100 [TaskCheckBar.SUCCESS; TaskCheckBar.WARN].
Definition connectionCheck : TaskCheckBar.TaskCheckRun.t :=
  checkRun "connection" 150 [TaskCheckBar.SUCCESS].
Definition syntaxCheck2 : TaskCheckBar.TaskCheckRun.t :=
  checkRun "syntax" 200 [TaskCheckBar.ERROR].

Definition task : TaskCheckBar.Task.t :=
  {| TaskCheckBar.Task.name := "Update schema";
     TaskCheckBar.Task.type := "bb.task.database.schema.update";
     TaskCheckBar.Task.status := "PENDING";
     TaskCheckBar.Task.taskCheckRunList := [syntaxCheck1; connectionCheck; syntaxCheck2] |}.

Definition viewing : TaskCheckBar.LocalState.t :=
  TaskCheckBar.viewCheckRunDetail TaskCheckBar.initialState syntaxCheck1.

(** A push event whose first commit adds a file that is no migration and
    whose second commit adds the migration of [orders]. *)
Definition commitNotes : Commit.t :=
  {| Commit.ID := "ba5e"; Commit.Title := "Notes";
     Commit.Message := "Add notes"; Commit.Timestamp := "2021-07-03T10:00:00Z";
     Commit.URL := "https://gitlab.example.com/shop/-/commit/ba5e";
     Commit.AuthorName := "carol";
     Commit.AddedList := [strayFile] |}.

Definition pushNotes : WebhookPushEvent.t := pushOf "push" 7 [commitNotes; commit1].

Definition unmarshalNotes (b : string) : result WebhookPushEvent.t :=
  if String.eqb b "notes" then Ok pushNotes else unmarshalTable b.

(** Whether the parentheses of an expression match. *)
Fixpoint parenthesesMatch (depth : nat) (re : string) : bool :=
  match re with
  | EmptyString => Nat.eqb depth 0
  | String c re' =>
      if Ascii.eqb c "(" then parenthesesMatch (S depth) re'
      else if Ascii.eqb c ")"
           then match depth with
                | O => false
                | S depth' => parenthesesMatch depth' re'
                end
           else parenthesesMatch depth re'
  end.

(** A [regexp.Compile] that refuses, as the real one does, an expression
    whose parentheses do not match; the expression it takes matches no
    file of this installation. *)
Definition compileMatched (re : string) : result (string → bool) :=
  if parenthesesMatch 0 re then Ok (fun _ => false)
  else Err (Errorf ("error parsing regexp: missing closing ): `" +:+ re +:+ "`")).

(** The installation that understands the body [notes]. *)
Definition depsNotes : Deps :=
  {| jsonUnmarshal := unmarshalNotes;
     jsonMarshal := marshalOk;
     timeParse := timeParse plainDeps;
     regexpCompile := compileMatched;
     EqualFold := EqualFold plainDeps;
     Quote := Quote plainDeps;
     filepathJoin := filepathJoin plainDeps;
     QueryEscape := QueryEscape plainDeps;
     ParseMigrationInfo := ParseMigrationInfo plainDeps;
     gitlabGET := gitlabGET plainDeps;
     SYSTEM_BOT_ID := SYSTEM_BOT_ID plainDeps;
     PipelineApprovalValueManualNever := PipelineApprovalValueManualNever plainDeps |}.

(** The repository with a schema path template that is no regular
    expression: its parenthesis is not closed. *)
Definition invalidTemplateRepository : Repository.t := repositoryOf "db/(".

Definition serverInvalidTemplate : Server :=
  server invalidTemplateRepository databases policies issueStore activityStore.

End Cases.

(** ** The monad of loop bodies *)

Lemma bind_assoc {A B C} (m : M A) (f : A → M B) (g : B → M C) :
  bind (bind m f) g = bind m (fun a => bind (f a) g).
Proof.
  destruct m as [tr []]; simpl; try reflexivity.
  destruct (f a) as [tr1 []]; simpl; try reflexivity.
  destruct (g a0) as [tr2 fl]; simpl. by rewrite app_assoc.
Qed.

Lemma bind_ext {A B} (m : M A) (f g : A → M B) :
  (∀ a, f a = g a) → bind m f = bind m g.
Proof. intros E. destruct m as [tr []]; simpl; try reflexivity. by rewrite E. Qed.

Lemma bind_Go {A B} (tr : Trace) (a : A) (k : A → M B) :
  bind (tr, Go a) k = (tr ++ fst (k a), snd (k a)).
Proof. simpl. by destruct (k a). Qed.

Lemma bind_ret_l {A B} (a : A) (k : A → M B) : bind (ret a) k = k a.
Proof. unfold ret. simpl. by destruct (k a). Qed.

Lemma bind_tt {A B} (tr : Trace) (a : A) (k : A → M B) :
  bind (tr, Go a) k = bind (tr, Go tt) (fun _ => k a).
Proof. reflexivity. Qed.

Lemma bind_tt_tt {B} (tr1 tr2 : Trace) (k : unit → M B) :
  bind (tr1, Go tt) (fun _ => bind (tr2, Go tt) k) = bind (tr1 ++ tr2, Go tt) k.
Proof. simpl. destruct (k tt). by rewrite app_assoc. Qed.

Lemma emit_ret {A} (tr : Trace) (a : A) : (emit tr >> ret a) = (tr, Go a).
Proof. simpl. by rewrite app_nil_r. Qed.

Lemma forRange_app {A S} (l1 l2 : list A) (body : S → A → M S) (st : S) :
  forRange (l1 ++ l2) body st = bind (forRange l1 body st) (forRange l2 body).
Proof.
  revert st. induction l1 as [|x l1 IH]; intros st; simpl.
  - destruct (forRange l2 body st); reflexivity.
  - rewrite bind_assoc. apply bind_ext. intros a. apply IH.
Qed.

Section Loops.
Context (d : Deps) (s : Server).

Lemma processCommit_flat repository pushEvent commit l :
  processCommit d s repository pushEvent l commit
  = forRange (List.map (pair commit) (Commit.AddedList commit))
             (fileStep d s repository pushEvent) l.
Proof.
  unfold processCommit. revert l.
  induction (Commit.AddedList commit) as [|added rest IH]; intros l; simpl.
  - reflexivity.
  - unfold fileStep at 1. simpl. apply bind_ext. intros a. apply IH.
Qed.

Lemma processPushEvent_flat repository pushEvent :
  processPushEvent d s repository pushEvent
  = forRange (addedFiles pushEvent) (fileStep d s repository pushEvent) [].
Proof.
  unfold processPushEvent, addedFiles. generalize (@nil string).
  induction (WebhookPushEvent.CommitList pushEvent) as [|commit rest IH];
    intros l; simpl.
  - reflexivity.
  - rewrite forRange_app, processCommit_flat. apply bind_ext. intros a. apply IH.
Qed.
End Loops.

(** ** Traces *)

Lemma ignoreOnly_app tr1 tr2 : ignoreOnly tr1 → ignoreOnly tr2 → ignoreOnly (tr1 ++ tr2).
Proof. apply Forall_app_2. Qed.

Lemma ignoreOnly_issueRequests tr : ignoreOnly tr → issueRequests tr = [].
Proof.
  induction 1 as [|e tr He _ IH]; [reflexivity|].
  destruct e; simpl in *; try discriminate; exact IH.
Qed.

Lemma ignoreOnly_createdIssues tr : ignoreOnly tr → createdIssues tr = [].
Proof.
  induction 1 as [|e tr He _ IH]; [reflexivity|].
  destruct e; simpl in *; try discriminate; exact IH.
Qed.

Lemma ignoreOnly_withoutIgnores tr : ignoreOnly tr → withoutIgnores tr = [].
Proof.
  induction 1 as [|e tr He _ IH]; [reflexivity|].
  unfold withoutIgnores in *. simpl. rewrite He. exact IH.
Qed.

Lemma ignoreOnly_activityCalls tr :
  ignoreOnly tr →
  Forall (fun ac => ActivityCreate.Level ac = ACTIVITY_WARN) (activityCalls tr).
Proof.
  induction 1 as [|e tr He _ IH]; [constructor|].
  destruct e as [| |ac res]; simpl in *; try discriminate; try exact IH.
  constructor; [|exact IH]. destruct (ActivityCreate.Level ac); done.
Qed.

Lemma issueRequests_app tr1 tr2 :
  issueRequests (tr1 ++ tr2) = issueRequests tr1 ++ issueRequests tr2.
Proof. apply omap_app. Qed.

Lemma createdIssues_app tr1 tr2 :
  createdIssues (tr1 ++ tr2) = createdIssues tr1 ++ createdIssues tr2.
Proof. apply omap_app. Qed.

Lemma activityCalls_app tr1 tr2 :
  activityCalls (tr1 ++ tr2) = activityCalls tr1 ++ activityCalls tr2.
Proof. apply omap_app. Qed.

Lemma recordedActivities_app tr1 tr2 :
  recordedActivities (tr1 ++ tr2) = recordedActivities tr1 ++ recordedActivities tr2.
Proof. apply omap_app. Qed.

Lemma withoutIgnores_app tr1 tr2 :
  withoutIgnores (tr1 ++ tr2) = withoutIgnores tr1 ++ withoutIgnores tr2.
Proof. apply List.filter_app. Qed.

Section Emission.
Context (d : Deps) (s : Server).

Lemma createIgnoredFileActivity_Go repository ev added err :
  snd (createIgnoredFileActivity d s repository ev added err) = Go tt.
Proof.
  unfold createIgnoredFileActivity. simpl.
  destruct (jsonMarshal d _); [|reflexivity].
  destruct (CreateActivity s _); reflexivity.
Qed.

Lemma createIgnoredFileActivity_ignoreOnly repository ev added err :
  ignoreOnly (fst (createIgnoredFileActivity d s repository ev added err)).
Proof.
  unfold createIgnoredFileActivity, ignoreOnly. simpl.
  destruct (jsonMarshal d _); [|repeat constructor].
  destruct (CreateActivity s _); repeat constructor.
Qed.

Lemma createIgnoredFileActivity_eta repository ev added err :
  createIgnoredFileActivity d s repository ev added err
  = (fst (createIgnoredFileActivity d s repository ev added err), Go tt).
Proof.
  rewrite <- (createIgnoredFileActivity_Go repository ev added err).
  by destruct (createIgnoredFileActivity d s repository ev added err).
Qed.

Lemma policyTrace_ignoreOnly repository ev added dbs :
  ignoreOnly (policyTrace d s repository ev added dbs).
Proof.
  unfold policyTrace. induction dbs as [|db dbs IH]; simpl; [constructor|].
  apply ignoreOnly_app; [|exact IH].
  destruct (GetPipelineApprovalPolicy s _); [constructor|].
  apply createIgnoredFileActivity_ignoreOnly.
Qed.

Lemma groupPure_policyClosed maps database :
  policyClosed s (snd maps) → policyClosed s (snd (groupPure s maps database)).
Proof.
  intros Hc e He. unfold groupPure. cbn [fst snd].
  destruct (snd maps !! envOf database) eqn:E1; [by apply Hc|].
  destruct (policyValue s (envOf database)) eqn:E2; [|by apply Hc].
  rewrite lookup_insert_ne; [by apply Hc|]. intros E. rewrite E in E2. congruence.
Qed.

Lemma groupDatabase_eq repository ev added maps database :
  policyClosed s (snd maps) →
  groupDatabase d s repository ev added maps database
  = (policyTrace d s repository ev added [database], Go (groupPure s maps database)).
Proof.
  intros Hc. destruct maps as [byEnv approval]. simpl in Hc.
  unfold policyClosed, groupDatabase, groupPure, policyTrace, policyValue, envOf in *. simpl.
  rewrite app_nil_r.
  destruct (approval !! _) eqn:E1.
  - destruct (GetPipelineApprovalPolicy s _) eqn:E2.
    + unfold ret. by destruct (byEnv !! _).
    + specialize (Hc (Instance.EnvironmentId (Database.Instance database))).
      rewrite E2 in Hc. rewrite Hc in E1; [discriminate|reflexivity].
  - destruct (GetPipelineApprovalPolicy s _) eqn:E2.
    + unfold ret. by destruct (byEnv !! _).
    + rewrite createIgnoredFileActivity_eta. simpl. rewrite app_nil_r.
      by destruct (byEnv !! _).
Qed.

Lemma groupLoop_eq repository ev added dbs maps :
  policyClosed s (snd maps) →
  forRange dbs (groupDatabase d s repository ev added) maps
  = (policyTrace d s repository ev added dbs, Go (fold_left (groupPure s) dbs maps)).
Proof.
  revert maps. induction dbs as [|db dbs IH]; intros maps Hc; simpl.
  - reflexivity.
  - rewrite groupDatabase_eq by exact Hc. simpl.
    rewrite IH by (by apply groupPure_policyClosed).
    unfold policyTrace. simpl. by rewrite app_nil_r.
Qed.
End Emission.

(** ** The database loop *)

Lemma logsOnly_ignoreOnly tr : logsOnly tr → ignoreOnly tr.
Proof. intros H. eapply Forall_impl; [exact H|]. intros []; simpl; done. Qed.

Lemma logsOnly_activityCalls tr : logsOnly tr → activityCalls tr = [].
Proof.
  induction 1 as [|e tr He _ IH]; [reflexivity|].
  destruct e; simpl in *; try done.
Qed.

Lemma bucket_cons_eq db dbs : bucket (envOf db) (db :: dbs) = db :: bucket (envOf db) dbs.
Proof. unfold bucket. simpl. by rewrite Z.eqb_refl. Qed.

Lemma bucket_cons_ne e db dbs : envOf db ≠ e → bucket e (db :: dbs) = bucket e dbs.
Proof.
  intros Hne. unfold bucket. simpl.
  destruct (Z.eqb_spec (envOf db) e); [contradiction|reflexivity].
Qed.

Section Grouping.
Context (d : Deps) (s : Server).

Lemma fold_groupPure_fst dbs maps e :
  fst (fold_left (groupPure s) dbs maps) !! e
  = match fst maps !! e with
    | Some l => Some (l ++ bucket e dbs)
    | None => match bucket e dbs with [] => None | l => Some l end
    end.
Proof.
  revert maps. induction dbs as [|db dbs IH]; intros maps.
  - simpl. destruct (fst maps !! e); [by rewrite app_nil_r|reflexivity].
  - cbn [fold_left]. rewrite IH. unfold groupPure at 1. cbn [fst snd].
    destruct (decide (envOf db = e)) as [<-|Hne].
    + rewrite bucket_cons_eq.
      destruct (fst maps !! envOf db) as [l|] eqn:E.
      * rewrite lookup_insert_eq. by rewrite <- app_assoc.
      * rewrite lookup_insert_eq. reflexivity.
    + rewrite (bucket_cons_ne e db dbs Hne).
      destruct (fst maps !! envOf db) as [l|] eqn:E;
        by rewrite lookup_insert_ne.
Qed.

Lemma fold_groupPure_snd dbs maps e :
  snd (fold_left (groupPure s) dbs maps) !! e
  = match snd maps !! e with
    | Some v => Some v
    | None => match bucket e dbs with [] => None | _ => policyValue s e end
    end.
Proof.
  revert maps. induction dbs as [|db dbs IH]; intros maps.
  - simpl. by destruct (snd maps !! e).
  - cbn [fold_left]. rewrite IH. unfold groupPure at 1. cbn [fst snd].
    destruct (decide (envOf db = e)) as [<-|Hne].
    + rewrite bucket_cons_eq.
      destruct (snd maps !! envOf db) as [v|] eqn:E.
      * by rewrite E.
      * destruct (policyValue s (envOf db)) as [v|] eqn:E2.
        -- by rewrite lookup_insert_eq.
        -- rewrite E. by destruct (bucket (envOf db) dbs).
    + rewrite (bucket_cons_ne e db dbs Hne).
      destruct (snd maps !! envOf db) as [v|] eqn:E; [reflexivity|].
      destruct (policyValue s (envOf db)) as [v|] eqn:E2; [|reflexivity].
      by rewrite lookup_insert_ne.
Qed.

Lemma policyMap_lookup dbs e :
  policyMap s dbs !! e
  = match bucket e dbs with [] => None | _ => policyValue s e end.
Proof.
  unfold policyMap. induction dbs as [|db dbs IH]; [reflexivity|].
  cbn [omap list_omap].
  destruct (decide (envOf db = e)) as [<-|Hne].
  - rewrite bucket_cons_eq.
    destruct (policyValue s (envOf db)) as [v|] eqn:E; cbn [fmap option_fmap option_map].
    + cbn [list_to_map foldr]. by rewrite lookup_insert_eq.
    + rewrite IH. by destruct (bucket (envOf db) dbs).
  - rewrite (bucket_cons_ne e db dbs Hne).
    destruct (policyValue s (envOf db)) as [v|] eqn:E; cbn [fmap option_fmap option_map].
    + cbn [list_to_map foldr]. by rewrite lookup_insert_ne.
    + exact IH.
Qed.

Lemma fold_groupPure_policyMap dbs :
  snd (fold_left (groupPure s) dbs (∅, ∅)) = policyMap s dbs.
Proof.
  apply map_eq. intros e.
  rewrite fold_groupPure_snd, policyMap_lookup. cbn [snd].
  by rewrite lookup_empty.
Qed.

Lemma fold_groupPure_ambiguous dbs :
  existsb (fun entry : Z * list Database.t => (1 <? length (snd entry))%nat)
          (map_to_list (fst (fold_left (groupPure s) dbs (∅, ∅))))
  = ambiguous dbs.
Proof.
  apply Bool.eq_iff_eq_true. unfold ambiguous. rewrite !existsb_exists. split.
  - intros [[e l] [Hin Hlen]]. cbn [snd] in Hlen.
    apply list_elem_of_In, elem_of_map_to_list in Hin.
    rewrite fold_groupPure_fst in Hin. cbn [fst] in Hin.
    rewrite lookup_empty in Hin.
    destruct (bucket e dbs) as [|db rest] eqn:E; [discriminate|].
    injection Hin as <-.
    assert (Hdb : In db (bucket e dbs)) by (rewrite E; left; reflexivity).
    unfold bucket in Hdb. apply filter_In in Hdb as [Hdb He].
    apply Z.eqb_eq in He. exists db. split; [exact Hdb|].
    rewrite He, E. exact Hlen.
  - intros [db [Hdb Hlen]].
    exists (envOf db, bucket (envOf db) dbs). split; [|exact Hlen].
    apply list_elem_of_In, elem_of_map_to_list.
    rewrite fold_groupPure_fst. cbn [fst]. rewrite lookup_empty.
    destruct (bucket (envOf db) dbs); [discriminate|reflexivity].
Qed.

Lemma ambiguityLoop_eq mi (entries : list (Z * list Database.t)) (acc : bool) :
  ∃ logs,
    forRange entries (warnAmbiguous d mi) acc
    = (logs,
       Go (acc || existsb (fun entry => (1 <? length (snd entry))%nat) entries))
    ∧ logsOnly logs
    ∧ (existsb (fun entry => (1 <? length (snd entry))%nat) entries = false → logs = []).
Proof.
  revert acc. induction entries as [|[e l] entries IH]; intros acc.
  - exists []. simpl. rewrite orb_false_r. repeat split. constructor.
  - cbn [forRange existsb snd]. unfold warnAmbiguous at 1.
    destruct (1 <? length l)%nat eqn:E.
    + destruct (IH true) as (logs & Heq & Hlogs & _).
      eexists. cbn [emit ret bind app]. rewrite Heq. cbn [orb].
      rewrite orb_true_r. split; [reflexivity|]. split; [|discriminate].
      constructor; [exact I|exact Hlogs].
    + destruct (IH acc) as (logs & Heq & Hlogs & Hnil).
      exists logs. cbn [ret bind]. rewrite Heq. cbn [orb app].
      split; [reflexivity|]. split; [exact Hlogs|exact Hnil].
Qed.

Lemma checkAmbiguous_eq mi dbs :
  checkAmbiguous d mi (fst (fold_left (groupPure s) dbs (∅, ∅)))
  = (ambiguityLog d s mi dbs, Go (ambiguous dbs)).
Proof.
  unfold ambiguityLog, checkAmbiguous.
  destruct (ambiguityLoop_eq mi
              (map_to_list (fst (fold_left (groupPure s) dbs (∅, ∅)))) false)
    as (logs & Heq & _).
  rewrite Heq. cbn [orb fst]. by rewrite fold_groupPure_ambiguous.
Qed.

Lemma ambiguityLog_logsOnly mi dbs : logsOnly (ambiguityLog d s mi dbs).
Proof.
  unfold ambiguityLog, checkAmbiguous.
  destruct (ambiguityLoop_eq mi
              (map_to_list (fst (fold_left (groupPure s) dbs (∅, ∅)))) false)
    as (logs & Heq & Hlogs & _).
  by rewrite Heq.
Qed.

Lemma ambiguityLog_nil mi dbs : ambiguous dbs = false → ambiguityLog d s mi dbs = [].
Proof.
  intros Hamb. unfold ambiguityLog, checkAmbiguous.
  destruct (ambiguityLoop_eq mi
              (map_to_list (fst (fold_left (groupPure s) dbs (∅, ∅)))) false)
    as (logs & Heq & _ & Hnil).
  rewrite Heq. cbn [fst]. apply Hnil. by rewrite fold_groupPure_ambiguous.
Qed.
End Grouping.

(** ** The body of the file loop *)

Section PerFile.
Context (d : Deps) (s : Server).

Lemma ignore_continue {A} repository ev added err :
  (createIgnoredFileActivity d s repository ev added err >> @continue A)
  = (fst (createIgnoredFileActivity d s repository ev added err), Continue).
Proof.
  rewrite createIgnoredFileActivity_eta at 1. cbn [bind continue].
  by rewrite app_nil_r.
Qed.

Lemma findDatabaseList_found repository ev added mi l db rest :
  ComposeDatabaseListByFind s (Repository.ProjectId repository)
                            (MigrationInfo.Database mi) = Ok l →
  filterByEnvironment d mi l = db :: rest →
  findDatabaseList d s repository ev added mi = ([], Go (db :: rest)).
Proof.
  intros Hfind Hfilter. unfold findDatabaseList. rewrite Hfind.
  unfold filterByEnvironment in Hfilter.
  destruct l as [|db0 l]; [by destruct (String.eqb _ _)|].
  cbn [length Nat.eqb ret bind].
  destruct (String.eqb (MigrationInfo.Environment mi) "").
  - cbn [negb]. by rewrite Hfilter.
  - cbn [negb]. rewrite Hfilter. reflexivity.
Qed.

Lemma findDatabaseList_none repository ev added mi :
  match ComposeDatabaseListByFind s (Repository.ProjectId repository)
                                  (MigrationInfo.Database mi) with
  | Ok l => filterByEnvironment d mi l = []
  | Err _ => True
  end →
  ∃ tr, ignoreOnly tr
        ∧ findDatabaseList d s repository ev added mi = (tr, Continue).
Proof.
  intros H. unfold findDatabaseList.
  destruct (ComposeDatabaseListByFind s _ _) as [l|err].
  - unfold filterByEnvironment in H.
    destruct l as [|db0 l].
    + cbn [length Nat.eqb]. rewrite ignore_continue. eexists.
      split; [apply createIgnoredFileActivity_ignoreOnly|reflexivity].
    + cbn [length Nat.eqb ret bind].
      destruct (String.eqb (MigrationInfo.Environment mi) ""); [discriminate|].
      cbn [negb]. rewrite H. cbn [length Nat.eqb]. rewrite ignore_continue.
      cbn [app]. eexists.
      split; [apply createIgnoredFileActivity_ignoreOnly|reflexivity].
  - rewrite ignore_continue. eexists.
    split; [apply createIgnoredFileActivity_ignoreOnly|reflexivity].
Qed.

(** The part of the file body after the candidate databases are found. *)
Lemma grouping_eq repository commit ev added mi b dbs l :
  (maps <- forRange dbs (groupDatabase d s repository ev added) (∅, ∅) ;;
   multipleDatabaseForSameEnv <- checkAmbiguous d mi (fst maps) ;;
   (if multipleDatabaseForSameEnv : bool then continue else ret tt) >>
   createIssueAndActivity d s repository ev added
     (makeIssueCreate d repository commit ev mi b (snd maps) dbs) l)
  = ((policyTrace d s repository ev added dbs ++ ambiguityLog d s mi dbs, Go tt) >>
     if ambiguous dbs then continue
     else createIssueAndActivity d s repository ev added
            (makeIssueCreate d repository commit ev mi b (policyMap s dbs) dbs) l).
Proof.
  rewrite groupLoop_eq by (intros e _; apply lookup_empty).
  rewrite bind_Go. rewrite checkAmbiguous_eq. rewrite fold_groupPure_policyMap.
  rewrite !bind_Go. cbn [fst snd].
  destruct (ambiguous dbs).
  - cbn [continue bind fst snd]. by rewrite !app_nil_r.
  - cbn [ret bind fst snd app].
    destruct (createIssueAndActivity _ _ _ _ _ _ _) as [tr fl]. cbn [fst snd].
    by rewrite app_assoc.
Qed.

Lemma processFile_candidates repository pushEvent commit added mi b dbs l :
  candidateDatabases d s repository commit added = Some (mi, b, dbs) →
  processFile d s repository pushEvent commit added l
  = ((timestampLog d commit
        ++ policyTrace d s repository
             (fileVCSPushEvent d repository pushEvent commit added) added dbs
        ++ ambiguityLog d s mi dbs, Go tt) >>
     if ambiguous dbs then continue
     else createIssueAndActivity d s repository
            (fileVCSPushEvent d repository pushEvent commit added) added
            (issueCreateOf d s repository pushEvent commit added mi b dbs) l).
Proof.
  intros H. unfold candidateDatabases in H.
  destruct (HasPrefix added _) eqn:Hpre; [|discriminate]. cbn [negb] in H.
  destruct (matchesSchemaPath d repository added) as [[|]|] eqn:Hschema;
    try discriminate.
  destruct (ParseMigrationInfo d added _) as [mi'|] eqn:Hparse; [|discriminate].
  destruct (fetchFile d repository commit added) as [b'|] eqn:Hfetch; [|discriminate].
  destruct (ComposeDatabaseListByFind s _ _) as [l0|] eqn:Hfind; [|discriminate].
  destruct (filterByEnvironment d mi' l0) as [|db rest] eqn:Hfilter; [discriminate|].
  injection H as -> -> <-.
  unfold fetchFile in Hfetch.
  destruct (gitlabGET d _ _ _) as [resp|] eqn:Hget; [|discriminate].
  unfold migrationPathTemplate in Hparse.
  unfold processFile. rewrite Hpre. cbn [negb]. rewrite bind_ret_l.
  unfold issueCreateOf, fileVCSPushEvent, createdTimeOf, timestampLog.
  assert (Hskip :
    (if negb (String.eqb (Repository.SchemaPathTemplate repository) "")
     then match regexpCompile d
                  (schemafilePathRegex (Repository.SchemaPathTemplate repository)) with
          | Err _ => emit [EvLog Warn "Invalid schema path template."] >> panic
          | Ok myRegex => if myRegex added then continue else ret tt
          end
     else ret tt) = ret tt).
  { unfold matchesSchemaPath in Hschema.
    destruct (String.eqb (Repository.SchemaPathTemplate repository) "");
      [reflexivity|]. cbn [negb].
    destruct (regexpCompile d _) as [myRegex|]; [|discriminate].
    injection Hschema as ->. reflexivity. }
  destruct (timeParse d (Commit.Timestamp commit)) as [createdTime|err].
  - rewrite bind_ret_l, Hskip, bind_ret_l. unfold processMigrationFile.
    rewrite Hparse, bind_ret_l, Hget, bind_ret_l, Hfetch, bind_ret_l.
    rewrite (findDatabaseList_found _ _ _ _ _ _ _ Hfind Hfilter).
    change (@nil Event, Go (db :: rest)) with (ret (db :: rest)).
    rewrite bind_ret_l. apply grouping_eq.
  - rewrite emit_ret, bind_tt. rewrite <- bind_tt_tt.
    apply bind_ext. intros _. rewrite Hskip, bind_ret_l.
    unfold processMigrationFile.
    rewrite Hparse, bind_ret_l, Hget, bind_ret_l, Hfetch, bind_ret_l.
    rewrite (findDatabaseList_found _ _ _ _ _ _ _ Hfind Hfilter).
    change (@nil Event, Go (db :: rest)) with (ret (db :: rest)).
    rewrite bind_ret_l. apply grouping_eq.
Qed.

Lemma processMigrationFile_none repository commit ev added l :
  match ParseMigrationInfo d added (migrationPathTemplate d repository) with
  | Ok mi =>
      match fetchFile d repository commit added with
      | Ok b =>
          match ComposeDatabaseListByFind s (Repository.ProjectId repository)
                                          (MigrationInfo.Database mi) with
          | Ok databaseList =>
              match filterByEnvironment d mi databaseList with
              | [] => None
              | dbs => Some (mi, b, dbs)
              end
          | Err _ => None
          end
      | Err _ => None
      end
  | Err _ => None
  end = None →
  ∃ tr, ignoreOnly tr
        ∧ processMigrationFile d s repository commit ev added l = (tr, Continue).
Proof.
  intros H. unfold processMigrationFile, migrationPathTemplate, fetchFile in *.
  destruct (ParseMigrationInfo d added _) as [mi|err].
  2:{ rewrite ignore_continue. eexists.
      split; [apply createIgnoredFileActivity_ignoreOnly|reflexivity]. }
  rewrite bind_ret_l.
  destruct (gitlabGET d _ _ _) as [resp|err].
  2:{ rewrite ignore_continue. eexists.
      split; [apply createIgnoredFileActivity_ignoreOnly|reflexivity]. }
  rewrite bind_ret_l.
  destruct (Response.Body resp) as [b|err].
  2:{ rewrite ignore_continue. eexists.
      split; [apply createIgnoredFileActivity_ignoreOnly|reflexivity]. }
  rewrite bind_ret_l.
  destruct (findDatabaseList_none repository ev added mi) as (tr & Htr & Heq).
  { destruct (ComposeDatabaseListByFind s _ _) as [l0|]; [|exact I].
    by destruct (filterByEnvironment d mi l0). }
  rewrite Heq. exists tr. split; [exact Htr|reflexivity].
Qed.

(** A file without candidate databases is skipped, or makes the handler
    panic; it writes log lines and WARN activity calls only. *)
Lemma processFile_no_candidates repository pushEvent commit added l :
  candidateDatabases d s repository commit added = None →
  ∃ tr, ignoreOnly tr
        ∧ processFile d s repository pushEvent commit added l
          = (tr, if crashes d repository added then Panic else Continue).
Proof.
  intros H. unfold candidateDatabases in H. unfold processFile, crashes.
  destruct (HasPrefix added _) eqn:Hpre; cbn [negb andb] in *.
  2:{ eexists. split; [|reflexivity]. repeat constructor. }
  rewrite bind_ret_l.
  assert (Htime : ∃ createdTime,
    match timeParse d (Commit.Timestamp commit) with
    | Err _ =>
        emit [EvLog Warn "Ignored committed file, failed to parse commit timestamp."] >>
        ret zeroTimeUnix
    | Ok createdTime => ret createdTime
    end = (timestampLog d commit, Go createdTime)).
  { unfold timestampLog. destruct (timeParse d _); [by eexists|].
    rewrite emit_ret. by eexists. }
  destruct Htime as [createdTime ->]. rewrite bind_tt.
  assert (Hlog : ignoreOnly (timestampLog d commit)).
  { unfold timestampLog. destruct (timeParse d _); repeat constructor. }
  assert (Hgen : ∀ (m : M (list string)) (tr : Trace) (fl : Flow (list string)),
             ignoreOnly tr → m = (tr, fl) →
             ∃ tr', ignoreOnly tr'
                    ∧ ((timestampLog d commit, Go tt) >> m) = (tr', fl)).
  { intros m tr fl Htr ->. exists (timestampLog d commit ++ tr).
    split; [by apply ignoreOnly_app|reflexivity]. }
  unfold matchesSchemaPath in *.
  destruct (String.eqb (Repository.SchemaPathTemplate repository) "") eqn:Htmpl;
    cbn [negb].
  - rewrite bind_ret_l.
    destruct (processMigrationFile_none repository commit
                (makeVCSPushEvent repository pushEvent commit added createdTime)
                added l H) as (tr & Htr & Heq).
    by apply (Hgen _ tr).
  - destruct (regexpCompile d _) as [myRegex|err].
    + destruct (myRegex added).
      * apply (Hgen _ []); [constructor|reflexivity].
      * rewrite bind_ret_l.
        destruct (processMigrationFile_none repository commit
                    (makeVCSPushEvent repository pushEvent commit added createdTime)
                    added l H) as (tr & Htr & Heq).
        by apply (Hgen _ tr).
    + eapply Hgen; [|reflexivity]. repeat constructor.
Qed.
End PerFile.

(** ** The loops *)

Lemma bind_Go_inv {A B} (m : M A) (k : A → M B) tr b :
  bind m k = (tr, Go b) →
  ∃ tr1 a tr2, m = (tr1, Go a) ∧ k a = (tr2, Go b) ∧ tr = tr1 ++ tr2.
Proof.
  destruct m as [tr1 [a| | |]]; simpl; try discriminate.
  destruct (k a) as [tr2 fl] eqn:E. intros [= <- ->]. by exists tr1, a, tr2.
Qed.

Section Summary.
Context (d : Deps) (s : Server).

(** The three ways the creation of the issue can end. *)
Lemma createIssueAndActivity_failed repository ev added ic l err :
  CreateIssue s ic (SYSTEM_BOT_ID d) = Err err →
  createIssueAndActivity d s repository ev added ic l
  = ([EvCreateIssue ic (SYSTEM_BOT_ID d) (Err err);
      EvLog Warn "Failed to create update schema task for added repository file"],
     Continue).
Proof. intros H. unfold createIssueAndActivity. by rewrite H. Qed.

Lemma createIssueAndActivity_recorded repository ev added ic l issue :
  CreateIssue s ic (SYSTEM_BOT_ID d) = Ok issue →
  successRecorded d s repository ev issue = true →
  ∃ bytes,
    jsonMarshal d {| PushPayload.VCSPushEvent := ev;
                     PushPayload.IssueId := Issue.ID issue;
                     PushPayload.IssueName := Issue.Name issue |} = Ok bytes
    ∧ createIssueAndActivity d s repository ev added ic l
      = ([EvCreateIssue ic (SYSTEM_BOT_ID d) (Ok issue);
          EvCreateActivity (createdIssueActivity d repository issue bytes) (Ok tt)],
         Go (l ++ [createdMessage d issue added])).
Proof.
  intros H Hrec. unfold createIssueAndActivity, successRecorded in *. rewrite H.
  destruct (jsonMarshal d _) as [bytes|]; [|discriminate].
  exists bytes. split; [reflexivity|].
  destruct (CreateActivity s _) as [[]|]; [|discriminate]. reflexivity.
Qed.

Lemma createIssueAndActivity_unrecorded repository ev added ic l issue :
  CreateIssue s ic (SYSTEM_BOT_ID d) = Ok issue →
  successRecorded d s repository ev issue = false →
  ∃ tr msg,
    createIssueAndActivity d s repository ev added ic l
    = (EvCreateIssue ic (SYSTEM_BOT_ID d) (Ok issue) :: tr,
       Return (HTTPError StatusInternalServerError msg))
    ∧ issueRequests tr = [] ∧ recordedActivities tr = [].
Proof.
  intros H Hrec. unfold createIssueAndActivity, successRecorded in *. rewrite H.
  cbv zeta.
  destruct (jsonMarshal d _) as [bytes|].
  - destruct (CreateActivity s _) as [|err] eqn:E; [discriminate|].
    eexists [_], _. cbn [emit bind return_ app]. done.
  - exists [], "Failed to construct activity payload". done.
Qed.

(** What one file adds to the trace and to the response. *)
Lemma fileStep_summary repository pushEvent l file :
  ∃ tr fl,
    fileStep d s repository pushEvent l file = (tr, fl)
    ∧ fl ≠ Continue
    ∧ (∀ l', fl = Go l' →
         issueRequests tr = option_list (requestOf d s repository pushEvent file)
         ∧ createdIssues tr = option_list (issueOf d s repository pushEvent file)
         ∧ l' = l ++ option_list (lineOf d s repository pushEvent file)).
Proof.
  destruct file as [commit added]. unfold fileStep, lineOf, issueOf, requestOf.
  cbn [fst snd].
  destruct (candidateDatabases d s repository commit added) as [[[mi b] dbs]|] eqn:Hc.
  - rewrite (processFile_candidates d s _ pushEvent _ _ _ _ _ l Hc).
    set (pre := timestampLog d commit ++ _ ++ _).
    assert (Hpre : ignoreOnly pre).
    { apply ignoreOnly_app.
      { unfold timestampLog. destruct (timeParse d _); repeat constructor. }
      apply ignoreOnly_app; [apply policyTrace_ignoreOnly|].
      apply logsOnly_ignoreOnly, ambiguityLog_logsOnly. }
    destruct (ambiguous dbs).
    + eexists _, _. cbn [continue bind iteration]. split; [reflexivity|].
      split; [discriminate|]. intros l' [= <-]. rewrite app_nil_r.
      rewrite ignoreOnly_issueRequests, ignoreOnly_createdIssues by exact Hpre.
      cbn. by rewrite app_nil_r.
    + set (ic := issueCreateOf d s repository pushEvent commit added mi b dbs).
      destruct (CreateIssue s ic (SYSTEM_BOT_ID d)) as [issue|err] eqn:Hi.
      * destruct (successRecorded d s repository
                    (fileVCSPushEvent d repository pushEvent commit added) issue) eqn:Hr.
        -- destruct (createIssueAndActivity_recorded repository _ added ic l issue Hi Hr)
             as (bytes & _ & ->).
           eexists _, _. cbn [bind iteration]. split; [reflexivity|].
           split; [discriminate|]. intros l' [= <-].
           rewrite issueRequests_app, createdIssues_app.
           rewrite ignoreOnly_issueRequests, ignoreOnly_createdIssues by exact Hpre.
           done.
        -- destruct (createIssueAndActivity_unrecorded repository _ added ic l issue Hi Hr)
             as (tr & msg & -> & _).
           eexists _, _. cbn [bind iteration]. split; [reflexivity|].
           split; discriminate.
      * rewrite (createIssueAndActivity_failed repository _ added ic l err Hi).
        eexists _, _. cbn [bind iteration]. split; [reflexivity|].
        split; [discriminate|]. intros l' [= <-].
        rewrite issueRequests_app, createdIssues_app.
        rewrite ignoreOnly_issueRequests, ignoreOnly_createdIssues by exact Hpre.
        cbn. by rewrite app_nil_r.
  - destruct (processFile_no_candidates d s repository pushEvent commit added l Hc)
      as (tr & Htr & ->).
    destruct (crashes d repository added).
    + eexists _, _. cbn [iteration]. split; [reflexivity|]. split; discriminate.
    + eexists _, _. cbn [iteration]. split; [reflexivity|].
      split; [discriminate|]. intros l' [= <-].
      rewrite ignoreOnly_issueRequests, ignoreOnly_createdIssues by exact Htr.
      cbn. by rewrite app_nil_r.
Qed.

(** No [continue] leaves the loops. *)
Lemma forRange_fileStep_not_Continue repository pushEvent files l tr :
  forRange files (fileStep d s repository pushEvent) l ≠ (tr, Continue).
Proof.
  revert l tr. induction files as [|file files IH]; intros l tr; [discriminate|].
  cbn [forRange].
  destruct (fileStep_summary repository pushEvent l file) as (tr1 & fl & -> & Hfl & _).
  destruct fl as [l1| | |]; cbn [bind]; try discriminate; [|contradiction].
  destruct (forRange files _ l1) as [tr2 fl2] eqn:E. intros [= _ ->].
  by apply (IH l1 tr2).
Qed.

(** A run of the loop that reaches its end. *)
Lemma forRange_fileStep_Go repository pushEvent files l tr l' :
  forRange files (fileStep d s repository pushEvent) l = (tr, Go l') →
  issueRequests tr = omap (requestOf d s repository pushEvent) files
  ∧ createdIssues tr = omap (issueOf d s repository pushEvent) files
  ∧ l' = l ++ omap (lineOf d s repository pushEvent) files.
Proof.
  revert l tr l'. induction files as [|file files IH]; intros l tr l' H.
  - injection H as <- <-. by rewrite app_nil_r.
  - cbn [forRange] in H.
    apply bind_Go_inv in H as (tr1 & l1 & tr2 & H1 & H2 & ->).
    destruct (fileStep_summary repository pushEvent l file) as (tr1' & fl & Hs & _ & Hgo).
    rewrite H1 in Hs. injection Hs as <- <-.
    destruct (Hgo l1 eq_refl) as (Hr & Hi & ->).
    destruct (IH _ _ _ H2) as (Hr2 & Hi2 & ->).
    rewrite issueRequests_app, createdIssues_app, Hr, Hi, Hr2, Hi2.
    cbn [omap list_omap].
    destruct (requestOf d s repository pushEvent file);
      destruct (issueOf d s repository pushEvent file);
      destruct (lineOf d s repository pushEvent file); cbn;
      rewrite <- ?app_assoc; done.
Qed.
End Summary.

(** ** Request-level validation *)

(** C7. A request that fails the request-level validation (malformed
    payload, event kind other than "push", secret token mismatch, provider
    project id mismatch) is answered with the client error 400, and the
    handler has written nothing: no file was processed, no issue was
    created and no activity was recorded. *)
Theorem rejected_request_bad_request (d : Deps) (s : Server) (c : Request.t) :
  rejected d s c →
  ∃ message, registerWebhookRoutes d s c = ([], HTTPError 400 message).
Proof.
  intros H. unfold registerWebhookRoutes, validate.
  destruct H as [b err Hb Hu | b pe Hb Hu Hk | b pe found repo Hb Hu Hk Hf Hc Ht
                | b pe found repo Hb Hu Hk Hf Hc Ht Hp]; rewrite Hb, Hu.
  - by eexists.
  - apply String.eqb_neq in Hk. rewrite Hk. by eexists.
  - apply String.eqb_eq in Hk. apply String.eqb_neq in Ht.
    rewrite Hk, Hf, Hc, Ht. by eexists.
  - apply String.eqb_eq in Hk. apply String.eqb_eq in Ht. apply String.eqb_neq in Hp.
    rewrite Hk, Hf, Hc, Ht, Hp. by eexists.
Qed.

(** ** Emissions *)

(** The activity calls of an emission whose payload is marshalled. *)
Ltac emission_calls :=
  let bytes := fresh "bytes" in
  let Hm := fresh "Hm" in
  intros bytes Hm; unfold createIgnoredFileActivity, ignoredPayload in *;
  rewrite Hm; cbn; by destruct (CreateActivity _ _).

(** ** The pipeline builder *)

Lemma candidateDatabases_inv (d : Deps) (s : Server) repository commit added mi b dbs :
  candidateDatabases d s repository commit added = Some (mi, b, dbs) →
  HasPrefix added (Repository.BaseDirectory repository) = true
  ∧ matchesSchemaPath d repository added = Some false
  ∧ ParseMigrationInfo d added (migrationPathTemplate d repository) = Ok mi
  ∧ fetchFile d repository commit added = Ok b
  ∧ dbs ≠ []
  ∧ ∃ databaseList,
      ComposeDatabaseListByFind s (Repository.ProjectId repository)
                                (MigrationInfo.Database mi) = Ok databaseList
      ∧ filterByEnvironment d mi databaseList = dbs.
Proof.
  intros H. unfold candidateDatabases in H.
  destruct (HasPrefix added _); [|discriminate]. cbn [negb] in H.
  destruct (matchesSchemaPath d repository added) as [[|]|]; try discriminate.
  destruct (ParseMigrationInfo d added _) as [mi'|]; [|discriminate].
  destruct (fetchFile d repository commit added) as [b'|]; [|discriminate].
  destruct (ComposeDatabaseListByFind s _ _) as [l0|] eqn:Hfind; [|discriminate].
  destruct (filterByEnvironment d mi' l0) as [|db rest] eqn:Hfilter; [discriminate|].
  injection H as -> -> <-. rewrite Hfind. repeat split; try done. by exists l0.
Qed.

Lemma createIssueAndActivity_requests (d : Deps) (s : Server) repository ev added ic l :
  issueRequests (fst (createIssueAndActivity d s repository ev added ic l)) = [ic].
Proof.
  unfold createIssueAndActivity.
  destruct (CreateIssue s ic _); [|reflexivity]. cbv zeta.
  destruct (jsonMarshal d _); [|reflexivity].
  destruct (CreateActivity s _); reflexivity.
Qed.

Lemma timestampLog_logsOnly (d : Deps) commit : logsOnly (timestampLog d commit).
Proof. unfold timestampLog. destruct (timeParse d _); repeat constructor. Qed.

(** What a file with candidate databases writes before the issue is
    created holds log lines and WARN activity calls only. *)
Lemma resolution_ignoreOnly (d : Deps) (s : Server) repository ev added commit mi dbs :
  ignoreOnly (timestampLog d commit ++ policyTrace d s repository ev added dbs
                ++ ambiguityLog d s mi dbs).
Proof.
  apply ignoreOnly_app; [apply logsOnly_ignoreOnly, timestampLog_logsOnly|].
  apply ignoreOnly_app; [apply policyTrace_ignoreOnly|].
  apply logsOnly_ignoreOnly, ambiguityLog_logsOnly.
Qed.

(** The file body of a file that resolves to a candidate set that is not
    ambiguous. *)
Lemma processFile_resolved (d : Deps) (s : Server) repository pushEvent commit added
    mi b dbs l :
  candidateDatabases d s repository commit added = Some (mi, b, dbs) →
  ambiguous dbs = false →
  processFile d s repository pushEvent commit added l
  = ((timestampLog d commit
        ++ policyTrace d s repository
             (fileVCSPushEvent d repository pushEvent commit added) added dbs, Go tt) >>
     createIssueAndActivity d s repository
       (fileVCSPushEvent d repository pushEvent commit added) added
       (issueCreateOf d s repository pushEvent commit added mi b dbs) l).
Proof.
  intros Hc Hamb. rewrite (processFile_candidates d s _ _ _ _ _ _ _ l Hc).
  rewrite Hamb, (ambiguityLog_nil d s mi dbs Hamb). by rewrite app_nil_r.
Qed.

Lemma map_lookup {A B} (f : A → B) (l : list A) (i : nat) :
  List.map f l !! i = f <$> l !! i.
Proof.
  revert i. induction l as [|x l IH]; intros [|i]; simpl; try reflexivity. apply IH.
Qed.

Lemma bucket_elem (database : Database.t) (dbs : list Database.t) :
  database ∈ dbs → bucket (envOf database) dbs ≠ [].
Proof.
  intros Hin Hnil. apply list_elem_of_In in Hin.
  assert (H : In database (bucket (envOf database) dbs)).
  { unfold bucket. apply filter_In. split; [exact Hin|apply Z.eqb_refl]. }
  rewrite Hnil in H. inversion H.
Qed.

(** C4. For a file whose candidate set is resolved and not ambiguous, one
    issue creation request is submitted.  It has one stage per resolved
    database, in order; the stage of a database is named after the
    environment of the database and holds one task, whose name is the
    description of the migration and whose statement is the content of the
    file fetched from GitLab.  The issue is named after the commit title,
    its description is the commit message and its assignee is the
    system bot. *)
Theorem issue_request_shape (d : Deps) (s : Server) (repository : Repository.t)
    (pushEvent : WebhookPushEvent.t) (commit : Commit.t) (added : string)
    (mi : MigrationInfo.t) (b : string) (dbs : list Database.t)
    (createdMessageList : list string) :
  candidateDatabases d s repository commit added = Some (mi, b, dbs) →
  ambiguous dbs = false →
  ∃ issueCreate,
    issueRequests
      (fst (processFile d s repository pushEvent commit added createdMessageList))
    = [issueCreate]
    ∧ ParseMigrationInfo d added (migrationPathTemplate d repository) = Ok mi
    ∧ fetchFile d repository commit added = Ok b
    ∧ length (PipelineCreate.StageList (IssueCreate.Pipeline issueCreate)) = length dbs
    ∧ (∀ i database, dbs !! i = Some database →
         ∃ stage task,
           PipelineCreate.StageList (IssueCreate.Pipeline issueCreate) !! i = Some stage
           ∧ StageCreate.Name stage
             = Environment.Name (Instance.Environment (Database.Instance database))
           ∧ StageCreate.TaskList stage = [task]
           ∧ TaskCreate.DatabaseId task = Database.ID database
           ∧ TaskCreate.Name task = MigrationInfo.Description mi
           ∧ TaskCreate.Statement task = b)
    ∧ IssueCreate.Name issueCreate = Commit.Title commit
    ∧ IssueCreate.Description issueCreate = Commit.Message commit
    ∧ IssueCreate.AssigneeId issueCreate = SYSTEM_BOT_ID d.
Proof.
  intros Hc Hamb.
  exists (issueCreateOf d s repository pushEvent commit added mi b dbs).
  destruct (candidateDatabases_inv d s _ _ _ _ _ _ Hc) as (_ & _ & Hparse & Hfetch & _).
  rewrite (processFile_resolved d s _ _ _ _ _ _ _ _ Hc Hamb).
  rewrite bind_Go. cbn [fst]. rewrite issueRequests_app, createIssueAndActivity_requests.
  rewrite ignoreOnly_issueRequests.
  2:{ apply ignoreOnly_app; [apply logsOnly_ignoreOnly, timestampLog_logsOnly|].
      apply policyTrace_ignoreOnly. }
  split; [reflexivity|]. split; [exact Hparse|]. split; [exact Hfetch|].
  unfold issueCreateOf, makeIssueCreate.
  cbn [IssueCreate.Pipeline PipelineCreate.StageList IssueCreate.Name
       IssueCreate.Description IssueCreate.AssigneeId].
  split; [apply length_map|]. split; [|done].
  intros i database Hi. rewrite map_lookup, Hi. cbn [fmap option_fmap option_map].
  eexists _, _. split; [reflexivity|]. cbn. done.
Qed.

(** C5. In the issue creation request of a resolved file, the task of a
    resolved database starts in the status pending exactly when the policy
    lookup for the environment of the database gives the value
    "manual never"; otherwise it starts in the status pending approval.  The
    databases are as [ComposeDatabaseListByFind] composes them, and the
    constant for "manual never" is not the empty string. *)
Theorem task_status_follows_policy (d : Deps) (s : Server) (repository : Repository.t)
    (pushEvent : WebhookPushEvent.t) (commit : Commit.t) (added : string)
    (mi : MigrationInfo.t) (b : string) (dbs : list Database.t)
    (createdMessageList : list string) :
  candidateDatabases d s repository commit added = Some (mi, b, dbs) →
  ambiguous dbs = false →
  Forall composed dbs →
  PipelineApprovalValueManualNever d ≠ "" →
  ∃ issueCreate,
    issueRequests
      (fst (processFile d s repository pushEvent commit added createdMessageList))
    = [issueCreate]
    ∧ ∀ i database, dbs !! i = Some database →
        ∃ stage task,
          PipelineCreate.StageList (IssueCreate.Pipeline issueCreate) !! i = Some stage
          ∧ StageCreate.TaskList stage = [task]
          ∧ TaskCreate.DatabaseId task = Database.ID database
          ∧ (TaskCreate.Status task = TaskPending ↔
               ∃ p, GetPipelineApprovalPolicy s (envOf database) = Ok p
                    ∧ PipelineApprovalPolicy.Value p = PipelineApprovalValueManualNever d)
          ∧ (TaskCreate.Status task ≠ TaskPending →
               TaskCreate.Status task = TaskPendingApproval).
Proof.
  intros Hc Hamb Hcomposed Hnever.
  exists (issueCreateOf d s repository pushEvent commit added mi b dbs).
  rewrite (processFile_resolved d s _ _ _ _ _ _ _ _ Hc Hamb).
  rewrite bind_Go. cbn [fst]. rewrite issueRequests_app, createIssueAndActivity_requests.
  rewrite ignoreOnly_issueRequests.
  2:{ apply ignoreOnly_app; [apply logsOnly_ignoreOnly, timestampLog_logsOnly|].
      apply policyTrace_ignoreOnly. }
  split; [reflexivity|].
  intros i database Hi.
  unfold issueCreateOf, makeIssueCreate.
  cbn [IssueCreate.Pipeline PipelineCreate.StageList].
  rewrite map_lookup, Hi. cbn [fmap option_fmap option_map].
  eexists _, _. split; [reflexivity|].
  cbn [makeStage StageCreate.TaskList TaskCreate.Status TaskCreate.DatabaseId].
  split; [reflexivity|]. split; [reflexivity|].
  assert (Hin : database ∈ dbs) by (by eapply list_elem_of_lookup_2).
  rewrite (proj1 (Forall_forall _ _) Hcomposed database Hin).
  fold (envOf database). rewrite policyMap_lookup.
  pose proof (bucket_elem database dbs Hin) as Hb.
  destruct (bucket (envOf database) dbs) as [|x rest]; [contradiction|].
  unfold policyValue.
  destruct (GetPipelineApprovalPolicy s (envOf database)) as [p|err];
    cbn [default from_option id TaskCreate.Status].
  - destruct (String.eqb_spec (PipelineApprovalPolicy.Value p)
                              (PipelineApprovalValueManualNever d)) as [Heq|Hne].
    + split; [|intros H; by destruct H]. split; [intros _; by exists p|done].
    + split; [|done]. split; [discriminate|]. intros (p' & [= <-] & Hp). contradiction.
  - destruct (String.eqb_spec "" (PipelineApprovalValueManualNever d)) as [Heq|Hne].
    + by symmetry in Heq.
    + split; [|done]. split; [discriminate|]. intros (p' & Hp & _). discriminate.
Qed.

(** ** The response *)

Section Response.
Context (d : Deps) (s : Server).

Lemma registerWebhookRoutes_valid c pushEvent repository :
  validate d s c = inr (pushEvent, repository) →
  registerWebhookRoutes d s c
  = match forRange (addedFiles pushEvent) (fileStep d s repository pushEvent) [] with
    | (tr, Go createdMessageList) =>
        (tr, HTTPString StatusOK (Join createdMessageList newline))
    | (tr, Return r) => (tr, r)
    | (tr, Panic) => (tr, Panicked)
    | (tr, Continue) => (tr, Panicked)
    end.
Proof.
  intros H. unfold registerWebhookRoutes. rewrite H.
  by rewrite processPushEvent_flat.
Qed.

(** A file that does not cut the processing short is followed by the
    next file. *)
Lemma fileStep_no_abort repository pushEvent l file :
  abortsAt d s repository pushEvent file = false →
  ∃ tr, fileStep d s repository pushEvent l file
        = (tr, Go (l ++ option_list (lineOf d s repository pushEvent file))).
Proof.
  destruct file as [commit added].
  unfold abortsAt, fileStep, lineOf, issueOf, requestOf. cbn [fst snd].
  destruct (candidateDatabases d s repository commit added) as [[[mi b] dbs]|] eqn:Hc.
  - rewrite (processFile_candidates d s _ pushEvent _ _ _ _ _ l Hc).
    destruct (ambiguous dbs).
    + intros _. eexists. cbn [continue bind iteration fmap option_fmap option_map option_list].
      by rewrite !app_nil_r.
    + set (ic := issueCreateOf d s repository pushEvent commit added mi b dbs).
      destruct (CreateIssue s ic (SYSTEM_BOT_ID d)) as [issue|err] eqn:Hi.
      * intros Hr. apply negb_false_iff in Hr.
        destruct (createIssueAndActivity_recorded d s repository _ added ic l issue Hi Hr)
          as (bytes & _ & ->).
        eexists. reflexivity.
      * intros _.
        rewrite (createIssueAndActivity_failed d s repository _ added ic l err Hi).
        eexists. cbn [bind iteration fmap option_fmap option_map option_list].
        by rewrite !app_nil_r.
  - intros Hcr.
    destruct (processFile_no_candidates d s repository pushEvent commit added l Hc)
      as (tr & Htr & ->).
    rewrite Hcr. eexists. cbn [iteration fmap option_fmap option_map option_list].
    by rewrite !app_nil_r.
Qed.

Lemma forRange_no_abort repository pushEvent files l :
  Forall (fun file => abortsAt d s repository pushEvent file = false) files →
  ∃ tr, forRange files (fileStep d s repository pushEvent) l
        = (tr, Go (l ++ omap (lineOf d s repository pushEvent) files)).
Proof.
  intros H. revert l. induction H as [|file files Hf _ IH]; intros l.
  - exists []. cbn. by rewrite app_nil_r.
  - cbn [forRange].
    destruct (fileStep_no_abort repository pushEvent l file Hf) as (tr1 & ->).
    destruct (IH (l ++ option_list (lineOf d s repository pushEvent file)))
      as (tr2 & Heq).
    exists (tr1 ++ tr2). rewrite bind_Go, Heq. cbn [fst snd omap list_omap].
    destruct (lineOf d s repository pushEvent file); cbn [option_list];
      by rewrite <- ?app_assoc, ?app_nil_r.
Qed.

(** A file makes the handler return only when its issue is created and
    the success cannot be recorded; the handler then returns the server
    error 500. *)
Lemma fileStep_Return repository pushEvent l file tr r :
  fileStep d s repository pushEvent l file = (tr, Return r) →
  ∃ issue message,
    issueOf d s repository pushEvent file = Some issue
    ∧ successRecorded d s repository
        (fileVCSPushEvent d repository pushEvent (fst file) (snd file)) issue = false
    ∧ r = HTTPError 500 message.
Proof.
  destruct file as [commit added].
  unfold fileStep, issueOf, requestOf. cbn [fst snd].
  destruct (candidateDatabases d s repository commit added) as [[[mi b] dbs]|] eqn:Hc.
  - rewrite (processFile_candidates d s _ pushEvent _ _ _ _ _ l Hc).
    destruct (ambiguous dbs); [discriminate|].
    set (ic := issueCreateOf d s repository pushEvent commit added mi b dbs).
    destruct (CreateIssue s ic (SYSTEM_BOT_ID d)) as [issue|err] eqn:Hi.
    + destruct (successRecorded d s repository
                  (fileVCSPushEvent d repository pushEvent commit added) issue) eqn:Hr.
      * destruct (createIssueAndActivity_recorded d s repository _ added ic l issue Hi Hr)
          as (bytes & _ & ->). discriminate.
      * destruct (createIssueAndActivity_unrecorded d s repository _ added ic l issue Hi Hr)
          as (tr' & msg & -> & _).
        cbn [bind iteration]. intros [= _ <-]. by exists issue, msg.
    + rewrite (createIssueAndActivity_failed d s repository _ added ic l err Hi).
      discriminate.
  - destruct (processFile_no_candidates d s repository pushEvent commit added l Hc)
      as (tr' & Htr & ->).
    destruct (crashes d repository added); discriminate.
Qed.

(** C1, as amended.  For a push event that passes the request-level
    validation: when no file cuts the processing short, the handler
    answers 200; and whenever it answers with a body, the status is 200,
    one issue creation request was submitted per added file that resolves
    to a candidate set that is not empty and not ambiguous, one issue was
    created per such file whose creation call succeeded, and the body is
    the newline-joined list of the lines of the created issues, in
    file-processing order (the empty string when there is none). *)
Theorem response_lists_created_issues (c : Request.t)
    (pushEvent : WebhookPushEvent.t) (repository : Repository.t) :
  validate d s c = inr (pushEvent, repository) →
  let files := addedFiles pushEvent in
  let run := registerWebhookRoutes d s c in
  (Forall (fun file => abortsAt d s repository pushEvent file = false) files →
     snd run = HTTPString 200 (Join (omap (lineOf d s repository pushEvent) files) newline))
  ∧ (∀ code body, snd run = HTTPString code body →
       code = 200
       ∧ issueRequests (fst run) = omap (requestOf d s repository pushEvent) files
       ∧ createdIssues (fst run) = omap (issueOf d s repository pushEvent) files
       ∧ body = Join (omap (lineOf d s repository pushEvent) files) newline).
Proof.
  intros Hv files run. subst files run.
  rewrite (registerWebhookRoutes_valid c pushEvent repository Hv). split.
  - intros Hno.
    destruct (forRange_no_abort repository pushEvent _ [] Hno) as (tr & ->).
    reflexivity.
  - intros code body.
    destruct (forRange (addedFiles pushEvent) _ []) as [tr fl] eqn:E.
    destruct fl as [l| |r|]; cbn [fst snd]; try discriminate.
    + intros [= <- <-].
      destruct (forRange_fileStep_Go d s repository pushEvent _ _ _ _ E)
        as (Hr & Hi & ->).
      done.
    + intros ->. exfalso. revert E. clear.
      generalize (@nil string). generalize (addedFiles pushEvent). intros files.
      revert tr. induction files as [|file files IH]; intros tr l; [discriminate|].
      cbn [forRange].
      destruct (fileStep d s repository pushEvent l file) as [tr1 fl1] eqn:E1.
      destruct fl1 as [l1| |r1|]; cbn [bind]; try discriminate.
      * destruct (forRange files _ l1) as [tr2 fl2] eqn:E2. intros [= _ ->].
        by apply (IH tr2 l1).
      * intros [= _ ->].
        by destruct (fileStep_Return repository pushEvent l file tr1 _ E1)
          as (? & ? & _ & _ & ?).
Qed.
End Response.

(** ** Files that are skipped, and files that stop the request *)

Section Skips.
Context (d : Deps) (s : Server).

Lemma policyTrace_no_failure repository ev added dbs :
  Forall (fun database => policyValue s (envOf database) ≠ None) dbs →
  policyTrace d s repository ev added dbs = [].
Proof.
  unfold policyTrace, policyValue. induction 1 as [|db dbs Hdb _ IH]; [reflexivity|].
  cbn [flat_map]. rewrite IH.
  by destruct (GetPipelineApprovalPolicy s (envOf db)).
Qed.

(** C2, as amended.  When some environment bucket of the candidate
    database set of a file holds more than one database, the file is
    skipped: no issue creation request is submitted for it, it adds no
    line to the response, and the loop goes on with the next file, also
    when other buckets hold one database.  The skip itself records no
    activity: the only activity calls of the file are the WARN activities
    of the policy lookups that failed, and there is none when every
    policy lookup for the candidate databases succeeds. *)
Theorem ambiguous_file_skipped (repository : Repository.t)
    (pushEvent : WebhookPushEvent.t) (commit : Commit.t) (added : string)
    (mi : MigrationInfo.t) (b : string) (dbs : list Database.t)
    (createdMessageList : list string) :
  candidateDatabases d s repository commit added = Some (mi, b, dbs) →
  ambiguous dbs = true →
  let step := fileStep d s repository pushEvent createdMessageList (commit, added) in
  let ev := fileVCSPushEvent d repository pushEvent commit added in
  snd step = Go createdMessageList
  ∧ lineOf d s repository pushEvent (commit, added) = None
  ∧ issueRequests (fst step) = []
  ∧ activityCalls (fst step) = activityCalls (policyTrace d s repository ev added dbs)
  ∧ Forall (fun ac => ActivityCreate.Level ac = ACTIVITY_WARN) (activityCalls (fst step))
  ∧ (Forall (fun database => policyValue s (envOf database) ≠ None) dbs →
       activityCalls (fst step) = []).
Proof.
  intros Hc Hamb step ev. subst step ev.
  unfold fileStep, lineOf, issueOf, requestOf. cbn [fst snd].
  rewrite (processFile_candidates d s _ pushEvent _ _ _ _ _ createdMessageList Hc).
  rewrite Hc, Hamb. cbn [continue bind iteration fst snd].
  rewrite app_nil_r.
  pose proof (resolution_ignoreOnly d s repository
                (fileVCSPushEvent d repository pushEvent commit added)
                added commit mi dbs) as Hpre.
  assert (Hcalls :
    activityCalls (timestampLog d commit
                     ++ policyTrace d s repository
                          (fileVCSPushEvent d repository pushEvent commit added) added dbs
                     ++ ambiguityLog d s mi dbs)
    = activityCalls (policyTrace d s repository
                       (fileVCSPushEvent d repository pushEvent commit added) added dbs)).
  { rewrite !activityCalls_app.
    rewrite (logsOnly_activityCalls _ (timestampLog_logsOnly d commit)).
    rewrite (logsOnly_activityCalls _ (ambiguityLog_logsOnly d s mi dbs)).
    by rewrite app_nil_r. }
  split; [reflexivity|]. split; [reflexivity|].
  split; [by apply ignoreOnly_issueRequests|].
  split; [exact Hcalls|].
  split; [by apply ignoreOnly_activityCalls|].
  intros Hok. rewrite Hcalls, policyTrace_no_failure by exact Hok. reflexivity.
Qed.

(** C9, as amended.  When the creation of the issue of a resolved file
    fails, the failure is logged and the file is skipped: no issue is
    created for it, it adds no line to the response, and the loop goes on
    with the next file, so that the request does not fail.  No activity
    is emitted for the failure: the only activity calls of the file are
    the WARN activities of the policy lookups that failed. *)
Theorem issue_creation_failure_skips (repository : Repository.t)
    (pushEvent : WebhookPushEvent.t) (commit : Commit.t) (added : string)
    (mi : MigrationInfo.t) (b : string) (dbs : list Database.t)
    (createdMessageList : list string) (err : error) :
  candidateDatabases d s repository commit added = Some (mi, b, dbs) →
  ambiguous dbs = false →
  let ev := fileVCSPushEvent d repository pushEvent commit added in
  let issueCreate := issueCreateOf d s repository pushEvent commit added mi b dbs in
  CreateIssue s issueCreate (SYSTEM_BOT_ID d) = Err err →
  let step := fileStep d s repository pushEvent createdMessageList (commit, added) in
  step = (timestampLog d commit
            ++ policyTrace d s repository ev added dbs
            ++ [EvCreateIssue issueCreate (SYSTEM_BOT_ID d) (Err err);
                EvLog Warn "Failed to create update schema task for added repository file"],
          Go createdMessageList)
  ∧ createdIssues (fst step) = []
  ∧ lineOf d s repository pushEvent (commit, added) = None
  ∧ abortsAt d s repository pushEvent (commit, added) = false
  ∧ activityCalls (fst step) = activityCalls (policyTrace d s repository ev added dbs)
  ∧ (Forall (fun database => policyValue s (envOf database) ≠ None) dbs →
       activityCalls (fst step) = []).
Proof.
  intros Hc Hamb ev issueCreate Hi step. subst step ev issueCreate.
  unfold fileStep, abortsAt, lineOf, issueOf, requestOf. cbn [fst snd].
  rewrite (processFile_resolved d s _ pushEvent _ _ _ _ _ createdMessageList Hc Hamb).
  rewrite (createIssueAndActivity_failed d s repository _ added _ _ err Hi).
  rewrite Hc, Hamb, Hi. cbn [bind iteration fst snd].
  rewrite <- app_assoc.
  split; [reflexivity|].
  rewrite !createdIssues_app, !activityCalls_app.
  rewrite (ignoreOnly_createdIssues _ (logsOnly_ignoreOnly _ (timestampLog_logsOnly d commit))).
  rewrite (ignoreOnly_createdIssues _ (policyTrace_ignoreOnly d s repository _ added dbs)).
  rewrite (logsOnly_activityCalls _ (timestampLog_logsOnly d commit)).
  cbn [createdIssues activityCalls omap list_omap app]. rewrite app_nil_r.
  repeat split; try reflexivity.
  intros Hok. by rewrite policyTrace_no_failure.
Qed.

(** A resolved file whose policy lookup fails for one of its databases is
    not skipped: the WARN activity is emitted and the issue creation
    request is submitted all the same. *)
Lemma policy_failure_not_skipped (repository : Repository.t)
    (pushEvent : WebhookPushEvent.t) (commit : Commit.t) (added : string)
    (mi : MigrationInfo.t) (b : string) (dbs : list Database.t)
    (createdMessageList : list string) (database : Database.t) :
  candidateDatabases d s repository commit added = Some (mi, b, dbs) →
  ambiguous dbs = false →
  database ∈ dbs →
  policyValue s (envOf database) = None →
  let tr := fst (processFile d s repository pushEvent commit added createdMessageList) in
  issueRequests tr
  = [issueCreateOf d s repository pushEvent commit added mi b dbs]
  ∧ EvLog Warn "Ignored committed file" ∈ tr.
Proof.
  intros Hc Hamb Hin Hpol tr. subst tr.
  rewrite (processFile_resolved d s _ pushEvent _ _ _ _ _ createdMessageList Hc Hamb).
  rewrite bind_Go. cbn [fst]. split.
  - rewrite issueRequests_app, createIssueAndActivity_requests.
    rewrite ignoreOnly_issueRequests; [reflexivity|].
    apply ignoreOnly_app; [apply logsOnly_ignoreOnly, timestampLog_logsOnly|].
    apply policyTrace_ignoreOnly.
  - rewrite !elem_of_app. left. right.
    unfold policyTrace. apply list_elem_of_In, in_flat_map.
    exists database. split; [by apply list_elem_of_In|].
    unfold policyValue in Hpol.
    destruct (GetPipelineApprovalPolicy s (envOf database)); [discriminate|].
    unfold createIgnoredFileActivity. cbn [emit bind fst].
    destruct (jsonMarshal d _); [|left; reflexivity].
    destruct (CreateActivity s _); left; reflexivity.
Qed.
End Skips.

(** ** Failures of the WARN activity *)

Section Tolerance.
Context (d : Deps) (s : Server).
Context (marshal' : PushPayload.t → result string).
Context (activities' : ActivityCreate.t → result unit).

Lemma createIssueAndActivity_same repository ev added ic l :
  sameSuccessRecording d s marshal' activities' →
  createIssueAndActivity (withMarshal d marshal') (withActivities s activities')
    repository ev added ic l
  = createIssueAndActivity d s repository ev added ic l.
Proof.
  intros [Hm Ha]. unfold createIssueAndActivity.
  cbn [withMarshal withActivities CreateIssue SYSTEM_BOT_ID jsonMarshal CreateActivity].
  destruct (CreateIssue s ic (SYSTEM_BOT_ID d)) as [issue|err] eqn:Hi; [|reflexivity].
  pose proof (Hm ev ic _ issue Hi) as Hm'. unfold createdPayload in Hm'.
  cbv zeta. rewrite Hm'.
  destruct (jsonMarshal d _) as [bytes|]; [|reflexivity].
  change (createdIssueActivity (withMarshal d marshal') repository issue bytes)
    with (createdIssueActivity d repository issue bytes).
  rewrite (Ha (createdIssueActivity d repository issue bytes) eq_refl).
  reflexivity.
Qed.

Lemma withoutIgnores_ignoreOnly_app tr1 tr2 :
  ignoreOnly tr1 → withoutIgnores (tr1 ++ tr2) = withoutIgnores tr2.
Proof.
  intros H. by rewrite withoutIgnores_app, (ignoreOnly_withoutIgnores _ H).
Qed.

Lemma iteration_same (pre pre' : Trace) (m : M (list string)) (l : list string) :
  ignoreOnly pre → ignoreOnly pre' →
  let step' := iteration l ((pre', Go tt) >> m) in
  let step := iteration l ((pre, Go tt) >> m) in
  snd step' = snd step ∧ withoutIgnores (fst step') = withoutIgnores (fst step).
Proof.
  intros Hpre Hpre'. destruct m as [tr fl]. cbn [bind].
  destruct fl; cbn [iteration fst snd]; by rewrite !withoutIgnores_ignoreOnly_app.
Qed.

Lemma fileStep_same repository pushEvent l file :
  sameSuccessRecording d s marshal' activities' →
  let step' := fileStep (withMarshal d marshal') (withActivities s activities')
                        repository pushEvent l file in
  let step := fileStep d s repository pushEvent l file in
  snd step' = snd step ∧ withoutIgnores (fst step') = withoutIgnores (fst step).
Proof.
  intros Hsame step' step. subst step' step. destruct file as [commit added].
  unfold fileStep. cbn [fst snd].
  destruct (candidateDatabases d s repository commit added) as [[[mi b] dbs]|] eqn:Hc.
  - assert (Hc' : candidateDatabases (withMarshal d marshal')
                    (withActivities s activities') repository commit added
                  = Some (mi, b, dbs)) by exact Hc.
    rewrite (processFile_candidates _ _ _ pushEvent _ _ _ _ _ l Hc').
    rewrite (processFile_candidates _ _ _ pushEvent _ _ _ _ _ l Hc).
    rewrite (createIssueAndActivity_same _ _ _ _ _ Hsame).
    apply (iteration_same
             (timestampLog d commit
                ++ policyTrace d s repository
                     (fileVCSPushEvent d repository pushEvent commit added) added dbs
                ++ ambiguityLog d s mi dbs)).
    + apply resolution_ignoreOnly.
    + apply (resolution_ignoreOnly (withMarshal d marshal')
               (withActivities s activities')).
  - assert (Hc' : candidateDatabases (withMarshal d marshal')
                    (withActivities s activities') repository commit added
                  = None) by exact Hc.
    destruct (processFile_no_candidates _ _ repository pushEvent commit added l Hc')
      as (tr' & Htr' & ->).
    destruct (processFile_no_candidates _ _ repository pushEvent commit added l Hc)
      as (tr & Htr & ->).
    change (crashes (withMarshal d marshal') repository added)
      with (crashes d repository added).
    destruct (crashes d repository added); cbn [iteration fst snd];
      by rewrite !ignoreOnly_withoutIgnores.
Qed.

Lemma forRange_same repository pushEvent files l :
  sameSuccessRecording d s marshal' activities' →
  let run' := forRange files
                (fileStep (withMarshal d marshal') (withActivities s activities')
                          repository pushEvent) l in
  let run := forRange files (fileStep d s repository pushEvent) l in
  snd run' = snd run ∧ withoutIgnores (fst run') = withoutIgnores (fst run).
Proof.
  intros Hsame. revert l. induction files as [|file files IH]; intros l; [done|].
  cbn [forRange].
  destruct (fileStep_same repository pushEvent l file Hsame) as [Hfl Htr].
  destruct (fileStep (withMarshal d marshal') _ _ _ _ _) as [tr1' fl1'].
  destruct (fileStep d s _ _ _ _) as [tr1 fl1]. cbn [fst snd] in *. subst fl1'.
  destruct fl1 as [l1| | |]; cbn [bind fst snd]; try done.
  destruct (IH l1) as [Hfl2 Htr2].
  destruct (forRange files (fileStep (withMarshal d marshal') _ _ _) l1) as [tr2' fl2'].
  destruct (forRange files (fileStep d s _ _) l1) as [tr2 fl2].
  cbn [fst snd] in *. subst fl2'.
  split; [reflexivity|]. by rewrite !withoutIgnores_app, Htr, Htr2.
Qed.

(** C10.  Take two installations that differ in nothing but what
    happens when the WARN activity of an ignored file is emitted: they
    may marshal its payload differently and their activity stores may
    treat WARN activities differently, so that one records the activity
    where the other fails.  Emitting the activity never makes the file
    body do anything but go on, and a failure in it is only logged; the
    two installations give the same outcome for every file, the same
    HTTP status and body for every request, and the same issue creation
    and INFO activity calls. *)
Theorem ignore_activity_failure_tolerated (c : Request.t) :
  sameSuccessRecording d s marshal' activities' →
  let d' := withMarshal d marshal' in
  let s' := withActivities s activities' in
  snd (registerWebhookRoutes d' s' c) = snd (registerWebhookRoutes d s c)
  ∧ withoutIgnores (fst (registerWebhookRoutes d' s' c))
    = withoutIgnores (fst (registerWebhookRoutes d s c))
  ∧ (∀ repository pushEvent l file,
       snd (fileStep d' s' repository pushEvent l file)
       = snd (fileStep d s repository pushEvent l file))
  ∧ (∀ repository ev added err,
       let emission := createIgnoredFileActivity d' s' repository ev added err in
       snd emission = Go tt
       ∧ issueRequests (fst emission) = []
       ∧ (∀ marshalErr, marshal' (ignoredPayload ev) = Err marshalErr →
            fst emission
            = [EvLog Warn "Ignored committed file";
               EvLog Warn "Failed to construct project activity payload to record ignored repository committed file"])
       ∧ (∀ bytes createErr,
            marshal' (ignoredPayload ev) = Ok bytes →
            activities' (ignoredFileActivity d repository added err bytes)
            = Err createErr →
            fst emission
            = [EvLog Warn "Ignored committed file";
               EvCreateActivity (ignoredFileActivity d repository added err bytes)
                                (Err createErr);
               EvLog Warn "Failed to create project activity to record ignored repository committed file"])).
Proof.
  intros Hsame d' s'. subst d' s'.
  split; [|split; [|split]].
  - unfold registerWebhookRoutes.
    change (validate (withMarshal d marshal') (withActivities s activities') c)
      with (validate d s c).
    destruct (validate d s c) as [httpError|[pushEvent repository]]; [reflexivity|].
    rewrite !processPushEvent_flat.
    destruct (forRange_same repository pushEvent (addedFiles pushEvent) [] Hsame)
      as [Hfl _].
    destruct (forRange _ (fileStep (withMarshal d marshal') _ _ _) _) as [tr' fl'].
    destruct (forRange _ (fileStep d s _ _) _) as [tr fl].
    cbn [snd] in Hfl. subst fl'. by destruct fl.
  - unfold registerWebhookRoutes.
    change (validate (withMarshal d marshal') (withActivities s activities') c)
      with (validate d s c).
    destruct (validate d s c) as [httpError|[pushEvent repository]]; [reflexivity|].
    rewrite !processPushEvent_flat.
    destruct (forRange_same repository pushEvent (addedFiles pushEvent) [] Hsame)
      as [Hfl Htr].
    destruct (forRange _ (fileStep (withMarshal d marshal') _ _ _) _) as [tr' fl'].
    destruct (forRange _ (fileStep d s _ _) _) as [tr fl].
    cbn [fst snd] in *. subst fl'. by destruct fl.
  - intros repository pushEvent l file.
    apply (fileStep_same repository pushEvent l file Hsame).
  - intros repository ev added err emission. subst emission.
    split; [apply createIgnoredFileActivity_Go|].
    split; [apply ignoreOnly_issueRequests, createIgnoredFileActivity_ignoreOnly|].
    unfold createIgnoredFileActivity, ignoredPayload.
    cbn [withMarshal withActivities jsonMarshal CreateActivity].
    split.
    + intros marshalErr ->. reflexivity.
    + intros bytes createErr ->.
      change (ignoredFileActivity (withMarshal d marshal') repository added err bytes)
        with (ignoredFileActivity d repository added err bytes).
      cbv zeta. intros ->. reflexivity.
Qed.
End Tolerance.

(** ** The properties on the concrete installation *)

Import Scenario.

Lemma rejected_request_bad_request_witness :
  rejected plainDeps plainServer (request "orders" "guess")
  ∧ ∃ message,
      registerWebhookRoutes plainDeps plainServer (request "orders" "guess")
      = ([], HTTPError 400 message).
Proof.
  assert (H : rejected plainDeps plainServer (request "orders" "guess")).
  { eapply SecretMismatch;
      [reflexivity|reflexivity|reflexivity|reflexivity|reflexivity|discriminate]. }
  split; [exact H|].
  exact (rejected_request_bad_request plainDeps plainServer (request "orders" "guess") H).
Defined.

Lemma issue_request_shape_witness :
  candidateDatabases plainDeps plainServer repository commit2 usersFile
  = Some (usersMigration, fileContent, [databaseIn 2 1 "Dev"; databaseIn 3 2 "Prod"])
  ∧ ∃ issueCreate,
      issueRequests
        (fst (processFile plainDeps plainServer repository pushBoth commit2 usersFile []))
      = [issueCreate]
      ∧ length (PipelineCreate.StageList (IssueCreate.Pipeline issueCreate)) = 2%nat
      ∧ IssueCreate.Name issueCreate = "Add users"
      ∧ IssueCreate.AssigneeId issueCreate = 1.
Proof.
  split; [reflexivity|].
  destruct (issue_request_shape plainDeps plainServer repository pushBoth commit2
              usersFile usersMigration fileContent
              [databaseIn 2 1 "Dev"; databaseIn 3 2 "Prod"] [] eq_refl eq_refl)
    as (issueCreate & Hreq & _ & _ & Hlen & _ & Hname & _ & Hbot).
  exists issueCreate.
  split; [exact Hreq|]. split; [exact Hlen|]. split; [exact Hname|exact Hbot].
Defined.

Lemma task_status_follows_policy_witness :
  ∃ issueCreate devStage devTask prodStage prodTask,
    issueRequests
      (fst (processFile plainDeps plainServer repository pushBoth commit2 usersFile []))
    = [issueCreate]
    ∧ PipelineCreate.StageList (IssueCreate.Pipeline issueCreate) !! 0%nat = Some devStage
    ∧ StageCreate.TaskList devStage = [devTask]
    ∧ TaskCreate.Status devTask = TaskPending
    ∧ PipelineCreate.StageList (IssueCreate.Pipeline issueCreate) !! 1%nat = Some prodStage
    ∧ StageCreate.TaskList prodStage = [prodTask]
    ∧ TaskCreate.Status prodTask = TaskPendingApproval.
Proof.
  assert (Hcomposed : Forall composed [databaseIn 2 1 "Dev"; databaseIn 3 2 "Prod"])
    by (repeat constructor).
  assert (Hnever : PipelineApprovalValueManualNever plainDeps ≠ "") by discriminate.
  destruct (task_status_follows_policy plainDeps plainServer repository pushBoth commit2
              usersFile usersMigration fileContent
              [databaseIn 2 1 "Dev"; databaseIn 3 2 "Prod"] [] eq_refl eq_refl
              Hcomposed Hnever)
    as (issueCreate & Hreq & Hstages).
  destruct (Hstages 0%nat (databaseIn 2 1 "Dev") eq_refl)
    as (devStage & devTask & Hdev & HdevTask & _ & Hiff & _).
  destruct (Hstages 1%nat (databaseIn 3 2 "Prod") eq_refl)
    as (prodStage & prodTask & Hprod & HprodTask & _ & Hiff' & Hother).
  exists issueCreate, devStage, devTask, prodStage, prodTask.
  split; [exact Hreq|]. split; [exact Hdev|]. split; [exact HdevTask|].
  split; [|split; [exact Hprod|split; [exact HprodTask|]]].
  - apply Hiff. eexists. split; reflexivity.
  - apply Hother. intros Hpending. apply Hiff' in Hpending as (p & Hp & Hv).
    injection Hp as <-. discriminate.
Defined.

Lemma response_lists_created_issues_witness :
  validate plainDeps plainServer (request "both" "s3cret") = inr (pushBoth, repository)
  ∧ snd (registerWebhookRoutes plainDeps plainServer (request "both" "s3cret"))
    = HTTPString 200
        (Join [createdMessage plainDeps ordersIssue ordersFile;
               createdMessage plainDeps usersIssue usersFile] newline).
Proof.
  split; [reflexivity|].
  apply (proj1 (response_lists_created_issues plainDeps plainServer
                  (request "both" "s3cret") pushBoth repository eq_refl)).
  repeat constructor.
Defined.

Lemma ambiguous_file_skipped_witness :
  candidateDatabases plainDeps serverAmbiguous repository commit1 ordersFile
  = Some (ordersMigration, fileContent, [databaseIn 1 2 "Prod"; databaseIn 4 2 "Prod"])
  ∧ snd (fileStep plainDeps serverAmbiguous repository pushOrders [] (commit1, ordersFile))
    = Go []
  ∧ issueRequests
      (fst (fileStep plainDeps serverAmbiguous repository pushOrders []
              (commit1, ordersFile))) = []
  ∧ activityCalls
      (fst (fileStep plainDeps serverAmbiguous repository pushOrders []
              (commit1, ordersFile))) = [].
Proof.
  split; [reflexivity|].
  destruct (ambiguous_file_skipped plainDeps serverAmbiguous repository pushOrders
              commit1 ordersFile ordersMigration fileContent
              [databaseIn 1 2 "Prod"; databaseIn 4 2 "Prod"] [] eq_refl eq_refl)
    as (Hgo & _ & Hreq & _ & _ & Hnone).
  split; [exact Hgo|]. split; [exact Hreq|].
  apply Hnone. repeat constructor; discriminate.
Defined.

Lemma issue_creation_failure_skips_witness :
  CreateIssue serverIssuesDown
    (issueCreateOf plainDeps serverIssuesDown repository pushOrders commit1 ordersFile
       ordersMigration fileContent [databaseIn 1 2 "Prod"])
    (SYSTEM_BOT_ID plainDeps)
  = Err (Errorf "issue store unavailable")
  ∧ snd (fileStep plainDeps serverIssuesDown repository pushOrders [] (commit1, ordersFile))
    = Go []
  ∧ activityCalls
      (fst (fileStep plainDeps serverIssuesDown repository pushOrders []
              (commit1, ordersFile))) = [].
Proof.
  split; [reflexivity|].
  destruct (issue_creation_failure_skips plainDeps serverIssuesDown repository pushOrders
              commit1 ordersFile ordersMigration fileContent [databaseIn 1 2 "Prod"] []
              (Errorf "issue store unavailable") eq_refl eq_refl eq_refl)
    as (Hstep & _ & _ & _ & _ & Hnone).
  split; [by rewrite Hstep|].
  apply Hnone. repeat constructor; discriminate.
Defined.


Lemma ignore_activity_failure_tolerated_witness :
  sameSuccessRecording Cases.depsNotes plainServer marshalCreatedOnly
    activityStoreInfoOnly
  ∧ sameSuccessRecording Cases.depsNotes plainServer marshalOk activityStoreInfoOnly
  ∧ recordedActivities
      (fst (registerWebhookRoutes Cases.depsNotes plainServer
              (request "notes" "s3cret")))
    = [ignoredFileActivity Cases.depsNotes repository strayFile strayError "{}";
       createdIssueActivity Cases.depsNotes repository ordersIssue "{}"]
  ∧ activityCalls
      (fst (registerWebhookRoutes (withMarshal Cases.depsNotes marshalCreatedOnly)
              (withActivities plainServer activityStoreInfoOnly)
              (request "notes" "s3cret")))
    = [createdIssueActivity Cases.depsNotes repository ordersIssue "{}"]
  ∧ recordedActivities
      (fst (registerWebhookRoutes (withMarshal Cases.depsNotes marshalOk)
              (withActivities plainServer activityStoreInfoOnly)
              (request "notes" "s3cret")))
    = [createdIssueActivity Cases.depsNotes repository ordersIssue "{}"]
  ∧ snd (registerWebhookRoutes (withMarshal Cases.depsNotes marshalCreatedOnly)
           (withActivities plainServer activityStoreInfoOnly)
           (request "notes" "s3cret"))
    = snd (registerWebhookRoutes Cases.depsNotes plainServer (request "notes" "s3cret"))
  ∧ snd (registerWebhookRoutes (withMarshal Cases.depsNotes marshalOk)
           (withActivities plainServer activityStoreInfoOnly)
           (request "notes" "s3cret"))
    = snd (registerWebhookRoutes Cases.depsNotes plainServer (request "notes" "s3cret")).
Proof.
  assert (Hstore : ∀ ac, ActivityCreate.Level ac = ACTIVITY_INFO →
            activityStoreInfoOnly ac = CreateActivity plainServer ac).
  { intros ac Hlevel. unfold activityStoreInfoOnly. simpl. by rewrite Hlevel. }
  assert (H1 : sameSuccessRecording Cases.depsNotes plainServer marshalCreatedOnly
                 activityStoreInfoOnly).
  { split; [|exact Hstore].
    intros ev issueCreate creator issue Hissue. injection Hissue as <-. reflexivity. }
  assert (H2 : sameSuccessRecording Cases.depsNotes plainServer marshalOk
                 activityStoreInfoOnly).
  { split; [|exact Hstore]. reflexivity. }
  split; [exact H1|]. split; [exact H2|].
  split; [reflexivity|]. split; [reflexivity|]. split; [reflexivity|].
  split.
  - exact (proj1 (ignore_activity_failure_tolerated Cases.depsNotes plainServer
                    marshalCreatedOnly activityStoreInfoOnly
                    (request "notes" "s3cret") H1)).
  - exact (proj1 (ignore_activity_failure_tolerated Cases.depsNotes plainServer
                    marshalOk activityStoreInfoOnly
                    (request "notes" "s3cret") H2)).
Defined.

(** ** Where the code departs from the claims *)

(** The issue store is down: the file resolves to one database that is not
    ambiguous, and no issue is created for it. *)
Lemma resolved_file_without_issue :
  ¬ oneIssuePerResolvedFile plainDeps serverIssuesDown (request "orders" "s3cret").
Proof.
  intros H. destruct (H pushOrders repository eq_refl) as [Hlen _].
  vm_compute in Hlen. discriminate.
Qed.

(** Two [orders] databases in [prod] and a policy store that is down: the
    file is skipped, and two WARN activities are recorded for it. *)
Lemma ambiguous_file_with_activity :
  ¬ ambiguousFileSilent plainDeps serverAmbiguousPoliciesDown repository pushOrders
      commit1 ordersFile.
Proof.
  intros H.
  destruct (H ordersMigration fileContent
              [databaseIn 1 2 "Prod"; databaseIn 4 2 "Prod"] [] eq_refl eq_refl)
    as (_ & _ & Hrec).
  vm_compute in Hrec. discriminate.
Qed.

(** The issue store is down: the failure is logged and the file is
    skipped, and no activity call is made. *)
Lemma issue_failure_without_activity :
  ¬ issueFailureRecorded plainDeps serverIssuesDown repository pushOrders
      commit1 ordersFile.
Proof.
  intros H.
  destruct (H ordersMigration fileContent [databaseIn 1 2 "Prod"]
              (Errorf "issue store unavailable") [] eq_refl eq_refl eq_refl)
    as (_ & _ & ac & Hin & _).
  vm_compute in Hin. by apply elem_of_nil in Hin.
Qed.

(** C3.  The code at a file whose policy lookup fails: [orders] resolves
    to one database in [prod] and the policy store is down.  The WARN
    activity of the failed lookup is recorded, and the file is not
    skipped: its issue is created, with the task pending approval, the
    INFO activity is recorded and the response lists the issue. *)
Theorem policy_failure_issue_still_created :
  let run := registerWebhookRoutes plainDeps serverPoliciesDown
               (request "orders" "s3cret") in
  candidateDatabases plainDeps serverPoliciesDown repository commit1 ordersFile
  = Some (ordersMigration, fileContent, [databaseIn 1 2 "Prod"])
  ∧ policyValue serverPoliciesDown 2 = None
  ∧ List.map (fun ac => (ActivityCreate.Level ac, ActivityCreate.Comment ac))
             (recordedActivities (fst run))
    = [(ACTIVITY_WARN,
        "Ignored committed file " +:+ quotePlain ordersFile
          +:+ ", failed to find pipeline approval policy for environment 2.");
       (ACTIVITY_INFO, "Created issue " +:+ quotePlain "Add orders" +:+ ".")]
  ∧ createdIssues (fst run) = [ordersIssue]
  ∧ snd run
    = HTTPString 200
        ("Created issue " +:+ quotePlain "Add orders" +:+ " on adding " +:+ ordersFile).
Proof. vm_compute. repeat split. Qed.

(** C6.  The code at a file that does not parse as a migration, in a
    repository whose schema path template is no regular expression: the
    push event adds [db/notes.txt] and then the migration of [orders],
    and the template [db/(] does not compile.  The handler logs the
    failed compilation and panics at the first file: no WARN activity is
    emitted for the file that does not parse, and the loop does not go on
    with the next file.  With no schema path template the same request
    gives the WARN activity of the first file and the issue of the
    second. *)
Theorem unparsable_file_panics_on_invalid_template :
  let run := registerWebhookRoutes Cases.depsNotes Cases.serverInvalidTemplate
               (request "notes" "s3cret") in
  let expected := registerWebhookRoutes Cases.depsNotes plainServer
                    (request "notes" "s3cret") in
  validate Cases.depsNotes Cases.serverInvalidTemplate (request "notes" "s3cret")
  = inr (Cases.pushNotes, Cases.invalidTemplateRepository)
  ∧ HasPrefix strayFile (Repository.BaseDirectory Cases.invalidTemplateRepository) = true
  ∧ ParseMigrationInfo Cases.depsNotes strayFile
      (migrationPathTemplate Cases.depsNotes Cases.invalidTemplateRepository)
    = Err strayError
  ∧ pathClass Cases.depsNotes Cases.invalidTemplateRepository strayFile
    = InvalidSchemaTemplate
  ∧ run = ([EvLog Warn "Invalid schema path template."], Panicked)
  ∧ activityCalls (fst expected)
    = [ignoredFileActivity Cases.depsNotes repository strayFile strayError "{}";
       createdIssueActivity Cases.depsNotes repository ordersIssue "{}"]
  ∧ snd expected
    = HTTPString 200
        ("Created issue " +:+ quotePlain "Add orders" +:+ " on adding " +:+ ordersFile).
Proof. vm_compute. repeat split. Qed.

(** ** The status codes of the handler *)

Section StatusCodes.
Context (d : Deps) (s : Server).

Lemma fileStep_Return_created repository pushEvent l file tr r :
  fileStep d s repository pushEvent l file = (tr, Return r) →
  createdIssues tr ≠ [].
Proof.
  destruct file as [commit added]. unfold fileStep. cbn [fst snd].
  destruct (candidateDatabases d s repository commit added) as [[[mi b] dbs]|] eqn:Hc.
  - rewrite (processFile_candidates d s _ pushEvent _ _ _ _ _ l Hc).
    destruct (ambiguous dbs); [discriminate|].
    set (ic := issueCreateOf d s repository pushEvent commit added mi b dbs).
    destruct (CreateIssue s ic (SYSTEM_BOT_ID d)) as [issue|err] eqn:Hi.
    + destruct (successRecorded d s repository
                  (fileVCSPushEvent d repository pushEvent commit added) issue) eqn:Hr.
      * destruct (createIssueAndActivity_recorded d s repository _ added ic l issue Hi Hr)
          as (bytes & _ & ->). discriminate.
      * destruct (createIssueAndActivity_unrecorded d s repository _ added ic l issue Hi Hr)
          as (tr' & msg & -> & _).
        cbn [bind iteration]. intros [= <- _].
        rewrite createdIssues_app. cbn [createdIssues omap list_omap].
        intros H. apply app_eq_nil in H as [_ H]. discriminate.
    + rewrite (createIssueAndActivity_failed d s repository _ added ic l err Hi).
      discriminate.
  - destruct (processFile_no_candidates d s repository pushEvent commit added l Hc)
      as (tr' & Htr & ->).
    destruct (crashes d repository added); discriminate.
Qed.

(** The loop returns only with the server error 500, after an issue was
    created. *)
Lemma forRange_Return repository pushEvent files l tr r :
  forRange files (fileStep d s repository pushEvent) l = (tr, Return r) →
  (∃ message, r = HTTPError 500 message) ∧ createdIssues tr ≠ [].
Proof.
  revert l tr. induction files as [|file files IH]; intros l tr; [discriminate|].
  cbn [forRange].
  destruct (fileStep d s repository pushEvent l file) as [tr1 fl1] eqn:E1.
  destruct fl1 as [l1| |r1|]; cbn [bind]; try discriminate.
  - destruct (forRange files _ l1) as [tr2 fl2] eqn:E2. intros [= <- ->].
    destruct (IH l1 tr2 E2) as [Hr Hc]. split; [exact Hr|].
    rewrite createdIssues_app. intros H. apply app_eq_nil in H as [_ H]. contradiction.
  - intros [= <- <-]. split.
    + destruct (fileStep_Return d s repository pushEvent l file tr1 r1 E1)
        as (issue & message & _ & _ & ->). by exists message.
    + by apply (fileStep_Return_created repository pushEvent l file tr1 r1).
Qed.

(** What the checks before the loops answer. *)
Lemma validate_inl c r :
  validate d s c = inl r →
  ∃ code message,
    r = HTTPError code message
    ∧ ((code = 400 ∧ (rejected d s c ∨ ∃ err, Request.Body c = Err err))
       ∨ (code = 404 ∧ ∃ b pushEvent err,
             Request.Body c = Ok b ∧ jsonUnmarshal d b = Ok pushEvent
             ∧ WebhookPushEvent.ObjectKind pushEvent = WebhookPush
             ∧ FindRepository s (Request.id c) = Err err
             ∧ errorCode err = NotFound)
       ∨ code = 500).
Proof.
  unfold validate.
  destruct (Request.Body c) as [b|err] eqn:Hb.
  2:{ intros [= <-]. eexists _, _. split; [reflexivity|]. left. split; [reflexivity|].
      right. by exists err. }
  destruct (jsonUnmarshal d b) as [pushEvent|err] eqn:Hu.
  2:{ intros [= <-]. eexists _, _. split; [reflexivity|]. left. split; [reflexivity|].
      left. by eapply MalformedPayload. }
  destruct (String.eqb_spec (WebhookPushEvent.ObjectKind pushEvent) WebhookPush)
    as [Hk|Hk]; cbn [negb].
  2:{ intros [= <-]. eexists _, _. split; [reflexivity|]. left. split; [reflexivity|].
      left. by eapply WrongEventKind. }
  destruct (FindRepository s (Request.id c)) as [found|err] eqn:Hf.
  2:{ destruct (errorCode err) eqn:Hcode; intros [= <-]; eexists _, _;
        (split; [reflexivity|]); try (right; right; reflexivity).
      right. left. split; [reflexivity|]. by exists b, pushEvent, err. }
  destruct (ComposeRepositoryRelationship s found) as [repository|err] eqn:Hc.
  2:{ intros [= <-]. eexists _, _. split; [reflexivity|]. by right; right. }
  destruct (String.eqb_spec (Request.GitlabToken c)
                            (Repository.WebhookSecretToken repository)) as [Ht|Ht];
    cbn [negb].
  2:{ intros [= <-]. eexists _, _. split; [reflexivity|]. left. split; [reflexivity|].
      left. by eapply SecretMismatch. }
  destruct (String.eqb_spec (Itoa (Project.ID (WebhookPushEvent.Project pushEvent)))
                            (Repository.ExternalId repository)) as [Hp|Hp];
    cbn [negb]; [discriminate|].
  intros [= <-]. eexists _, _. split; [reflexivity|]. left. split; [reflexivity|].
  left. by eapply ProjectMismatch.
Qed.

(** X1.  The handler answers 200 with a body, or with one of the errors 400,
    404 and 500, or it panics.  When it answers 400 or 404 it has written
    nothing, not even a log line; when it answers 500 it has either
    written nothing or created an issue. *)
Theorem handler_status_codes (c : Request.t) :
  let run := registerWebhookRoutes d s c in
  match snd run with
  | HTTPString code _ => code = 200
  | HTTPError code _ =>
      (code = 400 ∨ code = 404 ∨ code = 500)
      ∧ (code ≠ 500 → fst run = [])
      ∧ (fst run = [] ∨ createdIssues (fst run) ≠ [])
  | Panicked => True
  end.
Proof.
  intros run. subst run. unfold registerWebhookRoutes.
  destruct (validate d s c) as [r|[pushEvent repository]] eqn:Hv.
  - destruct (validate_inl c r Hv) as (code & message & -> & Hcode). cbn [fst snd].
    split; [|split; [done|by left]].
    destruct Hcode as [[-> _]|[[-> _]| ->]]; auto.
  - rewrite processPushEvent_flat.
    destruct (forRange (addedFiles pushEvent) _ []) as [tr fl] eqn:E.
    destruct fl as [l| |r|]; cbn [fst snd]; try done.
    destruct (forRange_Return repository pushEvent _ _ _ _ E) as [[message ->] Hc].
    split; [auto|]. split; [done|by right].
Qed.

(** X2.  The handler answers 400 exactly when the request fails the
    request-level validation or its body cannot be read: no failure while
    the files are processed is answered with 400. *)
Theorem bad_request_iff_rejected (c : Request.t) :
  (∃ message, snd (registerWebhookRoutes d s c) = HTTPError 400 message)
  ↔ (rejected d s c ∨ ∃ err, Request.Body c = Err err).
Proof.
  unfold registerWebhookRoutes. split.
  - intros [message H].
    destruct (validate d s c) as [r|[pushEvent repository]] eqn:Hv.
    + destruct (validate_inl c r Hv) as (code & message' & -> & Hcode).
      cbn [snd] in H. injection H as -> _.
      destruct Hcode as [[_ Hr]|[[Hcode _]|Hcode]]; [exact Hr|discriminate..].
    + rewrite processPushEvent_flat in H.
      destruct (forRange (addedFiles pushEvent) _ []) as [tr fl] eqn:E.
      destruct fl as [l| |r|]; cbn [snd] in H; try discriminate.
      destruct (forRange_Return repository pushEvent _ _ _ _ E) as [[message' ->] _].
      discriminate.
  - unfold validate.
    intros [[b err Hb Hu | b pe Hb Hu Hk | b pe found repo Hb Hu Hk Hf Hc Ht
            | b pe found repo Hb Hu Hk Hf Hc Ht Hp] | [err Hb]]; rewrite Hb;
      try rewrite Hu.
    + by eexists.
    + apply String.eqb_neq in Hk. rewrite Hk. by eexists.
    + apply String.eqb_eq in Hk. apply String.eqb_neq in Ht.
      rewrite Hk, Hf, Hc, Ht. by eexists.
    + apply String.eqb_eq in Hk. apply String.eqb_eq in Ht. apply String.eqb_neq in Hp.
      rewrite Hk, Hf, Hc, Ht, Hp. by eexists.
    + by eexists.
Qed.

(** X3.  The handler answers 404 exactly when the body is a push event and the
    repository service knows no repository for the endpoint; the lookup
    comes before the secret token is compared, so that the answer does not
    depend on the token. *)
Theorem not_found_iff_unknown_endpoint (c : Request.t) :
  (∃ message, snd (registerWebhookRoutes d s c) = HTTPError 404 message)
  ↔ (∃ b pushEvent err,
        Request.Body c = Ok b ∧ jsonUnmarshal d b = Ok pushEvent
        ∧ WebhookPushEvent.ObjectKind pushEvent = WebhookPush
        ∧ FindRepository s (Request.id c) = Err err
        ∧ errorCode err = NotFound).
Proof.
  unfold registerWebhookRoutes. split.
  - intros [message H].
    destruct (validate d s c) as [r|[pushEvent repository]] eqn:Hv.
    + destruct (validate_inl c r Hv) as (code & message' & -> & Hcode).
      cbn [snd] in H. injection H as -> _.
      destruct Hcode as [[Hcode _]|[[_ Hr]|Hcode]]; [discriminate|exact Hr|discriminate].
    + rewrite processPushEvent_flat in H.
      destruct (forRange (addedFiles pushEvent) _ []) as [tr fl] eqn:E.
      destruct fl as [l| |r|]; cbn [snd] in H; try discriminate.
      destruct (forRange_Return repository pushEvent _ _ _ _ E) as [[message' ->] _].
      discriminate.
  - intros (b & pushEvent & err & Hb & Hu & Hk & Hf & Hcode). unfold validate.
    apply String.eqb_eq in Hk. rewrite Hb, Hu, Hk, Hf, Hcode. by eexists.
Qed.
End StatusCodes.

(** ** The files of a push event are processed one by one *)

Lemma after_bind {A} (l : list string) (m : M A) (k : A → M (list string)) :
  after l (bind m k) = bind m (fun a => after l (k a)).
Proof.
  destruct m as [tr []]; try reflexivity. unfold after. cbn [bind].
  by destruct (k a) as [tr' []].
Qed.

Lemma after_after (l l1 : list string) (m : M (list string)) :
  after l (after l1 m) = after (l ++ l1) m.
Proof.
  destruct m as [tr []]; try reflexivity. unfold after. cbn [fst snd].
  by rewrite app_assoc.
Qed.

Section Independence.
Context (d : Deps) (s : Server).

Lemma createIssueAndActivity_after repository ev added ic l :
  createIssueAndActivity d s repository ev added ic l
  = after l (createIssueAndActivity d s repository ev added ic []).
Proof.
  unfold createIssueAndActivity.
  destruct (CreateIssue s ic (SYSTEM_BOT_ID d)) as [issue|err]; [|reflexivity].
  destruct (jsonMarshal d _) as [bytes|err]; [|reflexivity].
  destruct (CreateActivity s _) as [[]|err]; reflexivity.
Qed.

Lemma processMigrationFile_after repository commit ev added l :
  processMigrationFile d s repository commit ev added l
  = after l (processMigrationFile d s repository commit ev added []).
Proof.
  unfold processMigrationFile.
  repeat (rewrite after_bind; apply bind_ext; intros ?).
  apply createIssueAndActivity_after.
Qed.

Lemma processFile_after repository pushEvent commit added l :
  processFile d s repository pushEvent commit added l
  = after l (processFile d s repository pushEvent commit added []).
Proof.
  unfold processFile.
  repeat (rewrite after_bind; apply bind_ext; intros ?).
  apply processMigrationFile_after.
Qed.

Lemma fileStep_after repository pushEvent l file :
  fileStep d s repository pushEvent l file
  = after l (fileStep d s repository pushEvent [] file).
Proof.
  unfold fileStep. rewrite processFile_after.
  destruct (processFile d s repository pushEvent (fst file) (snd file) [])
    as [tr []]; try reflexivity.
  unfold after, iteration. cbn [fst snd]. by rewrite app_nil_r.
Qed.

Lemma forRange_after repository pushEvent files l :
  forRange files (fileStep d s repository pushEvent) l
  = after l (forRange files (fileStep d s repository pushEvent) []).
Proof.
  revert l. induction files as [|file files IH]; intros l.
  - unfold after. cbn. by rewrite app_nil_r.
  - cbn [forRange]. rewrite (fileStep_after _ _ l).
    destruct (fileStep d s repository pushEvent [] file) as [tr []]; try reflexivity.
    unfold after at 1. cbn [fst snd]. rewrite !bind_Go.
    rewrite (IH (l ++ a)), (IH a).
    destruct (forRange files (fileStep d s repository pushEvent) []) as [tr' []];
      try reflexivity.
    unfold after. cbn [fst snd]. by rewrite app_assoc.
Qed.

Lemma forRange_writes repository pushEvent files :
  ∃ n,
    fst (forRange files (fileStep d s repository pushEvent) [])
    = concat ((fun file => fst (fileStep d s repository pushEvent [] file))
                <$> take n files)
    ∧ (∀ l, snd (forRange files (fileStep d s repository pushEvent) []) = Go l →
         n = length files).
Proof.
  induction files as [|file files (n & Htr & Hn)].
  - exists 0%nat. split; [reflexivity|done].
  - cbn [forRange].
    destruct (fileStep d s repository pushEvent [] file) as [tr fl] eqn:E.
    destruct fl as [l1| |r|].
    + exists (S n). rewrite bind_Go, forRange_after.
      cbn [take fmap list_fmap concat fst snd after]. rewrite E. cbn [fst].
      split; [by rewrite Htr|].
      intros l Hl. cbn [length]. f_equal.
      destruct (snd (forRange files (fileStep d s repository pushEvent) []))
        as [l2| | |]; try discriminate.
      by apply (Hn l2).
    + exists 1%nat. cbn [take fmap list_fmap concat bind fst snd]. rewrite E.
      cbn [fst]. rewrite take_0. cbn. split; [by rewrite app_nil_r|done].
    + exists 1%nat. cbn [take fmap list_fmap concat bind fst snd]. rewrite E.
      cbn [fst]. rewrite take_0. cbn. split; [by rewrite app_nil_r|done].
    + exists 1%nat. cbn [take fmap list_fmap concat bind fst snd]. rewrite E.
      cbn [fst]. rewrite take_0. cbn. split; [by rewrite app_nil_r|done].
Qed.

(** X24.  What the handler writes for a request that passes validation
    is what it writes for the added files, one after the other, up to the
    file that ends the request, and for all of them when the answer is
    200; what it writes for a file does not depend on the files before
    it, which only add their lines to the response. *)
Theorem handler_writes_file_by_file (c : Request.t)
    (pushEvent : WebhookPushEvent.t) (repository : Repository.t) :
  validate d s c = inr (pushEvent, repository) →
  let run := registerWebhookRoutes d s c in
  let writes file := fst (fileStep d s repository pushEvent [] file) in
  (∀ createdMessageList file,
     fileStep d s repository pushEvent createdMessageList file
     = after createdMessageList (fileStep d s repository pushEvent [] file))
  ∧ ∃ n,
      fst run = concat (writes <$> take n (addedFiles pushEvent))
      ∧ (∀ code body, snd run = HTTPString code body →
           n = length (addedFiles pushEvent)).
Proof.
  intros Hv run writes. split; [intros; apply fileStep_after|].
  subst run writes. rewrite (registerWebhookRoutes_valid d s c _ _ Hv).
  destruct (forRange_writes repository pushEvent (addedFiles pushEvent))
    as (n & Htr & Hn).
  exists n.
  destruct (forRange (addedFiles pushEvent) (fileStep d s repository pushEvent) [])
    as [tr fl] eqn:E.
  cbn [fst snd] in Htr, Hn.
  destruct fl as [l| |r|]; cbn [fst snd]; (split; [exact Htr|]); try done.
  - intros code body _. by apply (Hn l).
  - intros code body ->.
    destruct (forRange_Return d s repository pushEvent _ _ _ _ E) as [[? ?] _].
    discriminate.
Qed.

End Independence.

(** ** What every write of the handler looks like *)

Section Writes.
Context (d : Deps) (s : Server).

(** The trace of a file without candidate databases is made of log lines
    and of emissions of the WARN activity. *)
Lemma processFile_no_candidates_trace (P : Trace → Prop)
    repository pushEvent commit added l :
  P [] →
  (∀ tr1 tr2, P tr1 → P tr2 → P (tr1 ++ tr2)) →
  (∀ level msg, P [EvLog level msg]) →
  (∀ ev err, P (fst (createIgnoredFileActivity d s repository ev added err))) →
  candidateDatabases d s repository commit added = None →
  P (fst (processFile d s repository pushEvent commit added l)).
Proof.
  intros Hnil Happ Hlog Hemit H.
  unfold candidateDatabases in H. unfold processFile.
  destruct (HasPrefix added _) eqn:Hpre; cbn [negb] in *; [|apply Hlog].
  rewrite bind_ret_l.
  assert (Htime : ∃ createdTime,
    match timeParse d (Commit.Timestamp commit) with
    | Err _ =>
        emit [EvLog Warn "Ignored committed file, failed to parse commit timestamp."] >>
        ret zeroTimeUnix
    | Ok createdTime => ret createdTime
    end = (timestampLog d commit, Go createdTime)).
  { unfold timestampLog. destruct (timeParse d _); [by eexists|].
    rewrite emit_ret. by eexists. }
  destruct Htime as [createdTime ->]. rewrite bind_tt, bind_Go. cbn [fst].
  apply Happ.
  { unfold timestampLog. destruct (timeParse d _); [apply Hnil|apply Hlog]. }
  assert (Htail : ∀ ev,
    match ParseMigrationInfo d added (migrationPathTemplate d repository) with
    | Ok mi =>
        match fetchFile d repository commit added with
        | Ok b =>
            match ComposeDatabaseListByFind s (Repository.ProjectId repository)
                                            (MigrationInfo.Database mi) with
            | Ok databaseList =>
                match filterByEnvironment d mi databaseList with
                | [] => None
                | dbs => Some (mi, b, dbs)
                end
            | Err _ => None
            end
        | Err _ => None
        end
    | Err _ => None
    end = None →
    P (fst (processMigrationFile d s repository commit ev added l))).
  { clear H. intros ev H.
    unfold processMigrationFile, migrationPathTemplate, fetchFile in *.
    destruct (ParseMigrationInfo d added _) as [mi|err]; [|rewrite ignore_continue; cbn [bind fst]; apply Hemit].
    rewrite bind_ret_l.
    destruct (gitlabGET d _ _ _) as [resp|err]; [|rewrite ignore_continue; cbn [bind fst]; apply Hemit].
    rewrite bind_ret_l.
    destruct (Response.Body resp) as [b|err]; [|rewrite ignore_continue; cbn [bind fst]; apply Hemit].
    rewrite bind_ret_l. unfold findDatabaseList.
    destruct (ComposeDatabaseListByFind s _ _) as [l0|err].
    2:{ rewrite ignore_continue. cbn [bind fst]. apply Hemit. }
    unfold filterByEnvironment in H.
    destruct l0 as [|db0 l0].
    { cbn [length Nat.eqb]. rewrite ignore_continue. cbn [bind fst]. apply Hemit. }
    cbn [length Nat.eqb]. rewrite bind_ret_l.
    destruct (String.eqb (MigrationInfo.Environment mi) ""); [discriminate|].
    cbn [negb].
    destruct (List.filter _ (db0 :: l0)) as [|x rest]; [|discriminate].
    cbn [length Nat.eqb]. rewrite ignore_continue. cbn [bind fst]. apply Hemit. }
  unfold matchesSchemaPath in H.
  destruct (String.eqb (Repository.SchemaPathTemplate repository) ""); cbn [negb].
  - rewrite bind_ret_l. by apply Htail.
  - destruct (regexpCompile d _) as [myRegex|err]; [|apply Hlog].
    destruct (myRegex added); [apply Hnil|].
    rewrite bind_ret_l. by apply Htail.
Qed.

Lemma logsOnly_closed (P : Trace → Prop) tr :
  P [] →
  (∀ tr1 tr2, P tr1 → P tr2 → P (tr1 ++ tr2)) →
  (∀ level msg, P [EvLog level msg]) →
  logsOnly tr → P tr.
Proof.
  intros Hnil Happ Hlog. induction 1 as [|e tr He _ IH]; [exact Hnil|].
  destruct e; try contradiction. apply (Happ [_] tr); [apply Hlog|exact IH].
Qed.

Lemma policyTrace_closed (P : Trace → Prop) repository ev added dbs :
  P [] →
  (∀ tr1 tr2, P tr1 → P tr2 → P (tr1 ++ tr2)) →
  (∀ ev' err, P (fst (createIgnoredFileActivity d s repository ev' added err))) →
  P (policyTrace d s repository ev added dbs).
Proof.
  intros Hnil Happ Hemit. unfold policyTrace.
  induction dbs as [|db dbs IH]; [exact Hnil|]. cbn [flat_map].
  apply Happ; [|exact IH].
  destruct (GetPipelineApprovalPolicy s _); [exact Hnil|apply Hemit].
Qed.

Lemma ignoredFileActivity_wellFormed repository added err bytes :
  activityWellFormed d repository (ignoredFileActivity d repository added err bytes).
Proof. unfold activityWellFormed. cbn. auto. Qed.

Lemma createdIssueActivity_wellFormed repository issue bytes :
  activityWellFormed d repository (createdIssueActivity d repository issue bytes).
Proof. unfold activityWellFormed. cbn. auto. Qed.

Lemma createIgnoredFileActivity_wellFormed repository ev added err :
  Forall (eventWellFormed d repository)
         (fst (createIgnoredFileActivity d s repository ev added err)).
Proof.
  unfold createIgnoredFileActivity. cbn [emit bind fst].
  destruct (jsonMarshal d _) as [bytes|].
  2:{ cbn [app]. apply Forall_cons. split; [exact I|].
      apply Forall_cons. split; [exact I|constructor]. }
  cbv zeta.
  destruct (CreateActivity s _); cbn [emit fst app].
  - apply Forall_cons. split; [exact I|]. apply Forall_cons.
    split; [apply ignoredFileActivity_wellFormed|constructor].
  - apply Forall_cons. split; [exact I|]. apply Forall_cons.
    split; [apply ignoredFileActivity_wellFormed|].
    apply Forall_cons. split; [exact I|constructor].
Qed.

(** A candidate set that is not ambiguous has one database per
    environment. *)
Lemma bucket_length_NoDup (dbs : list Database.t) :
  NoDup (List.map envOf dbs) → ∀ e, (length (bucket e dbs) ≤ 1)%nat.
Proof.
  induction dbs as [|db dbs IH]; intros Hnd e; [cbn; lia|].
  cbn [List.map] in Hnd. apply NoDup_cons in Hnd as [Hnotin Hnd].
  destruct (decide (envOf db = e)) as [<-|Hne].
  - rewrite bucket_cons_eq. cbn [length].
    destruct (bucket (envOf db) dbs) as [|x rest] eqn:E; [cbn; lia|].
    exfalso. apply Hnotin.
    assert (Hx : In x (bucket (envOf db) dbs)) by (rewrite E; by left).
    unfold bucket in Hx. apply filter_In in Hx as [Hx He]. apply Z.eqb_eq in He.
    rewrite <- He. apply list_elem_of_In, in_map, Hx.
  - rewrite (bucket_cons_ne e db dbs Hne). by apply IH.
Qed.

Lemma ambiguous_false_iff (dbs : list Database.t) :
  ambiguous dbs = false
  ↔ ∀ database, In database dbs → (length (bucket (envOf database) dbs) ≤ 1)%nat.
Proof.
  unfold ambiguous. split.
  - intros H database Hin.
    destruct (1 <? length (bucket (envOf database) dbs))%nat eqn:E.
    + assert (Ht : existsb (fun database =>
                     (1 <? length (bucket (envOf database) dbs))%nat) dbs = true).
      { apply existsb_exists. by exists database. }
      congruence.
    + apply Nat.ltb_ge in E. exact E.
  - intros H. destruct (existsb _ dbs) eqn:E; [|reflexivity].
    apply existsb_exists in E as (database & Hin & Hlt).
    apply Nat.ltb_lt in Hlt. specialize (H database Hin). lia.
Qed.

Lemma bucket_length_cons e db (dbs : list Database.t) :
  (length (bucket e dbs) ≤ length (bucket e (db :: dbs)))%nat.
Proof.
  destruct (decide (envOf db = e)) as [<-|Hne].
  - rewrite bucket_cons_eq. cbn. lia.
  - by rewrite (bucket_cons_ne e db dbs Hne).
Qed.

Lemma ambiguous_false_NoDup (dbs : list Database.t) :
  ambiguous dbs = false ↔ NoDup (List.map envOf dbs).
Proof.
  split.
  - rewrite ambiguous_false_iff.
    induction dbs as [|db dbs IH]; intros H; [constructor|].
    cbn [List.map]. apply NoDup_cons. split.
    + intros Hin. apply list_elem_of_In, in_map_iff in Hin as (x & Hx & Hin).
      specialize (H db (or_introl eq_refl)). rewrite bucket_cons_eq in H.
      cbn [length] in H.
      assert (Hb : In x (bucket (envOf db) dbs)).
      { unfold bucket. apply filter_In. split; [exact Hin|]. by apply Z.eqb_eq. }
      destruct (bucket (envOf db) dbs); [inversion Hb|cbn in H; lia].
    + apply IH. intros x Hx. specialize (H x (or_intror Hx)).
      pose proof (bucket_length_cons (envOf x) db dbs). lia.
  - intros Hnd. apply ambiguous_false_iff. intros database _.
    by apply bucket_length_NoDup.
Qed.

Lemma issueCreateOf_wellFormed repository pushEvent commit added mi b dbs :
  dbs ≠ [] → ambiguous dbs = false →
  requestWellFormed d repository
    (issueCreateOf d s repository pushEvent commit added mi b dbs).
Proof.
  intros Hne Hamb. unfold requestWellFormed, issueCreateOf, makeIssueCreate.
  cbn [IssueCreate.ProjectId IssueCreate.Type_ IssueCreate.AssigneeId
       IssueCreate.Pipeline PipelineCreate.StageList].
  repeat split.
  - by destruct dbs.
  - apply Forall_forall. intros stage Hin.
    apply list_elem_of_In, in_map_iff in Hin as (db & <- & _).
    unfold stageWellFormed, makeStage. cbn [StageCreate.TaskList].
    eexists. split; [reflexivity|]. cbn [TaskCreate.Type_ TaskCreate.Status].
    split; [reflexivity|]. destruct (String.eqb _ _); auto.
  - rewrite List.map_map. cbn [makeStage StageCreate.EnvironmentId].
    by apply ambiguous_false_NoDup.
Qed.

Lemma createIssueAndActivity_wellFormed repository ev added ic l :
  requestWellFormed d repository ic →
  Forall (eventWellFormed d repository)
         (fst (createIssueAndActivity d s repository ev added ic l)).
Proof.
  intros Hic. unfold createIssueAndActivity.
  assert (Hreq : ∀ res, eventWellFormed d repository
                          (EvCreateIssue ic (SYSTEM_BOT_ID d) res)).
  { intros res. split; [reflexivity|exact Hic]. }
  destruct (CreateIssue s ic _) as [issue|err].
  - cbv zeta. destruct (jsonMarshal d _) as [bytes|].
    + destruct (CreateActivity s _); cbn [emit bind ret return_ fst app].
      * apply Forall_cons. split; [apply Hreq|]. apply Forall_cons.
        split; [apply createdIssueActivity_wellFormed|constructor].
      * apply Forall_cons. split; [apply Hreq|]. apply Forall_cons.
        split; [apply createdIssueActivity_wellFormed|constructor].
    + cbn [emit bind return_ fst app].
      apply Forall_cons. split; [apply Hreq|constructor].
  - cbn [emit bind continue fst app].
    apply Forall_cons. split; [apply Hreq|]. apply Forall_cons. split; [exact I|constructor].
Qed.

Lemma fileStep_wellFormed repository pushEvent l file :
  Forall (eventWellFormed d repository)
         (fst (fileStep d s repository pushEvent l file)).
Proof.
  destruct file as [commit added]. unfold fileStep. cbn [fst snd].
  assert (Hiter : ∀ m : M (list string), fst (iteration l m) = fst m).
  { intros [tr []]; reflexivity. }
  rewrite Hiter.
  destruct (candidateDatabases d s repository commit added) as [[[mi b] dbs]|] eqn:Hc.
  - rewrite (processFile_candidates d s _ pushEvent _ _ _ _ _ l Hc).
    rewrite bind_Go. cbn [fst].
    destruct (candidateDatabases_inv d s _ _ _ _ _ _ Hc) as (_ & _ & _ & _ & Hne & _).
    apply Forall_app_2.
    + apply Forall_app_2.
      { apply (logsOnly_closed (Forall (eventWellFormed d repository)));
          [constructor|apply Forall_app_2|repeat constructor|
           apply timestampLog_logsOnly]. }
      apply Forall_app_2.
      { apply (policyTrace_closed (Forall (eventWellFormed d repository)));
          [constructor|apply Forall_app_2|].
        intros ev' err. apply createIgnoredFileActivity_wellFormed. }
      apply (logsOnly_closed (Forall (eventWellFormed d repository)));
        [constructor|apply Forall_app_2|repeat constructor|
         apply ambiguityLog_logsOnly].
    + destruct (ambiguous dbs) eqn:Hamb; [constructor|].
      apply createIssueAndActivity_wellFormed.
      by apply issueCreateOf_wellFormed.
  - apply (processFile_no_candidates_trace (Forall (eventWellFormed d repository)));
      [constructor|apply Forall_app_2|repeat constructor| |exact Hc].
    intros ev err. apply createIgnoredFileActivity_wellFormed.
Qed.

Lemma forRange_wellFormed repository pushEvent files l :
  Forall (eventWellFormed d repository)
         (fst (forRange files (fileStep d s repository pushEvent) l)).
Proof.
  revert l. induction files as [|file files IH]; intros l; [constructor|].
  cbn [forRange].
  pose proof (fileStep_wellFormed repository pushEvent l file) as H1.
  destruct (fileStep d s repository pushEvent l file) as [tr1 fl1].
  destruct fl1 as [l1| | |]; cbn [bind fst] in *; try exact H1.
  specialize (IH l1). destruct (forRange files _ l1) as [tr2 fl2].
  cbn [fst] in *. by apply Forall_app_2.
Qed.

Lemma run_wellFormed c pushEvent repository :
  validate d s c = inr (pushEvent, repository) →
  Forall (eventWellFormed d repository) (fst (registerWebhookRoutes d s c)).
Proof.
  intros Hv. rewrite (registerWebhookRoutes_valid d s c pushEvent repository Hv).
  pose proof (forRange_wellFormed repository pushEvent (addedFiles pushEvent) []) as H.
  destruct (forRange (addedFiles pushEvent) _ []) as [tr fl].
  by destruct fl.
Qed.

(** X4.  Every activity the handler asks for, in any run and whatever fails,
    is created by the system bot in the project of the repository, has the
    type of a repository push and the level INFO or WARN. *)
Theorem activities_well_formed (c : Request.t)
    (pushEvent : WebhookPushEvent.t) (repository : Repository.t) :
  validate d s c = inr (pushEvent, repository) →
  Forall (activityWellFormed d repository)
         (activityCalls (fst (registerWebhookRoutes d s c))).
Proof.
  intros Hv. pose proof (run_wellFormed c pushEvent repository Hv) as H.
  induction H as [|e tr He _ IH]; [constructor|].
  destruct e; cbn [activityCalls omap list_omap] in *; try exact IH.
  constructor; [exact He|exact IH].
Qed.

(** X5.  Every issue the handler asks for, in any run, is a schema update
    issue of the project of the repository, created by and assigned to the
    system bot; its pipeline has at least one stage, every stage has one
    schema update task that is pending or pending approval, and no two
    stages are in the same environment. *)
Theorem issue_requests_well_formed (c : Request.t)
    (pushEvent : WebhookPushEvent.t) (repository : Repository.t) :
  validate d s c = inr (pushEvent, repository) →
  Forall (requestWellFormed d repository)
         (issueRequests (fst (registerWebhookRoutes d s c)))
  ∧ Forall (fun e => match e with
                     | EvCreateIssue _ creator _ => creator = SYSTEM_BOT_ID d
                     | _ => True
                     end)
           (fst (registerWebhookRoutes d s c)).
Proof.
  intros Hv. pose proof (run_wellFormed c pushEvent repository Hv) as H. split.
  - induction H as [|e tr He _ IH]; [constructor|].
    destruct e; cbn [issueRequests omap list_omap] in *; try exact IH.
    constructor; [exact (proj2 He)|exact IH].
  - eapply Forall_impl; [exact H|]. intros []; cbn; tauto.
Qed.
End Writes.

(** ** The two loops over the candidate databases *)

Section Candidates.
Context (d : Deps) (s : Server).

(** X6.  The maps that the loop of lines 221-239 builds from the candidate
    databases [dbs]: [databaseListByEnv] holds, for each environment id
    with a candidate, the candidates of the environment in the order of
    [dbs], and nothing for another id; [pipelineApprovalByEnv] holds the
    policy value of each such environment whose lookup succeeds, and
    nothing for an environment whose lookup fails. *)
Theorem database_loop_maps (repository : Repository.t) (ev : VCSPushEvent.t)
    (added : string) (dbs : list Database.t) :
  ∃ tr databaseListByEnv pipelineApprovalByEnv,
    forRange dbs (groupDatabase d s repository ev added) (∅, ∅)
    = (tr, Go (databaseListByEnv, pipelineApprovalByEnv))
    ∧ (∀ e : Z, databaseListByEnv !! e
                = match bucket e dbs with [] => None | l => Some l end)
    ∧ (∀ e : Z, pipelineApprovalByEnv !! e
                = match bucket e dbs with
                  | [] => None
                  | _ => match GetPipelineApprovalPolicy s e with
                         | Ok p => Some (PipelineApprovalPolicy.Value p)
                         | Err _ => None
                         end
                  end)
    ∧ (∀ database, database ∈ dbs →
         ∃ l, databaseListByEnv !! envOf database = Some l ∧ database ∈ l).
Proof.
  rewrite groupLoop_eq by (intros e _; apply lookup_empty).
  destruct (fold_left (groupPure s) dbs (∅, ∅)) as [byEnv approval] eqn:E.
  exists (policyTrace d s repository ev added dbs), byEnv, approval.
  split; [reflexivity|].
  assert (Hby : ∀ e : Z, byEnv !! e
                         = match bucket e dbs with [] => None | l => Some l end).
  { intros e. pose proof (fold_groupPure_fst s dbs (∅, ∅) e) as H.
    rewrite E in H. cbn [fst] in H. by rewrite lookup_empty in H. }
  split; [exact Hby|]. split.
  - intros e. pose proof (fold_groupPure_snd s dbs (∅, ∅) e) as H.
    rewrite E in H. cbn [snd] in H. by rewrite lookup_empty in H.
  - intros database Hin. rewrite Hby.
    assert (Hb : In database (bucket (envOf database) dbs)).
    { unfold bucket. apply filter_In. split; [by apply list_elem_of_In|apply Z.eqb_refl]. }
    destruct (bucket (envOf database) dbs) as [|x rest]; [inversion Hb|].
    eexists. split; [reflexivity|]. by apply list_elem_of_In.
Qed.

(** X7.  The flag [multipleDatabaseForSameEnv] that lines 216-251 compute is
    false exactly when the candidate databases are in pairwise different
    environments. *)
Theorem ambiguity_flag_iff (repository : Repository.t) (ev : VCSPushEvent.t)
    (added : string) (mi : MigrationInfo.t) (dbs : list Database.t) :
  ∃ tr multipleDatabaseForSameEnv,
    (maps <- forRange dbs (groupDatabase d s repository ev added) (∅, ∅) ;;
     checkAmbiguous d mi (fst maps))
    = (tr, Go multipleDatabaseForSameEnv)
    ∧ (multipleDatabaseForSameEnv = false ↔ NoDup (List.map envOf dbs)).
Proof.
  rewrite groupLoop_eq by (intros e _; apply lookup_empty).
  rewrite bind_Go, checkAmbiguous_eq. cbn [fst snd].
  eexists _, _. split; [reflexivity|]. apply ambiguous_false_NoDup.
Qed.
End Candidates.

(** ** Files that are ignored, and the files around them *)

Section Ignored.
Context (d : Deps) (s : Server).

Lemma classifyPath_migration repository added mi :
  classifyPath d repository added = MigrationFile mi →
  HasPrefix added (Repository.BaseDirectory repository) = true
  ∧ matchesSchemaPath d repository added = Some false
  ∧ ParseMigrationInfo d added (migrationPathTemplate d repository) = Ok mi.
Proof.
  unfold classifyPath.
  destruct (HasPrefix added _); cbn [negb]; [|discriminate].
  destruct (matchesSchemaPath d repository added) as [[|]|]; try discriminate.
  destruct (ParseMigrationInfo d added _); [|discriminate].
  by intros [= ->].
Qed.

(** The file body up to the call of [db.ParseMigrationInfo], for a file
    that is under the base directory and is not the schema file. *)
Lemma processFile_classified repository pushEvent commit added l :
  HasPrefix added (Repository.BaseDirectory repository) = true →
  matchesSchemaPath d repository added = Some false →
  processFile d s repository pushEvent commit added l
  = ((timestampLog d commit, Go tt) >>
     processMigrationFile d s repository commit
       (fileVCSPushEvent d repository pushEvent commit added) added l).
Proof.
  intros Hpre Hschema. unfold processFile. rewrite Hpre. cbn [negb].
  rewrite bind_ret_l.
  assert (Hskip :
    (if negb (String.eqb (Repository.SchemaPathTemplate repository) "")
     then match regexpCompile d
                  (schemafilePathRegex (Repository.SchemaPathTemplate repository)) with
          | Err _ => emit [EvLog Warn "Invalid schema path template."] >> panic
          | Ok myRegex => if myRegex added then continue else ret tt
          end
     else ret tt) = ret tt).
  { unfold matchesSchemaPath in Hschema.
    destruct (String.eqb (Repository.SchemaPathTemplate repository) "");
      [reflexivity|]. cbn [negb].
    destruct (regexpCompile d _) as [myRegex|]; [|discriminate].
    injection Hschema as ->. reflexivity. }
  unfold fileVCSPushEvent, createdTimeOf, timestampLog.
  destruct (timeParse d (Commit.Timestamp commit)) as [createdTime|err].
  - rewrite bind_ret_l, Hskip, bind_ret_l.
    change (@nil Event, Go tt) with (@ret unit tt). by rewrite bind_ret_l.
  - rewrite emit_ret, bind_tt. apply bind_ext. intros _.
    by rewrite Hskip, bind_ret_l.
Qed.

(** X8.  A file that parses as a migration and cannot be resolved is a recorded
    ignore: when its content cannot be fetched or read, when the database
    lookup fails or finds no database, or when no database is left for the
    environment of the file, the WARN activity is emitted with that
    reason, no issue creation request is submitted, and the loop goes on
    with the next file. *)
Theorem unresolved_migration_recorded (repository : Repository.t)
    (pushEvent : WebhookPushEvent.t) (commit : Commit.t) (added : string)
    (mi : MigrationInfo.t) (reason : error) (createdMessageList : list string) :
  classifyPath d repository added = MigrationFile mi →
  resolutionError d s repository commit added mi = Some reason →
  let step := fileStep d s repository pushEvent createdMessageList (commit, added) in
  let ev := fileVCSPushEvent d repository pushEvent commit added in
  step = (timestampLog d commit
            ++ fst (createIgnoredFileActivity d s repository ev added reason),
          Go createdMessageList)
  ∧ issueRequests (fst step) = []
  ∧ (∀ bytes, jsonMarshal d (ignoredPayload ev) = Ok bytes →
       activityCalls (fst step) = [ignoredFileActivity d repository added reason bytes]).
Proof.
  intros Hclass Hreason step ev. subst step ev.
  destruct (classifyPath_migration repository added mi Hclass)
    as (Hpre & Hschema & Hparse).
  unfold fileStep. cbn [fst snd].
  rewrite (processFile_classified repository pushEvent commit added _ Hpre Hschema).
  set (ev := fileVCSPushEvent d repository pushEvent commit added).
  assert (Hbody :
    processMigrationFile d s repository commit ev added createdMessageList
    = (fst (createIgnoredFileActivity d s repository ev added reason), Continue)).
  { unfold processMigrationFile. unfold migrationPathTemplate in Hparse.
    rewrite Hparse, bind_ret_l. unfold resolutionError in Hreason.
    destruct (gitlabGET d _ _ _) as [resp|err].
    2:{ injection Hreason as <-. by rewrite ignore_continue. }
    rewrite bind_ret_l.
    destruct (Response.Body resp) as [b|err].
    2:{ injection Hreason as <-. by rewrite ignore_continue. }
    rewrite bind_ret_l. unfold findDatabaseList.
    destruct (ComposeDatabaseListByFind s _ _) as [l0|err].
    2:{ injection Hreason as <-. by rewrite ignore_continue. }
    destruct l0 as [|db0 l0].
    { injection Hreason as <-. cbn [length Nat.eqb]. by rewrite ignore_continue. }
    cbn [length Nat.eqb]. rewrite bind_ret_l.
    unfold filterByEnvironment in Hreason.
    destruct (String.eqb (MigrationInfo.Environment mi) ""); [discriminate|].
    cbn [negb].
    destruct (List.filter _ (db0 :: l0)) as [|x rest]; [|discriminate].
    injection Hreason as <-. cbn [length Nat.eqb]. by rewrite ignore_continue. }
  rewrite Hbody. cbn [bind iteration fst snd].
  split; [reflexivity|]. split.
  - apply ignoreOnly_issueRequests, ignoreOnly_app;
      [apply logsOnly_ignoreOnly, timestampLog_logsOnly|
       apply createIgnoredFileActivity_ignoreOnly].
  - intros bytes Hm. rewrite activityCalls_app.
    rewrite (logsOnly_activityCalls _ (timestampLog_logsOnly d commit)).
    unfold createIgnoredFileActivity, ignoredPayload in *. rewrite Hm. cbn.
    by destruct (CreateActivity s _).
Qed.

(** X9.  A commit whose timestamp does not parse is logged as ignored, but its
    files are processed like any other: the issue creation request of a
    resolved file is submitted, and the push event of its tasks carries
    the Unix time of the zero time, -62135596800, as creation time. *)
Theorem unparsable_timestamp_still_processed (repository : Repository.t)
    (pushEvent : WebhookPushEvent.t) (commit : Commit.t) (added : string)
    (mi : MigrationInfo.t) (b : string) (dbs : list Database.t)
    (createdMessageList : list string) (err : error) :
  timeParse d (Commit.Timestamp commit) = Err err →
  candidateDatabases d s repository commit added = Some (mi, b, dbs) →
  ambiguous dbs = false →
  ∃ tr issueCreate,
    fst (processFile d s repository pushEvent commit added createdMessageList)
    = EvLog Warn "Ignored committed file, failed to parse commit timestamp." :: tr
    ∧ issueRequests tr = [issueCreate]
    ∧ Forall
        (fun stage =>
           Forall
             (fun task =>
                VCSFileCommit.CreatedTs
                  (VCSPushEvent.FileCommit (TaskCreate.VCSPushEvent task))
                = -62135596800)
             (StageCreate.TaskList stage))
        (PipelineCreate.StageList (IssueCreate.Pipeline issueCreate)).
Proof.
  intros Htime Hc Hamb.
  rewrite (processFile_resolved d s _ pushEvent _ _ _ _ _ createdMessageList Hc Hamb).
  rewrite bind_Go. cbn [fst]. unfold timestampLog. rewrite Htime.
  eexists _, (issueCreateOf d s repository pushEvent commit added mi b dbs).
  cbn [app]. split; [reflexivity|]. split.
  - rewrite issueRequests_app, createIssueAndActivity_requests.
    by rewrite (ignoreOnly_issueRequests _ (policyTrace_ignoreOnly d s _ _ _ _)).
  - unfold issueCreateOf, makeIssueCreate.
    cbn [IssueCreate.Pipeline PipelineCreate.StageList].
    apply Forall_forall. intros stage Hin.
    apply list_elem_of_In, in_map_iff in Hin as (db & <- & _).
    cbn [makeStage StageCreate.TaskList]. constructor; [|constructor].
    cbn. unfold createdTimeOf. by rewrite Htime.
Qed.

(** X10.  A push event whose added files are all outside the base directory is
    answered with 200 and an empty body; the handler writes one debug log
    line per file and nothing else. *)
Theorem files_outside_base_directory (c : Request.t)
    (pushEvent : WebhookPushEvent.t) (repository : Repository.t) :
  validate d s c = inr (pushEvent, repository) →
  Forall (fun file : Commit.t * string =>
            HasPrefix (snd file) (Repository.BaseDirectory repository) = false)
         (addedFiles pushEvent) →
  registerWebhookRoutes d s c
  = (List.map (fun _ => EvLog Debug "Ignored committed file, not under base directory.")
              (addedFiles pushEvent),
     HTTPString 200 "").
Proof.
  intros Hv Hout. rewrite (registerWebhookRoutes_valid d s c pushEvent repository Hv).
  assert (H : ∀ l, forRange (addedFiles pushEvent) (fileStep d s repository pushEvent) l
                   = (List.map (fun _ => EvLog Debug
                                 "Ignored committed file, not under base directory.")
                               (addedFiles pushEvent), Go l)).
  { induction Hout as [|[commit added] files Hfile _ IH]; intros l; [reflexivity|].
    cbn [forRange List.map]. unfold fileStep at 1, processFile. cbn [fst snd] in *.
    rewrite Hfile. cbn [negb emit continue bind iteration app].
    by rewrite IH. }
  by rewrite H.
Qed.

(** X11.  A repository whose schema path template does not compile to a regular
    expression cannot take a migration: whatever the files are, no issue
    is requested and no activity is emitted; the handler panics at the first
    added file under the base directory, after logging the warning, and
    answers 200 with an empty body when there is no such file. *)
Theorem invalid_schema_template_blocks (c : Request.t)
    (pushEvent : WebhookPushEvent.t) (repository : Repository.t) (err : error) :
  validate d s c = inr (pushEvent, repository) →
  Repository.SchemaPathTemplate repository ≠ "" →
  regexpCompile d (schemafilePathRegex (Repository.SchemaPathTemplate repository))
  = Err err →
  let run := registerWebhookRoutes d s c in
  issueRequests (fst run) = []
  ∧ activityCalls (fst run) = []
  ∧ snd run
    = (if forallb (fun file : Commit.t * string =>
                     negb (HasPrefix (snd file) (Repository.BaseDirectory repository)))
                  (addedFiles pushEvent)
       then HTTPString 200 ""
       else Panicked)
  ∧ (snd run = Panicked →
       last (fst run) = Some (EvLog Warn "Invalid schema path template.")).
Proof.
  intros Hv Htmpl Hcompile run. subst run.
  rewrite (registerWebhookRoutes_valid d s c pushEvent repository Hv).
  apply String.eqb_neq in Htmpl.
  assert (H : ∀ files l,
    ∃ tr, logsOnly tr
          ∧ forRange files (fileStep d s repository pushEvent) l
            = (tr,
               if forallb (fun file : Commit.t * string =>
                             negb (HasPrefix (snd file)
                                             (Repository.BaseDirectory repository)))
                          files
               then Go l else Panic)
          ∧ (forallb (fun file : Commit.t * string =>
                        negb (HasPrefix (snd file)
                                        (Repository.BaseDirectory repository)))
                     files = false →
             last tr = Some (EvLog Warn "Invalid schema path template."))).
  { induction files as [|[commit added] files IH]; intros l.
    - exists []. repeat split; [constructor|discriminate].
    - cbn [forRange forallb snd]. unfold fileStep at 1, processFile. cbn [fst snd].
      destruct (HasPrefix added _) eqn:Hpre; cbn [negb andb].
      + rewrite bind_ret_l, Htmpl, Hcompile. cbn [negb].
        exists (timestampLog d commit ++ [EvLog Warn "Invalid schema path template."]).
        split; [|split].
        * apply Forall_app_2; [apply timestampLog_logsOnly|repeat constructor].
        * unfold timestampLog.
          destruct (timeParse d (Commit.Timestamp commit)); reflexivity.
        * intros _. apply last_snoc.
      + destruct (IH l) as (tr & Hlogs & Heq & Hlast).
        exists (EvLog Debug "Ignored committed file, not under base directory." :: tr).
        cbn [emit continue bind iteration app]. rewrite Heq.
        split; [by constructor|]. split; [reflexivity|].
        intros Hf. specialize (Hlast Hf). destruct tr; [discriminate|exact Hlast]. }
  destruct (H (addedFiles pushEvent) []) as (tr & Hlogs & -> & Hlast).
  destruct (forallb _ (addedFiles pushEvent)); cbn [fst snd].
  - repeat split; try discriminate.
    + by apply ignoreOnly_issueRequests, logsOnly_ignoreOnly.
    + by apply logsOnly_activityCalls.
  - repeat split.
    + by apply ignoreOnly_issueRequests, logsOnly_ignoreOnly.
    + by apply logsOnly_activityCalls.
    + intros _. by apply Hlast.
Qed.
End Ignored.

(** ** The INFO activities *)

Section InfoActivities.
Context (d : Deps) (s : Server).

Lemma infoActivities_app tr1 tr2 :
  infoActivities (tr1 ++ tr2) = infoActivities tr1 ++ infoActivities tr2.
Proof.
  unfold infoActivities. by rewrite recordedActivities_app, List.filter_app.
Qed.

Lemma ignoreOnly_infoActivities tr : ignoreOnly tr → infoActivities tr = [].
Proof.
  unfold infoActivities. induction 1 as [|e tr He _ IH]; [reflexivity|].
  destruct e as [| |ac res]; cbn [recordedActivities omap list_omap] in *;
    try discriminate; try exact IH.
  destruct res; [|exact IH]. cbn [List.filter]. cbn [isIgnoreEvent] in He.
  destruct (ActivityCreate.Level ac); try discriminate; exact IH.
Qed.

Lemma fileStep_info repository pushEvent l file :
  let step := fileStep d s repository pushEvent l file in
  match snd step with
  | Return _ =>
      ∃ issue, createdIssues (fst step) = [issue] ∧ infoActivities (fst step) = []
  | _ =>
      Forall2 (recordsIssue d repository)
              (infoActivities (fst step)) (createdIssues (fst step))
  end.
Proof.
  intros step. subst step. destruct file as [commit added].
  unfold fileStep. cbn [fst snd].
  destruct (candidateDatabases d s repository commit added) as [[[mi b] dbs]|] eqn:Hc.
  - rewrite (processFile_candidates d s _ pushEvent _ _ _ _ _ l Hc).
    pose proof (resolution_ignoreOnly d s repository
                  (fileVCSPushEvent d repository pushEvent commit added)
                  added commit mi dbs) as Hpre.
    destruct (ambiguous dbs).
    + cbn [continue bind iteration fst snd]. rewrite app_nil_r.
      rewrite ignoreOnly_infoActivities, ignoreOnly_createdIssues by exact Hpre.
      constructor.
    + set (ic := issueCreateOf d s repository pushEvent commit added mi b dbs).
      destruct (CreateIssue s ic (SYSTEM_BOT_ID d)) as [issue|err] eqn:Hi.
      * destruct (successRecorded d s repository
                    (fileVCSPushEvent d repository pushEvent commit added) issue) eqn:Hr.
        -- destruct (createIssueAndActivity_recorded d s repository _ added ic l issue Hi Hr)
             as (bytes & _ & ->).
           cbn [bind iteration fst snd].
           rewrite infoActivities_app, createdIssues_app.
           rewrite ignoreOnly_infoActivities, ignoreOnly_createdIssues by exact Hpre.
           cbn. constructor; [by exists bytes|constructor].
        -- destruct (createIssueAndActivity_unrecorded d s repository _ added ic l issue Hi Hr)
             as (tr & msg & -> & Hreq & Hrec).
           cbn [bind iteration fst snd]. exists issue.
           rewrite infoActivities_app, createdIssues_app.
           rewrite ignoreOnly_infoActivities, ignoreOnly_createdIssues by exact Hpre.
           cbn [app createdIssues omap list_omap]. split.
           ++ f_equal. clear - Hreq. induction tr as [|e tr IH]; [reflexivity|].
              destruct e; cbn in *; try discriminate; by apply IH.
           ++ unfold infoActivities. cbn [recordedActivities omap list_omap].
              fold (recordedActivities tr). by rewrite Hrec.
      * rewrite (createIssueAndActivity_failed d s repository _ added ic l err Hi).
        cbn [bind iteration fst snd].
        rewrite infoActivities_app, createdIssues_app.
        rewrite ignoreOnly_infoActivities, ignoreOnly_createdIssues by exact Hpre.
        cbn. constructor.
  - destruct (processFile_no_candidates d s repository pushEvent commit added l Hc)
      as (tr & Htr & ->).
    destruct (crashes d repository added); cbn [iteration fst snd];
      rewrite ignoreOnly_infoActivities, ignoreOnly_createdIssues by exact Htr;
      constructor.
Qed.

Lemma forRange_info repository pushEvent files l :
  let run := forRange files (fileStep d s repository pushEvent) l in
  match snd run with
  | Return _ =>
      ∃ recorded issue,
        createdIssues (fst run) = recorded ++ [issue]
        ∧ Forall2 (recordsIssue d repository) (infoActivities (fst run)) recorded
  | _ =>
      Forall2 (recordsIssue d repository)
              (infoActivities (fst run)) (createdIssues (fst run))
  end.
Proof.
  revert l. induction files as [|file files IH]; intros l; [constructor|].
  cbv zeta in *. cbn [forRange].
  pose proof (fileStep_info repository pushEvent l file) as H1. cbv zeta in H1.
  destruct (fileStep d s repository pushEvent l file) as [tr1 fl1].
  cbn [fst snd] in H1.
  destruct fl1 as [l1| |r1|]; cbn [bind fst snd]; try exact H1.
  - specialize (IH l1). destruct (forRange files _ l1) as [tr2 fl2].
    cbn [fst snd] in *. rewrite infoActivities_app, createdIssues_app.
    destruct fl2 as [l2| |r2|]; try (by apply Forall2_app).
    destruct IH as (recorded & issue & Hc & Hrec).
    exists (createdIssues tr1 ++ recorded), issue.
    rewrite Hc, app_assoc. split; [reflexivity|]. by apply Forall2_app.
  - destruct H1 as (issue & Hc & Hi). exists [], issue.
    rewrite Hc, Hi. split; [reflexivity|constructor].
Qed.

(** X12.  The INFO activities recorded in a run are the activities of the
    created issues, one per issue and in the same order; when the handler
    answers with an error after the files were reached, and only then,
    the last created issue has no INFO activity. *)
Theorem info_activity_per_created_issue (c : Request.t)
    (pushEvent : WebhookPushEvent.t) (repository : Repository.t) :
  validate d s c = inr (pushEvent, repository) →
  let run := registerWebhookRoutes d s c in
  match snd run with
  | HTTPError _ _ =>
      ∃ recorded issue,
        createdIssues (fst run) = recorded ++ [issue]
        ∧ Forall2 (recordsIssue d repository) (infoActivities (fst run)) recorded
  | _ =>
      Forall2 (recordsIssue d repository)
              (infoActivities (fst run)) (createdIssues (fst run))
  end.
Proof.
  intros Hv run. subst run.
  rewrite (registerWebhookRoutes_valid d s c pushEvent repository Hv).
  pose proof (forRange_info repository pushEvent (addedFiles pushEvent) []) as H.
  cbv zeta in H.
  destruct (forRange (addedFiles pushEvent) _ []) as [tr fl] eqn:E.
  cbn [fst snd] in H.
  destruct fl as [l1| |r|]; cbn [fst snd]; try exact H.
  destruct (forRange_Return d s repository pushEvent _ _ _ _ E) as [[message ->] _].
  exact H.
Qed.
End InfoActivities.

(** ** Replacing placeholders *)

Lemma append_cons (x : ascii) (a b : string) :
  String x a +:+ b = String x (a +:+ b).
Proof. reflexivity. Qed.

Lemma append_assoc (a b c : string) : (a +:+ b) +:+ c = a +:+ (b +:+ c).
Proof.
  induction a as [|x a IH]; [reflexivity|].
  change (String x ((a +:+ b) +:+ c) = String x (a +:+ (b +:+ c))). by rewrite IH.
Qed.

Lemma prefix_head (c0 c : ascii) (old' str : string) :
  c0 ≠ c → String.prefix (String c0 old') (String c str) = false.
Proof. intros Hne. simpl. by destruct (ascii_dec c0 c). Qed.

Lemma prefix_append (a b : string) : String.prefix a (a +:+ b) = true.
Proof.
  induction a as [|x a IH]; simpl; [by destruct b|].
  destruct (ascii_dec x x); [exact IH|contradiction].
Qed.

Lemma replaceFrom_skip (a rest old new : string) :
  replaceFrom (String.length a) (a +:+ rest) old new = replaceFrom O rest old new.
Proof. induction a as [|x a IH]; simpl; [reflexivity|exact IH]. Qed.

(** [strings.ReplaceAll] returns a string without an occurrence of [old]
    as it is. *)
Lemma ReplaceAll_absent (str old new : string) :
  Contains str old = false → ReplaceAll str old new = str.
Proof.
  unfold ReplaceAll. induction str as [|c str IH]; [reflexivity|].
  cbn [Contains replaceFrom]. intros H. apply orb_false_iff in H as [Hp Hc].
  rewrite Hp. by rewrite IH.
Qed.

Lemma Contains_byte_cons (c0 c : ascii) (str : string) :
  Contains (String c str) (String c0 "")
  = (if ascii_dec c0 c then true else Contains str (String c0 "")).
Proof. simpl. destruct (ascii_dec c0 c); [by destruct str|reflexivity]. Qed.

Lemma Contains_byte_append (c0 : ascii) (a b : string) :
  Contains (a +:+ b) (String c0 "")
  = Contains a (String c0 "") || Contains b (String c0 "").
Proof.
  induction a as [|x a IH].
  - change ("" +:+ b) with b. by destruct b.
  - rewrite append_cons, !Contains_byte_cons.
    destruct (ascii_dec c0 x); [reflexivity|exact IH].
Qed.

(** A string without the first byte of [old] has no occurrence of [old]. *)
Lemma Contains_head_absent (c0 : ascii) (old' str : string) :
  Contains str (String c0 "") = false → Contains str (String c0 old') = false.
Proof.
  induction str as [|c str IH]; [reflexivity|].
  rewrite Contains_byte_cons. destruct (ascii_dec c0 c) as [|Hne]; [discriminate|].
  intros H. cbn [Contains]. rewrite (prefix_head c0 c old' str Hne). by apply IH.
Qed.

(** The first occurrence of [old] after a stretch without the first byte
    of [old] is replaced, and the replacement goes on behind it. *)
Lemma ReplaceAll_first (c0 : ascii) (old' new p rest : string) :
  Contains p (String c0 "") = false →
  ReplaceAll (p +:+ String c0 old' +:+ rest) (String c0 old') new
  = p +:+ new +:+ ReplaceAll rest (String c0 old') new.
Proof.
  unfold ReplaceAll. induction p as [|c p IH].
  - intros _. change ("" +:+ String c0 old' +:+ rest) with (String c0 (old' +:+ rest)).
    cbn [replaceFrom].
    change (String c0 (old' +:+ rest)) with (String c0 old' +:+ rest).
    rewrite prefix_append. cbn [String.length Nat.pred].
    rewrite replaceFrom_skip. reflexivity.
  - rewrite Contains_byte_cons. destruct (ascii_dec c0 c) as [|Hne]; [discriminate|].
    intros H. rewrite (append_cons c p (String c0 old' +:+ rest)).
    rewrite (append_cons c p (new +:+ _)). cbn [replaceFrom].
    rewrite (prefix_head c0 c old' _ Hne). by rewrite IH.
Qed.

(** X13.  The expression built from a schema path template with the two
    placeholders: each placeholder becomes its capture group, and the text
    around them, when it has no brace, is copied as it is, without escaping
    and without anchors. *)
Theorem schemafilePathRegex_template (p0 p1 p2 : string) :
  Contains p0 "{" = false → Contains p1 "{" = false → Contains p2 "{" = false →
  schemafilePathRegex (p0 +:+ "{{ENV_NAME}}" +:+ p1 +:+ "{{DB_NAME}}" +:+ p2)
  = p0 +:+ placeholderGroup "ENV_NAME" +:+ p1 +:+ placeholderGroup "DB_NAME" +:+ p2.
Proof.
  intros H0 H1 H2. unfold schemafilePathRegex, placeholderList. cbn [fold_left].
  change ("{{" +:+ "ENV_NAME" +:+ "}}") with "{{ENV_NAME}}".
  change ("{{" +:+ "DB_NAME" +:+ "}}") with "{{DB_NAME}}".
  fold (placeholderGroup "ENV_NAME"). fold (placeholderGroup "DB_NAME").
  rewrite (ReplaceAll_first "{" "{ENV_NAME}}" _ p0 _ H0).
  rewrite (ReplaceAll_absent (p1 +:+ "{{DB_NAME}}" +:+ p2)).
  2:{ assert (Hq : Contains ("DB_NAME}}" +:+ p2) "{" = false).
      { rewrite Contains_byte_append, H2. reflexivity. }
      assert (Hd : Contains ("{{DB_NAME}}" +:+ p2) "{{ENV_NAME}}" = false).
      { change ("{{DB_NAME}}" +:+ p2)
          with (String "{" (String "{" ("DB_NAME}}" +:+ p2))).
        cbn [Contains String.prefix].
        rewrite (Contains_head_absent "{" "{ENV_NAME}}" _ Hq).
        destruct (ascii_dec "{" "{"); [|contradiction]. cbn. reflexivity. }
      clear - H1 Hd. induction p1 as [|c p1 IH]; [exact Hd|].
      rewrite Contains_byte_cons in H1.
      destruct (ascii_dec "{" c) as [|Hne]; [discriminate|].
      rewrite append_cons. cbn [Contains].
      rewrite (prefix_head "{" c "{ENV_NAME}}" _ Hne). by apply IH. }
  rewrite <- !append_assoc.
  rewrite (append_assoc _ "{{DB_NAME}}" p2).
  rewrite (ReplaceAll_first "{" "{DB_NAME}}" _ _ p2).
  2:{ rewrite !Contains_byte_append, H0, H1. reflexivity. }
  rewrite (ReplaceAll_absent p2) by (by apply Contains_head_absent).
  by rewrite !append_assoc.
Qed.

(** X14.  A schema path template in which no placeholder occurs is its own
    expression. *)
Theorem schemafilePathRegex_no_placeholder (template : string) :
  Contains template "{{ENV_NAME}}" = false →
  Contains template "{{DB_NAME}}" = false →
  schemafilePathRegex template = template.
Proof.
  intros Henv Hdb. unfold schemafilePathRegex, placeholderList. cbn [fold_left].
  change ("{{" +:+ "ENV_NAME" +:+ "}}") with "{{ENV_NAME}}".
  change ("{{" +:+ "DB_NAME" +:+ "}}") with "{{DB_NAME}}".
  rewrite (ReplaceAll_absent template _ _ Henv). by apply ReplaceAll_absent.
Qed.

(** ** The expression of the handler is the one of the specification *)

Lemma schemafilePathRegex_unfold (template : string) :
  schemafilePathRegex template
  = ReplaceAll (ReplaceAll template "{{ENV_NAME}}" (placeholderGroup "ENV_NAME"))
               "{{DB_NAME}}" (placeholderGroup "DB_NAME").
Proof. reflexivity. Qed.

Lemma string_length_append (a b : string) :
  String.length (a +:+ b) = (String.length a + String.length b)%nat.
Proof.
  induction a as [|x a IH]; [reflexivity|].
  rewrite append_cons. cbn [String.length]. by rewrite IH.
Qed.

Lemma prefix_split (a t : string) :
  String.prefix a t = true → ∃ rest, t = a +:+ rest.
Proof.
  revert t. induction a as [|x a IH]; intros t H.
  - by exists t.
  - destruct t as [|y t]; [discriminate|]. cbn [String.prefix] in H.
    destruct (ascii_dec x y) as [->|]; [|discriminate].
    destruct (IH t H) as [rest ->]. by exists rest.
Qed.

(** A stretch without the first byte of [old] is copied. *)
Lemma ReplaceAll_clean_prefix (c0 : ascii) (old' new p x : string) :
  Contains p (String c0 "") = false →
  ReplaceAll (p +:+ x) (String c0 old') new = p +:+ ReplaceAll x (String c0 old') new.
Proof.
  unfold ReplaceAll. induction p as [|c p IH]; [reflexivity|].
  rewrite Contains_byte_cons. destruct (ascii_dec c0 c) as [|Hne]; [discriminate|].
  intros H. rewrite !append_cons. cbn [replaceFrom].
  rewrite (prefix_head c0 c old' _ Hne). by rewrite IH.
Qed.

(** What starts a string after the replacement by a text that opens with
    [g0], and has no [g0] itself, started the string before. *)
Lemma prefix_ReplaceAll_inv (g0 : ascii) (old new' w x : string) :
  old ≠ "" →
  Contains w (String g0 "") = false →
  String.prefix w (ReplaceAll x old (String g0 new')) = true →
  String.prefix w x = true.
Proof.
  intros Hold. revert x. induction w as [|a w IH]; intros x Hw H.
  - by destruct x.
  - rewrite Contains_byte_cons in Hw.
    destruct (ascii_dec g0 a) as [|Hne]; [discriminate|].
    destruct x as [|b x]; [discriminate|].
    unfold ReplaceAll in H. cbn [replaceFrom] in H.
    destruct (String.prefix old (String b x)) eqn:Hp.
    + rewrite append_cons in H. cbn [String.prefix] in H.
      destruct (ascii_dec a g0); [congruence|discriminate].
    + cbn [String.prefix] in *. destruct (ascii_dec a b); [|discriminate].
      by apply IH.
Qed.

Lemma ReplaceAll_head (c0 : ascii) (old' new rest : string) :
  ReplaceAll (String c0 old' +:+ rest) (String c0 old') new
  = new +:+ ReplaceAll rest (String c0 old') new.
Proof. exact (ReplaceAll_first c0 old' new "" rest eq_refl). Qed.

Lemma substitutePlaceholders_ENV_NAME (rest : string) :
  schemaPathExpression ("{{ENV_NAME}}" +:+ rest)
  = placeholderGroup "ENV_NAME" +:+ schemaPathExpression rest.
Proof.
  unfold schemaPathExpression.
  change ("{{ENV_NAME}}" +:+ rest) with (String "{" ("{ENV_NAME}}" +:+ rest)) at 1.
  cbn [substitutePlaceholders].
  change (String "{" ("{ENV_NAME}}" +:+ rest)) with ("{{ENV_NAME}}" +:+ rest).
  by rewrite prefix_append.
Qed.

Lemma substitutePlaceholders_DB_NAME (rest : string) :
  schemaPathExpression ("{{DB_NAME}}" +:+ rest)
  = placeholderGroup "DB_NAME" +:+ schemaPathExpression rest.
Proof.
  unfold schemaPathExpression.
  change ("{{DB_NAME}}" +:+ rest) with (String "{" ("{DB_NAME}}" +:+ rest)) at 1.
  cbn [substitutePlaceholders].
  change (String.prefix "{{ENV_NAME}}" (String "{" ("{DB_NAME}}" +:+ rest))) with false.
  change (String "{" ("{DB_NAME}}" +:+ rest)) with ("{{DB_NAME}}" +:+ rest).
  by rewrite prefix_append.
Qed.

(** The first replacement leaves the other placeholder as it is. *)
Lemma ReplaceAll_ENV_NAME_DB_NAME (new rest : string) :
  ReplaceAll ("{{DB_NAME}}" +:+ rest) "{{ENV_NAME}}" new
  = "{{DB_NAME}}" +:+ ReplaceAll rest "{{ENV_NAME}}" new.
Proof. reflexivity. Qed.

Lemma schemafilePathRegex_expression_aux (n : nat) (template : string) :
  (String.length template ≤ n)%nat →
  schemafilePathRegex template = schemaPathExpression template.
Proof.
  revert template. induction n as [|n IH]; intros template Hlen.
  { destruct template; [reflexivity|cbn in Hlen; lia]. }
  destruct (String.prefix "{{ENV_NAME}}" template) eqn:HE.
  - apply prefix_split in HE as [rest ->].
    rewrite substitutePlaceholders_ENV_NAME, schemafilePathRegex_unfold.
    rewrite ReplaceAll_head.
    rewrite (ReplaceAll_clean_prefix "{" "{DB_NAME}}") by reflexivity.
    rewrite <- schemafilePathRegex_unfold.
    rewrite IH; [reflexivity|]. rewrite string_length_append in Hlen. cbn in Hlen. lia.
  - destruct (String.prefix "{{DB_NAME}}" template) eqn:HD.
    + apply prefix_split in HD as [rest ->].
      rewrite substitutePlaceholders_DB_NAME, schemafilePathRegex_unfold.
      rewrite ReplaceAll_ENV_NAME_DB_NAME, ReplaceAll_head.
      rewrite <- schemafilePathRegex_unfold.
      rewrite IH; [reflexivity|]. rewrite string_length_append in Hlen. cbn in Hlen. lia.
    + destruct template as [|c rest]; [reflexivity|].
      rewrite schemafilePathRegex_unfold. unfold schemaPathExpression.
      destruct (String.prefix "{{DB_NAME}}"
                  (ReplaceAll (String c rest) "{{ENV_NAME}}" (placeholderGroup "ENV_NAME")))
        eqn:HD'.
      { apply (prefix_ReplaceAll_inv "(") in HD'; [congruence|discriminate|reflexivity]. }
      unfold ReplaceAll in *. cbn [replaceFrom] in HD' |- *. rewrite HE in HD' |- *.
      cbn [replaceFrom]. rewrite HD'.
      cbn [substitutePlaceholders]. rewrite HE, HD. f_equal.
      apply (IH rest). cbn in Hlen. lia.
Qed.

(** The expression that the handler builds by replacing one placeholder
    after the other is the expression of the specification, for every
    schema path template. *)
Lemma schemafilePathRegex_expression (template : string) :
  schemafilePathRegex template = schemaPathExpression template.
Proof. by apply (schemafilePathRegex_expression_aux (String.length template)). Qed.

(** ** The classifier *)

Section SpecifiedRules.
Context (d : Deps) (s : Server).

Lemma matchesSchemaArtifact_eq (repository : Repository.t) (added : string) :
  matchesSchemaArtifact d repository added = matchesSchemaPath d repository added.
Proof.
  unfold matchesSchemaArtifact, matchesSchemaPath.
  by rewrite schemafilePathRegex_expression.
Qed.

Lemma pathClass_eq (repository : Repository.t) (added : string) :
  pathClass d repository added = classifyPath d repository added.
Proof. unfold pathClass, classifyPath. by rewrite matchesSchemaArtifact_eq. Qed.

(** What the body of the file loop does with a file of each class of the
    specification.  A file whose path does not begin with the base
    directory is skipped: no activity call, no issue creation call,
    nothing added to the response.  A file that matches the expression of
    the schema path template is skipped in the same way.  For a file that
    does not parse against the migration file path template the WARN
    activity of an ignored file is emitted with the error of the parser,
    no issue is created, and the loop goes on with the next file.  Where
    the expression of the schema path template is no regular expression,
    every file under the base directory makes the handler panic after the
    log line of the failed compilation, whether it parses or not. *)
Lemma pathClass_rules (repository : Repository.t)
    (pushEvent : WebhookPushEvent.t) (commit : Commit.t) (added : string)
    (createdMessageList : list string) :
  let step := fileStep d s repository pushEvent createdMessageList (commit, added) in
  let ev := fileVCSPushEvent d repository pushEvent commit added in
  match pathClass d repository added with
  | OutsideBaseDirectory =>
      HasPrefix added (Repository.BaseDirectory repository) = false
      ∧ snd step = Go createdMessageList
      ∧ activityCalls (fst step) = []
      ∧ issueRequests (fst step) = []
  | GeneratedSchemaFile =>
      snd step = Go createdMessageList
      ∧ activityCalls (fst step) = []
      ∧ issueRequests (fst step) = []
  | NotAMigration err =>
      step = (timestampLog d commit
                ++ fst (createIgnoredFileActivity d s repository ev added err),
              Go createdMessageList)
      ∧ issueRequests (fst step) = []
      ∧ (∀ bytes, jsonMarshal d (ignoredPayload ev) = Ok bytes →
           activityCalls (fst step) = [ignoredFileActivity d repository added err bytes]
           ∧ ActivityCreate.Level (ignoredFileActivity d repository added err bytes)
             = ACTIVITY_WARN)
  | InvalidSchemaTemplate =>
      step = (timestampLog d commit ++ [EvLog Warn "Invalid schema path template."],
              Panic)
  | MigrationFile _ => True
  end.
Proof.
  intros step ev. subst step ev. rewrite pathClass_eq.
  unfold classifyPath, fileStep, processFile. cbn [fst snd].
  destruct (HasPrefix added _) eqn:Hpre; cbn [negb].
  2:{ done. }
  rewrite bind_ret_l.
  unfold fileVCSPushEvent, createdTimeOf, timestampLog.
  unfold matchesSchemaPath.
  destruct (String.eqb (Repository.SchemaPathTemplate repository) "") eqn:Htmpl;
    cbn [negb].
  - destruct (ParseMigrationInfo d added (migrationPathTemplate d repository))
      as [mi|err] eqn:Hparse; [exact I|].
    unfold migrationPathTemplate in Hparse. unfold processMigrationFile.
    destruct (timeParse d (Commit.Timestamp commit)) as [createdTime|terr].
    + rewrite !bind_ret_l. rewrite Hparse, ignore_continue. cbn [bind iteration fst snd app].
      split; [reflexivity|]. split.
      { apply ignoreOnly_issueRequests, createIgnoredFileActivity_ignoreOnly. }
      emission_calls.
    + rewrite emit_ret, bind_tt. rewrite !bind_ret_l. rewrite Hparse, ignore_continue.
      cbn [bind iteration fst snd app].
      split; [reflexivity|]. split.
      { apply (ignoreOnly_issueRequests (_ :: _)). constructor; [reflexivity|].
        apply createIgnoredFileActivity_ignoreOnly. }
      emission_calls.
  - destruct (regexpCompile d _) as [myRegex|rerr].
    2:{ destruct (timeParse d (Commit.Timestamp commit)) as [createdTime|terr];
          reflexivity. }
    destruct (myRegex added).
    + destruct (timeParse d (Commit.Timestamp commit)) as [createdTime|terr]; done.
    + destruct (ParseMigrationInfo d added (migrationPathTemplate d repository))
        as [mi|err] eqn:Hparse; [exact I|].
      unfold migrationPathTemplate in Hparse. unfold processMigrationFile.
      destruct (timeParse d (Commit.Timestamp commit)) as [createdTime|terr].
      * rewrite !bind_ret_l. rewrite Hparse, ignore_continue.
        cbn [bind iteration fst snd app].
        split; [reflexivity|]. split.
        { apply ignoreOnly_issueRequests, createIgnoredFileActivity_ignoreOnly. }
        emission_calls.
      * rewrite emit_ret, bind_tt. rewrite !bind_ret_l. rewrite Hparse, ignore_continue.
        cbn [bind iteration fst snd app].
        split; [reflexivity|]. split.
        { apply (ignoreOnly_issueRequests (_ :: _)). constructor; [reflexivity|].
          apply createIgnoredFileActivity_ignoreOnly. }
        emission_calls.
Qed.

End SpecifiedRules.

(** The rules on the repository with the schema path template
    [db/{{ENV_NAME}}/.{{DB_NAME}}__LATEST.sql]: the generated schema file
    of [orders] is skipped without an activity, and the file that is no
    migration is recorded with the error of the parser. *)
Lemma pathClass_rules_schema_repository :
  pathClass (deps marshalOk compileSchema) schemaRepository schemaFile
  = GeneratedSchemaFile
  ∧ activityCalls
      (fst (fileStep (deps marshalOk compileSchema) plainServer schemaRepository
              (pushOf "push" 7 [commit3]) [] (commit3, schemaFile))) = []
  ∧ pathClass (deps marshalOk compileSchema) schemaRepository strayFile
    = NotAMigration strayError
  ∧ activityCalls
      (fst (fileStep (deps marshalOk compileSchema) plainServer schemaRepository
              (pushOf "push" 7 [commit3]) [] (commit3, strayFile)))
    = [ignoredFileActivity (deps marshalOk compileSchema) schemaRepository
         strayFile strayError "{}"].
Proof.
  assert (Hschema : pathClass (deps marshalOk compileSchema) schemaRepository schemaFile
                    = GeneratedSchemaFile) by reflexivity.
  assert (Hstray : pathClass (deps marshalOk compileSchema) schemaRepository strayFile
                   = NotAMigration strayError) by reflexivity.
  split; [exact Hschema|]. split; [|split; [exact Hstray|]].
  - pose proof (pathClass_rules (deps marshalOk compileSchema) plainServer
                  schemaRepository (pushOf "push" 7 [commit3]) commit3 schemaFile [])
      as H.
    cbv zeta in H. rewrite Hschema in H. exact (proj1 (proj2 H)).
  - pose proof (pathClass_rules (deps marshalOk compileSchema) plainServer
                  schemaRepository (pushOf "push" 7 [commit3]) commit3 strayFile [])
      as H.
    cbv zeta in H. rewrite Hstray in H. destruct H as (_ & _ & H).
    exact (proj1 (H "{}" eq_refl)).
Qed.

(** ** The issue status transitions *)

Section IssueTransitionTables.
Import IssueTransitions.

(** X15.  Every action that the creator's or the assignee's list offers
    at a status has a transition in [ISSUE_STATUS_TRANSITION_LIST], the
    transition carries the type it is filed under, it leads to a status
    other than the current one, and the assignee is offered the action as
    well. *)
Theorem applicable_actions_defined
    (actions : list (IssueStatus * list IssueStatusTransitionType))
    (status : IssueStatus) (action : IssueStatusTransitionType) :
  actions = CREATOR_APPLICABLE_ACTION_LIST
  ∨ actions = ASSIGNEE_APPLICABLE_ACTION_LIST →
  action ∈ applicable actions status →
  ∃ transition,
    mapGet ISSUE_STATUS_TRANSITION_LIST action = Some transition
    ∧ type transition = action
    ∧ to transition ≠ status
    ∧ action ∈ applicable ASSIGNEE_APPLICABLE_ACTION_LIST status.
Proof.
  intros [-> | ->] Hin; destruct status; vm_compute in Hin;
    repeat (apply elem_of_cons in Hin as [-> | Hin]);
    try (by apply elem_of_nil in Hin);
    (eexists; split; [reflexivity|]; split; [reflexivity|]; split;
     [discriminate|]); vm_compute; repeat constructor.
Qed.

Lemma applicable_actions_defined_witness :
  ∃ transition,
    mapGet ISSUE_STATUS_TRANSITION_LIST CANCEL = Some transition
    ∧ type transition = CANCEL
    ∧ to transition ≠ OPEN
    ∧ CANCEL ∈ applicable ASSIGNEE_APPLICABLE_ACTION_LIST OPEN.
Proof.
  apply (applicable_actions_defined CREATOR_APPLICABLE_ACTION_LIST OPEN CANCEL).
  - left. reflexivity.
  - vm_compute. constructor.
Defined.

Lemma step_inv (actions : list (IssueStatus * list IssueStatusTransitionType))
    (status status' : IssueStatus) :
  step actions status status' →
  ∃ action transition,
    action ∈ applicable actions status
    ∧ mapGet ISSUE_STATUS_TRANSITION_LIST action = Some transition
    ∧ status' = to transition.
Proof. intros H. destruct H as [status action transition Hin Hget]. eauto. Qed.

(** X16.  The creator of an issue cannot resolve it: along the actions
    offered to the creator, an issue that is not [DONE] never becomes
    [DONE]. *)
Theorem creator_never_resolves (status status' : IssueStatus) :
  rtc (step CREATOR_APPLICABLE_ACTION_LIST) status status' →
  status ≠ DONE → status' ≠ DONE.
Proof.
  induction 1 as [|status mid status' Hstep _ IH]; [done|].
  intros Hne. apply IH.
  apply step_inv in Hstep as (action & transition & Hin & Hget & ->).
  destruct status; [| done |]; vm_compute in Hin;
    repeat (apply elem_of_cons in Hin as [-> | Hin]);
    try (by apply elem_of_nil in Hin);
    vm_compute in Hget; injection Hget as <-; discriminate.
Qed.

Lemma creator_never_resolves_witness : CANCELED ≠ DONE.
Proof.
  apply (creator_never_resolves OPEN CANCELED); [|discriminate].
  apply rtc_once.
  apply (step_action CREATOR_APPLICABLE_ACTION_LIST OPEN CANCEL
           {| type := CANCEL; to := CANCELED;
              buttonName := "Cancel issue"; buttonClass := "btn-normal" |}).
  - vm_compute. constructor.
  - reflexivity.
Defined.

(** X17.  The assignee can take an issue from every status to every
    other one, with at most two actions. *)
Theorem assignee_reaches_every_status (status status' : IssueStatus) :
  ∃ n, (n ≤ 2)%nat ∧ nsteps (step ASSIGNEE_APPLICABLE_ACTION_LIST) n status status'.
Proof.
  assert (Hresolve : step ASSIGNEE_APPLICABLE_ACTION_LIST OPEN DONE).
  { apply (step_action _ OPEN RESOLVE
             {| type := RESOLVE; to := DONE;
                buttonName := "Resolve"; buttonClass := "btn-success" |});
      [vm_compute; repeat constructor | reflexivity]. }
  assert (Hcancel : step ASSIGNEE_APPLICABLE_ACTION_LIST OPEN CANCELED).
  { apply (step_action _ OPEN CANCEL
             {| type := CANCEL; to := CANCELED;
                buttonName := "Cancel issue"; buttonClass := "btn-normal" |});
      [vm_compute; repeat constructor | reflexivity]. }
  assert (Hreopen : ∀ status, status ≠ OPEN →
            step ASSIGNEE_APPLICABLE_ACTION_LIST status OPEN).
  { intros st Hst.
    apply (step_action _ st REOPEN
             {| type := REOPEN; to := OPEN;
                buttonName := "Reopen"; buttonClass := "btn-normal" |});
      [destruct st; [done| |]; vm_compute; repeat constructor | reflexivity]. }
  destruct status, status';
    first [ exists 0%nat; split; [lia|]; by apply nsteps_O
          | exists 1%nat; split; [lia|]; apply nsteps_once;
            first [exact Hresolve | exact Hcancel | by apply Hreopen]
          | exists 2%nat; split; [lia|];
            apply (nsteps_l _ _ _ OPEN);
            [by apply Hreopen
            | apply nsteps_once; first [exact Hresolve | exact Hcancel]] ].
Qed.

End IssueTransitionTables.

(** ** Sorting an array *)

Section ArraySort.
Context {A : Type} (compareFn : A → A → Z).

Lemma insertSorted_Permutation (a : A) (l : list A) :
  insertSorted compareFn a l ≡ₚ a :: l.
Proof.
  induction l as [|b l IH]; [reflexivity|]. cbn [insertSorted].
  destruct (compareFn a b <=? 0)%Z; [reflexivity|].
  rewrite IH. apply Permutation_swap.
Qed.

Lemma arraySort_Permutation (l : list A) : arraySort compareFn l ≡ₚ l.
Proof.
  induction l as [|a l IH]; [reflexivity|].
  unfold arraySort in *. cbn [foldr]. rewrite insertSorted_Permutation.
  by rewrite IH.
Qed.

(** The comparator orders the elements consistently. *)
Hypothesis compareFn_total : ∀ a b, (compareFn a b <= 0 ∨ compareFn b a <= 0)%Z.
Hypothesis compareFn_trans :
  ∀ a b c, (compareFn a b <= 0 → compareFn b c <= 0 → compareFn a c <= 0)%Z.

Lemma insertSorted_StronglySorted (a : A) (l : list A) :
  StronglySorted (fun a b => (compareFn a b <= 0)%Z) l →
  StronglySorted (fun a b => (compareFn a b <= 0)%Z) (insertSorted compareFn a l).
Proof.
  induction l as [|b l IH]; intros Hs.
  - cbn. repeat constructor.
  - cbn [insertSorted]. apply StronglySorted_inv in Hs as [Hs Hb].
    destruct (compareFn a b <=? 0)%Z eqn:E.
    + apply Z.leb_le in E. constructor; [by constructor|].
      constructor; [exact E|].
      eapply List.Forall_impl; [|exact Hb]. intros c Hc. cbn beta in *.
      by apply (compareFn_trans a b c).
    + apply Z.leb_gt in E. constructor; [by apply IH|].
      rewrite insertSorted_Permutation. constructor; [|exact Hb].
      destruct (compareFn_total a b); lia.
Qed.

Lemma StronglySorted_weaken (R R' : A → A → Prop) (l : list A) :
  (∀ a b, R a b → R' a b) → StronglySorted R l → StronglySorted R' l.
Proof.
  intros HR. induction 1 as [|a l _ IH Hall]; constructor; [exact IH|].
  eapply List.Forall_impl; [|exact Hall]. apply HR.
Qed.

Lemma arraySort_StronglySorted (l : list A) :
  StronglySorted (fun a b => (compareFn a b <= 0)%Z) (arraySort compareFn l).
Proof.
  induction l as [|a l IH]; [constructor|].
  unfold arraySort in *. cbn [foldr]. by apply insertSorted_StronglySorted.
Qed.

End ArraySort.

(** ** The task check bar *)

Section TaskChecks.
Import TaskCheckBar.

Lemma taskCheckStatusFrom_severity (value : TaskCheckStatus)
    (resultList : list TaskCheckResult.t) :
  value ≠ ERROR →
  severity (taskCheckStatusFrom value resultList)
  = (severity value
       `max` max_list ((fun r => severity (TaskCheckResult.status r)) <$> resultList))%nat.
Proof.
  revert value. induction resultList as [|[st] rest IH]; intros value Hv.
  - cbn. lia.
  - assert (Hle : (max_list ((fun r => severity (TaskCheckResult.status r)) <$> rest) ≤ 2)%nat).
    { clear. induction rest as [|[[]] l IH]; cbn in *; lia. }
    change (taskCheckStatusFrom value (TaskCheckResult.mk st :: rest))
      with (match st with
            | ERROR => ERROR
            | WARN => taskCheckStatusFrom WARN rest
            | SUCCESS => taskCheckStatusFrom value rest
            end).
    change (max_list ((fun r => severity (TaskCheckResult.status r))
                        <$> TaskCheckResult.mk st :: rest))
      with (severity st
              `max` max_list ((fun r => severity (TaskCheckResult.status r)) <$> rest))%nat.
    destruct st; [rewrite IH by done|rewrite IH by done|];
      destruct value; try done; cbn [severity]; lia.
Qed.

(** X18.  [taskCheckStatus] gives the most severe status of the results
    of a check run, in the order [SUCCESS] < [WARN] < [ERROR], and
    [SUCCESS] for a run without results. *)
Theorem taskCheckStatus_most_severe (taskCheckRun : TaskCheckRun.t) :
  severity (taskCheckStatus taskCheckRun)
  = max_list
      ((fun r => severity (TaskCheckResult.status r))
         <$> TaskCheckRunResult.resultList (TaskCheckRun.result taskCheckRun)).
Proof.
  unfold taskCheckStatus. by rewrite taskCheckStatusFrom_severity.
Qed.

Lemma arraySort_newerFirst (l : list TaskCheckRun.t) :
  StronglySorted newerFirst
    (arraySort (fun a b => TaskCheckRun.createdTs b - TaskCheckRun.createdTs a) l).
Proof.
  eapply StronglySorted_weaken; last first.
  - apply arraySort_StronglySorted; intros; lia.
  - intros a b. unfold newerFirst. cbn beta. lia.
Qed.

Lemma tabTaskCheckRunList_elem (task : Task.t) (state : LocalState.t)
    (selected check : TaskCheckRun.t) :
  LocalState.selectedTaskCheckRun state = Some selected →
  check ∈ tabTaskCheckRunList task state
  ↔ check ∈ Task.taskCheckRunList task
    ∧ TaskCheckRun.type check = TaskCheckRun.type selected.
Proof.
  intros Hsel. unfold tabTaskCheckRunList. rewrite Hsel. cbv zeta.
  rewrite arraySort_Permutation.
  rewrite !list_elem_of_In, List.filter_In, String.eqb_eq. reflexivity.
Qed.

(** X19.  While a check run is selected, the tabs of the modal are the
    check runs of the task that have the type of the selected run, each
    as often as the task has it, from the newest to the oldest. *)
Theorem tabTaskCheckRunList_sorted (task : Task.t) (state : LocalState.t)
    (selected : TaskCheckRun.t) :
  LocalState.selectedTaskCheckRun state = Some selected →
  tabTaskCheckRunList task state
  ≡ₚ List.filter
       (fun check => String.eqb (TaskCheckRun.type check) (TaskCheckRun.type selected))
       (Task.taskCheckRunList task)
  ∧ StronglySorted newerFirst (tabTaskCheckRunList task state).
Proof.
  intros Hsel. unfold tabTaskCheckRunList. rewrite Hsel. cbv zeta. split.
  - apply arraySort_Permutation.
  - apply arraySort_newerFirst.
Qed.

(** X20.  When the selected check run is one of the task, the first tab
    is titled Latest and stands for a check run of the selected type that
    no check run of that type of the task is newer than; there are as
    many tabs as check runs of that type. *)
Theorem latest_tab_is_newest (humanizeTs : Z → string) (task : Task.t)
    (state : LocalState.t) (selected : TaskCheckRun.t) :
  LocalState.selectedTaskCheckRun state = Some selected →
  selected ∈ Task.taskCheckRunList task →
  ∃ latest runs items,
    tabTaskCheckRunList task state = latest :: runs
    ∧ tabItemList humanizeTs task state
      = {| BBTabFilterItem.title := "Latest"; BBTabFilterItem.alert := false |} :: items
    ∧ length items = length runs
    ∧ latest ∈ Task.taskCheckRunList task
    ∧ TaskCheckRun.type latest = TaskCheckRun.type selected
    ∧ ∀ check, check ∈ Task.taskCheckRunList task →
        TaskCheckRun.type check = TaskCheckRun.type selected →
        TaskCheckRun.createdTs check <= TaskCheckRun.createdTs latest.
Proof.
  intros Hsel Hin.
  assert (Hs : StronglySorted newerFirst (tabTaskCheckRunList task state)).
  { unfold tabTaskCheckRunList. rewrite Hsel. apply arraySort_newerFirst. }
  pose proof (tabTaskCheckRunList_elem task state selected) as Helem.
  unfold tabItemList.
  destruct (tabTaskCheckRunList task state) as [|latest runs] eqn:E.
  - exfalso. assert (Hin' : selected ∈ @nil TaskCheckRun.t)
      by (by apply (Helem selected Hsel)).
    by apply elem_of_nil in Hin'.
  - exists latest, runs. eexists. split; [reflexivity|].
    split; [cbn [imap Nat.eqb]; reflexivity|].
    split; [by rewrite length_imap|].
    destruct (proj1 (Helem latest Hsel)) as [Hl Ht]; [by left|].
    split; [exact Hl|]. split; [exact Ht|].
    intros check Hc Hty.
    assert (Hcheck : check ∈ latest :: runs) by (by apply (Helem check Hsel)).
    apply StronglySorted_inv in Hs as [_ Hall].
    apply elem_of_cons in Hcheck as [-> | Hcheck]; [lia|].
    rewrite List.Forall_forall in Hall. apply (Hall check).
    by apply list_elem_of_In.
Qed.

(** X21.  Selecting one of the tabs makes the check run of the tab the
    selected one and leaves the tabs as they are. *)
Theorem selectIndex_keeps_tabs (task : Task.t) (state : LocalState.t) (index : nat) :
  (index < length (tabTaskCheckRunList task state))%nat →
  ∃ taskCheckRun,
    tabTaskCheckRunList task state !! index = Some taskCheckRun
    ∧ LocalState.selectedTaskCheckRun (selectIndex task state index) = Some taskCheckRun
    ∧ tabTaskCheckRunList task (selectIndex task state index)
      = tabTaskCheckRunList task state.
Proof.
  intros Hlt. apply lookup_lt_is_Some_2 in Hlt as [run Hrun].
  exists run. split; [exact Hrun|]. split; [exact Hrun|].
  destruct (LocalState.selectedTaskCheckRun state) as [selected|] eqn:Hsel.
  - assert (Hty : TaskCheckRun.type run = TaskCheckRun.type selected).
    { apply (tabTaskCheckRunList_elem task state selected run Hsel).
      by eapply list_elem_of_lookup_2. }
    unfold tabTaskCheckRunList at 1.
    cbn [selectIndex LocalState.selectedTaskCheckRun].
    rewrite Hrun. unfold tabTaskCheckRunList. rewrite Hsel. cbv zeta.
    by rewrite Hty.
  - unfold tabTaskCheckRunList in Hrun. rewrite Hsel in Hrun. done.
Qed.

(** X22.  In every state that the bar reaches, the modal is shown exactly
    when a check run is selected. *)
Theorem modal_shown_iff_selected (task : Task.t) (state : LocalState.t) :
  reachable task state →
  LocalState.showModal state = true
  ↔ is_Some (LocalState.selectedTaskCheckRun state).
Proof.
  induction 1 as [|state run _ _|state _ _|state index _ IH Hlt].
  - cbn. split; [done|]. by intros [? ?].
  - cbn. split; [by eexists|done].
  - cbn. split; [done|]. by intros [? ?].
  - cbn [selectIndex LocalState.showModal LocalState.selectedTaskCheckRun].
    split; intros _.
    + by apply lookup_lt_is_Some_2.
    + apply IH. unfold tabTaskCheckRunList in Hlt.
      destruct (LocalState.selectedTaskCheckRun state); [by eexists|].
      cbn in Hlt. lia.
Qed.

End TaskChecks.

(** ** The grants of an instance user *)

Lemma grantText_cons (c : ascii) (grant : string) :
  grantText (String c grant)
  = if Ascii.eqb c (ascii_of_nat 10)
    then String (ascii_of_nat 10) (String (ascii_of_nat 10) (grantText grant))
    else String c (grantText grant).
Proof.
  unfold grantText, ReplaceAll, newline. cbn [replaceFrom String.prefix].
  destruct (Ascii.eqb_spec c (ascii_of_nat 10)) as [-> | Hne].
  - destruct (ascii_dec (ascii_of_nat 10) (ascii_of_nat 10)); [|contradiction].
    destruct grant; reflexivity.
  - destruct (ascii_dec (ascii_of_nat 10) c); [congruence|reflexivity].
Qed.

(** X23.  The text shown for a grant has every newline of the grant
    twice and the other characters as they are: the number of newlines
    doubles, the length grows by the number of newlines, and replacing
    the double newlines by single ones gives the grant back. *)
Theorem grantText_doubles_newlines (grant : string) :
  countNewlines (grantText grant) = (2 * countNewlines grant)%nat
  ∧ String.length (grantText grant)
    = (String.length grant + countNewlines grant)%nat
  ∧ ReplaceAll (grantText grant) (newline +:+ newline) newline = grant.
Proof.
  induction grant as [|c grant (IHc & IHl & IHr)]; [done|].
  rewrite grantText_cons.
  destruct (Ascii.eqb_spec c (ascii_of_nat 10)) as [-> | Hne].
  - cbn [countNewlines String.length]. rewrite Ascii.eqb_refl, IHc, IHl.
    split; [lia|]. split; [lia|].
    unfold ReplaceAll, newline in *. 
    change (String (ascii_of_nat 10) "" +:+ String (ascii_of_nat 10) "")
      with (String (ascii_of_nat 10) (String (ascii_of_nat 10) "")) in *.
    cbn [replaceFrom String.prefix String.length Nat.pred].
    destruct (ascii_dec (ascii_of_nat 10) (ascii_of_nat 10)); [|contradiction].
    assert (Hp : String.prefix "" (grantText grant) = true)
      by (by destruct (grantText grant)).
    rewrite Hp. cbn [replaceFrom String.append]. by rewrite IHr.
  - cbn [countNewlines String.length].
    rewrite (proj2 (Ascii.eqb_neq c (ascii_of_nat 10)) Hne), IHc, IHl.
    split; [lia|]. split; [lia|].
    unfold ReplaceAll, newline in *.
    change (String (ascii_of_nat 10) "" +:+ String (ascii_of_nat 10) "")
      with (String (ascii_of_nat 10) (String (ascii_of_nat 10) "")) in *.
    cbn [replaceFrom String.prefix].
    destruct (ascii_dec (ascii_of_nat 10) c); [congruence|]. by rewrite IHr.
Qed.

(** ** The further properties on the concrete installation *)

Import Cases.

Lemma activities_well_formed_witness :
  validate plainDeps serverPoliciesDown (request "both" "s3cret")
  = inr (pushBoth, repository)
  ∧ Forall (activityWellFormed plainDeps repository)
      (activityCalls
         (fst (registerWebhookRoutes plainDeps serverPoliciesDown
                 (request "both" "s3cret")))).
Proof.
  split; [reflexivity|].
  exact (activities_well_formed plainDeps serverPoliciesDown (request "both" "s3cret")
           pushBoth repository eq_refl).
Defined.

Lemma issue_requests_well_formed_witness :
  validate plainDeps plainServer (request "both" "s3cret") = inr (pushBoth, repository)
  ∧ Forall (requestWellFormed plainDeps repository)
      (issueRequests
         (fst (registerWebhookRoutes plainDeps plainServer (request "both" "s3cret")))).
Proof.
  split; [reflexivity|].
  exact (proj1 (issue_requests_well_formed plainDeps plainServer
                  (request "both" "s3cret") pushBoth repository eq_refl)).
Defined.

Lemma unresolved_migration_recorded_witness :
  classifyPath plainDeps repository ordersFile = MigrationFile ordersMigration
  ∧ resolutionError plainDeps serverNoDatabase repository commit1 ordersFile
      ordersMigration = Some noDatabaseError
  ∧ activityCalls
      (fst (fileStep plainDeps serverNoDatabase repository pushOrders []
              (commit1, ordersFile)))
    = [ignoredFileActivity plainDeps repository ordersFile noDatabaseError "{}"].
Proof.
  split; [reflexivity|]. split; [reflexivity|].
  destruct (unresolved_migration_recorded plainDeps serverNoDatabase repository
              pushOrders commit1 ordersFile ordersMigration noDatabaseError []
              eq_refl eq_refl)
    as (_ & _ & H).
  exact (H "{}" eq_refl).
Defined.

Lemma unparsable_timestamp_still_processed_witness :
  timeParse depsTimeDown (Commit.Timestamp commit1)
  = Err (Errorf "parsing time: cannot parse as 2006-01-02T15:04:05Z07:00")
  ∧ ∃ tr issueCreate,
      fst (processFile depsTimeDown plainServer repository pushOrders commit1
             ordersFile [])
      = EvLog Warn "Ignored committed file, failed to parse commit timestamp." :: tr
      ∧ issueRequests tr = [issueCreate].
Proof.
  split; [reflexivity|].
  destruct (unparsable_timestamp_still_processed depsTimeDown plainServer repository
              pushOrders commit1 ordersFile ordersMigration fileContent
              [databaseIn 1 2 "Prod"] []
              (Errorf "parsing time: cannot parse as 2006-01-02T15:04:05Z07:00")
              eq_refl eq_refl eq_refl)
    as (tr & issueCreate & Htr & Hreq & _).
  exists tr, issueCreate. split; [exact Htr|exact Hreq].
Defined.

Lemma files_outside_base_directory_witness :
  validate plainDeps serverElsewhere (request "both" "s3cret")
  = inr (pushBoth, repositoryElsewhere)
  ∧ snd (registerWebhookRoutes plainDeps serverElsewhere (request "both" "s3cret"))
    = HTTPString 200 "".
Proof.
  split; [reflexivity|].
  rewrite (files_outside_base_directory plainDeps serverElsewhere
             (request "both" "s3cret") pushBoth repositoryElsewhere eq_refl).
  - reflexivity.
  - repeat constructor.
Defined.

Lemma invalid_schema_template_blocks_witness :
  validate (deps marshalOk compileFails) serverSchema (request "orders" "s3cret")
  = inr (pushOrders, schemaRepository)
  ∧ issueRequests
      (fst (registerWebhookRoutes (deps marshalOk compileFails) serverSchema
              (request "orders" "s3cret"))) = []
  ∧ snd (registerWebhookRoutes (deps marshalOk compileFails) serverSchema
           (request "orders" "s3cret")) = Panicked.
Proof.
  split; [reflexivity|].
  destruct (invalid_schema_template_blocks (deps marshalOk compileFails) serverSchema
              (request "orders" "s3cret") pushOrders schemaRepository
              (Errorf "error parsing regexp") eq_refl)
    as (Hreq & _ & Hres & _); [discriminate|reflexivity|].
  split; [exact Hreq|exact Hres].
Defined.

Lemma info_activity_per_created_issue_witness :
  validate plainDeps plainServer (request "both" "s3cret") = inr (pushBoth, repository)
  ∧ Forall2 (recordsIssue plainDeps repository)
      (infoActivities
         (fst (registerWebhookRoutes plainDeps plainServer (request "both" "s3cret"))))
      [ordersIssue; usersIssue].
Proof.
  split; [reflexivity|].
  exact (info_activity_per_created_issue plainDeps plainServer (request "both" "s3cret")
           pushBoth repository eq_refl).
Defined.

Lemma schemafilePathRegex_template_witness :
  schemafilePathRegex (Repository.SchemaPathTemplate schemaRepository)
  = "db/" +:+ placeholderGroup "ENV_NAME" +:+ "/."
      +:+ placeholderGroup "DB_NAME" +:+ "__LATEST.sql".
Proof.
  exact (schemafilePathRegex_template "db/" "/." "__LATEST.sql" eq_refl eq_refl eq_refl).
Defined.

Lemma schemafilePathRegex_no_placeholder_witness :
  schemafilePathRegex "db/schema.sql" = "db/schema.sql".
Proof.
  exact (schemafilePathRegex_no_placeholder "db/schema.sql" eq_refl eq_refl).
Defined.

Lemma tabTaskCheckRunList_sorted_witness :
  TaskCheckBar.LocalState.selectedTaskCheckRun viewing = Some syntaxCheck1
  ∧ StronglySorted TaskCheckBar.newerFirst (TaskCheckBar.tabTaskCheckRunList task viewing).
Proof.
  split; [reflexivity|].
  exact (proj2 (tabTaskCheckRunList_sorted task viewing syntaxCheck1 eq_refl)).
Defined.

Lemma latest_tab_is_newest_witness :
  syntaxCheck1 ∈ TaskCheckBar.Task.taskCheckRunList task
  ∧ ∃ latest runs items,
      TaskCheckBar.tabTaskCheckRunList task viewing = latest :: runs
      ∧ TaskCheckBar.tabItemList (fun ts => Itoa ts) task viewing
        = {| TaskCheckBar.BBTabFilterItem.title := "Latest";
             TaskCheckBar.BBTabFilterItem.alert := false |} :: items
      ∧ length items = length runs.
Proof.
  assert (Hin : syntaxCheck1 ∈ TaskCheckBar.Task.taskCheckRunList task) by (by left).
  split; [exact Hin|].
  destruct (latest_tab_is_newest (fun ts => Itoa ts) task viewing syntaxCheck1
              eq_refl Hin)
    as (latest & runs & items & Htabs & Hitems & Hlen & _).
  exists latest, runs, items. split; [exact Htabs|]. split; [exact Hitems|exact Hlen].
Defined.

Lemma selectIndex_keeps_tabs_witness :
  (1 < length (TaskCheckBar.tabTaskCheckRunList task viewing))%nat
  ∧ TaskCheckBar.tabTaskCheckRunList task (TaskCheckBar.selectIndex task viewing 1)
    = TaskCheckBar.tabTaskCheckRunList task viewing.
Proof.
  assert (Hlt : (1 < length (TaskCheckBar.tabTaskCheckRunList task viewing))%nat)
    by (vm_compute; lia).
  split; [exact Hlt|].
  destruct (selectIndex_keeps_tabs task viewing 1 Hlt) as (run & _ & _ & Hsame).
  exact Hsame.
Defined.

Lemma modal_shown_iff_selected_witness :
  TaskCheckBar.reachable task viewing
  ∧ (TaskCheckBar.LocalState.showModal viewing = true
     ↔ is_Some (TaskCheckBar.LocalState.selectedTaskCheckRun viewing)).
Proof.
  assert (H : TaskCheckBar.reachable task viewing)
    by (apply TaskCheckBar.reachable_view, TaskCheckBar.reachable_initial).
  split; [exact H|].
  exact (modal_shown_iff_selected task viewing H).
Defined.

Lemma handler_writes_file_by_file_witness :
  validate plainDeps plainServer (request "both" "s3cret") = inr (pushBoth, repository)
  ∧ fileStep plainDeps plainServer repository pushBoth
      [createdMessage plainDeps ordersIssue ordersFile] (commit2, usersFile)
    = after [createdMessage plainDeps ordersIssue ordersFile]
        (fileStep plainDeps plainServer repository pushBoth [] (commit2, usersFile)).
Proof.
  split; [reflexivity|].
  exact (proj1 (handler_writes_file_by_file plainDeps plainServer
                  (request "both" "s3cret") pushBoth repository eq_refl) _ _).
Defined.
